(** * LODP packet processing (lodp_pkt.c): a shallow embedding

    The packet layer of liblodp: the encrypt-then-MAC envelope, the
    DTLS-style cookie, the modified ntor handshake, the ingress dispatcher
    and the egress builders.

    How the C is read.
    - A C object is a list of bytes of the size of the object; an access
      that leaves the object is undefined behaviour ([Undefined]), as are
      the read of the uninitialised [ret] in [ntor_handshake] and an
      overflow of [int].  Integers are [Z]; a conversion to [uint16_t] is
      written as a reduction modulo 65536.
    - The endpoint, the session control blocks, the clock read by [time],
      the source of random bytes, the buffer pool and the heap form an
      explicit state that every function threads.  A session pointer is an
      index in the table of sessions; [session->ep] is the endpoint of the
      state.  The clock does not move during a call.
    - A callback is a function of its arguments kept in the endpoint, and
      every call of a callback, like every [free], is recorded in a trace.
      The [ctxt] and [addr_len] arguments are not modelled, nor is logging.
    - [assert] aborts unless the parameter [NDEBUG] is set.
    - The cryptographic primitives (lodp_crypto.h) and the size and error
      constants (lodp.h, lodp_impl.h) are not part of lodp_pkt.c; they are
      parameters.  So is the layout of [lodp_buf]: its two views are two
      arrays, or one area when [views_shared] is set.
    - [goto out] and [goto out_free] lead to wipes of locals and to
      [lodp_buf_free], which the state does not observe; they are written
      as the return of the status. *)

From Stdlib Require Import ZArith Lia Bool List.
From Stdlib Require Import Strings.Byte Strings.String.
From stdpp Require Import base list option.

Local Open Scope Z_scope.

(** ** Bytes and memory regions *)

Abbreviation byte := Byte.byte.
Abbreviation bytes := (list Byte.byte).

#[global] Instance byte_eq_decision : EqDecision byte := Byte.byte_eq_dec.

(** The value of a [uint8_t]. *)
Definition u8 (b : byte) : Z := Z.of_N (Byte.to_N b).

(** Conversion of an integer to [uint8_t] (reduction modulo 256). *)
Definition byte_of_Z (z : Z) : byte :=
  match Byte.of_N (Z.to_N (z mod 256)) with
  | Some b => b
  | None => x00
  end.

Definition zeros (n : nat) : bytes := repeat x00 n.

(** [rd off n m]: the [n] bytes of object [m] from offset [off]; [None] when
    the access leaves the object. *)
Definition rd (off n : nat) (m : bytes) : option bytes :=
  if decide (off + n <= length m)%nat then Some (take n (drop off m)) else None.

(** [wr off src m]: [memcpy(m + off, src, length src)]; [None] when the access
    leaves the object. *)
Definition wr (off : nat) (src m : bytes) : option bytes :=
  if decide (off + length src <= length m)%nat
  then Some (take off m ++ src ++ drop (off + length src) m)
  else None.

(** Modelled from the spec: [lodp_memwipe(p, n)] of lodp_crypto.h, which is
    not among the sources; section 6 describes it as zeroing [n] bytes. *)
Definition lodp_memwipe (n : nat) (m : bytes) : option bytes := wr 0 (zeros n) m.

(** Modelled from the spec: [lodp_memcmp(a, b, n)] of lodp_crypto.h, the
    constant-time comparison; callers only test the result against zero.
    The arguments are the two [n]-byte regions. *)
Definition lodp_memcmp (a b : bytes) : Z := if decide (a = b) then 0 else 1.

(** [ntohs] of a 16-bit field stored in memory as the two bytes [hi], [lo]. *)
Definition ntohs (hi lo : byte) : Z := u8 hi * 256 + u8 lo.

(** The two bytes in memory of [htons(x)], [x] converted to [uint16_t]. *)
Definition htons (x : Z) : bytes :=
  [byte_of_Z ((x mod 65536) / 256); byte_of_Z ((x mod 65536) mod 256)].

(** ** Data model *)

Record lodp_symmetric_key := mk_symmetric_key {
  mac_key : bytes;
  bulk_key : bytes
}.

Record lodp_ecdh_keypair := mk_keypair {
  public_key : bytes;
  private_key : bytes
}.

Inductive lodp_session_state :=
| STATE_INIT
| STATE_HANDSHAKE
| STATE_ESTABLISHED
| STATE_ERROR.

#[global] Instance lodp_session_state_eq_dec : EqDecision lodp_session_state.
Proof. solve_decision. Defined.

(** [struct sockaddr]: an IPv4 or IPv6 address with its port in network byte
    order, or an address of another family. *)
Inductive sockaddr :=
| sockaddr_in (sin_addr : bytes) (sin_port : bytes)
| sockaddr_in6 (sin6_addr : bytes) (sin6_port : bytes)
| sockaddr_other (sa_family : Z).

(** The session control block (TCB).  A session is referred to by its index
    in the table of sessions of the state. *)
Record lodp_session := mk_session {
  peer_addr : sockaddr;
  is_initiator : bool;
  state : lodp_session_state;
  session_ecdh_keypair : lodp_ecdh_keypair;
  remote_public_key : bytes;
  tx_key : lodp_symmetric_key;
  rx_key : lodp_symmetric_key;
  session_secret : bytes;
  session_secret_verifier : bytes;
  cookie : option bytes;          (* the heap block, [None] for NULL *)
  cookie_len : Z;
  seen_peer_data : bool
}.

(** The callback table of the endpoint.  A callback is a function of its
    arguments; that it was called is recorded in the trace of the state. *)
Record lodp_callbacks := mk_callbacks {
  sendto_fn : bytes -> sockaddr -> Z;
  pre_encrypt_fn : option (Z -> Z -> Z);
  on_recv_fn : nat -> bytes -> Z;
  has_on_heartbeat_ack_fn : bool
}.

Record lodp_endpoint := mk_endpoint {
  has_intro_keys : bool;
  intro_ecdh_keypair : lodp_ecdh_keypair;
  intro_sym_keys : lodp_symmetric_key;
  cookie_key : bytes;
  prev_cookie_key : bytes;
  cookie_rotate_time : Z;
  cookie_expire_time : Z;
  callbacks : lodp_callbacks
}.

(** [lodp_buf]: the plaintext and the ciphertext view of one datagram and its
    current length. *)
Record lodp_buf := mk_buf {
  plaintext : bytes;
  ciphertext : bytes;
  len : Z
}.

(** What the host can observe of a call. *)
Inductive event :=
| EvSendto (datagram : bytes) (to : sockaddr)
| EvAccept (session : nat) (from : sockaddr)
| EvConnect (session : nat) (status : Z)
| EvRecv (session : nat) (payload : bytes)
| EvHeartbeatAck (session : nat) (payload : bytes)
| EvFree (block : bytes).          (* free(): the block as it is released *)

(** The program state: the endpoint, its sessions, the clock read by
    [time(NULL)], the random tape read by [lodp_rand_bytes], the results of
    the coming [lodp_buf_alloc] calls ([None] for NULL, as is an empty
    list), of the coming heap allocations, and the trace of events, the
    latest first. *)
Record world := mk_world {
  w_ep : lodp_endpoint;
  w_sessions : list (option lodp_session);
  w_now : Z;
  w_tape : nat -> byte;
  w_tape_pos : nat;
  w_pool : list (option lodp_buf);
  w_heap : list bool;
  w_trace : list event
}.

(** ** Parameters: constants and primitives that lodp_pkt.c takes from other
    headers *)

Class lodp_params := {
  LODP_MSS : nat;
  LODP_MAC_DIGEST_LEN : nat;
  LODP_MAC_KEY_LEN : nat;
  LODP_BULK_KEY_LEN : nat;
  LODP_BULK_IV_LEN : nat;
  LODP_ECDH_PUBLIC_KEY_LEN : nat;
  LODP_ECDH_PRIVATE_KEY_LEN : nat;
  LODP_ECDH_SECRET_LEN : nat;
  SIZEOF_POINTER : nat;            (* sizeof(lodp_cookie * ) *)
  SIZEOF_COOKIE_LEN : nat;         (* sizeof(session->cookie_len) *)
  INT_MAX : Z;
  NDEBUG : bool;                   (* assert() compiled out *)
  views_shared : bool;             (* the two views of a lodp_buf are one area *)
  LODP_ERR_INVALID_MAC : Z;
  LODP_ERR_BAD_PACKET : Z;
  LODP_ERR_INVALID_COOKIE : Z;
  LODP_ERR_BAD_HANDSHAKE : Z;
  LODP_ERR_NOT_RESPONDER : Z;
  LODP_ERR_NOBUFS : Z;
  LODP_ERR_MSGSIZE : Z;
  LODP_ERR_AFNOTSUPPORT : Z
}.

(** The primitives return their status and the bytes they wrote to the output
    buffer. *)
Class lodp_crypto := {
  (* lodp_mac(digest, buf, key, digest_len, len) *)
  lodp_mac : bytes -> bytes -> nat -> Z * bytes;
  (* lodp_encrypt(out, key, iv, in, len) *)
  lodp_encrypt : bytes -> bytes -> bytes -> Z * bytes;
  (* lodp_decrypt(out, key, iv, in, len) *)
  lodp_decrypt : bytes -> bytes -> bytes -> Z * bytes;
  (* lodp_ecdh(secret, private_key, public_key) *)
  lodp_ecdh : bytes -> bytes -> bytes;
  lodp_ecdh_validate_pubkey : bytes -> Z;
  (* lodp_derive_sessionkeys(dst_a, dst_b, secret) *)
  lodp_derive_sessionkeys : bytes -> Z * (lodp_symmetric_key * lodp_symmetric_key);
  (* the ephemeral key pair of a new session, from random bytes *)
  lodp_gen_keypair : bytes -> lodp_ecdh_keypair
}.

(** ** Outcomes and the state monad *)

Inductive outcome (A : Type) : Type :=
| Done (a : A) (w : world)        (* the function returned [a] *)
| Aborted (w : world)             (* an assert() failed *)
| Undefined.                      (* undefined behaviour *)

Arguments Done {A} a w.
Arguments Aborted {A} w.
Arguments Undefined {A}.

Definition M (A : Type) : Type := world -> outcome A.

Definition ret {A} (a : A) : M A := fun w => Done a w.

Definition bind {A B} (m : M A) (k : A -> M B) : M B :=
  fun w =>
    match m w with
    | Done a w' => k a w'
    | Aborted w' => Aborted w'
    | Undefined => Undefined
    end.

Notation "'let*' x ':=' c 'in' k" := (bind c (fun x => k))
  (at level 10, x name, c at level 100, k at level 200).
Notation "'let*' ' p ':=' c 'in' k" := (bind c (fun x => match x with p => k end))
  (at level 10, p pattern, c at level 100, k at level 200).

Definition undefined {A} : M A := fun _ => Undefined.

(** An access to memory: undefined behaviour when it leaves the object. *)
Definition mem {A} (o : option A) : M A :=
  match o with
  | Some a => ret a
  | None => undefined
  end.

Definition get : M world := fun w => Done w w.

Definition modify (f : world -> world) : M unit := fun w => Done tt (f w).

Definition set_ep (ep : lodp_endpoint) (w : world) : world :=
  mk_world ep (w_sessions w) (w_now w) (w_tape w) (w_tape_pos w) (w_pool w)
    (w_heap w) (w_trace w).

Definition set_sessions (ss : list (option lodp_session)) (w : world) : world :=
  mk_world (w_ep w) ss (w_now w) (w_tape w) (w_tape_pos w) (w_pool w)
    (w_heap w) (w_trace w).

Definition set_tape_pos (p : nat) (w : world) : world :=
  mk_world (w_ep w) (w_sessions w) (w_now w) (w_tape w) p (w_pool w)
    (w_heap w) (w_trace w).

Definition set_pool (p : list (option lodp_buf)) (w : world) : world :=
  mk_world (w_ep w) (w_sessions w) (w_now w) (w_tape w) (w_tape_pos w) p
    (w_heap w) (w_trace w).

Definition set_heap (h : list bool) (w : world) : world :=
  mk_world (w_ep w) (w_sessions w) (w_now w) (w_tape w) (w_tape_pos w)
    (w_pool w) h (w_trace w).

Definition set_trace (t : list event) (w : world) : world :=
  mk_world (w_ep w) (w_sessions w) (w_now w) (w_tape w) (w_tape_pos w)
    (w_pool w) (w_heap w) t.

(** A callback or [free] is invoked. *)
Definition emit (e : event) : M unit :=
  modify (fun w => set_trace (e :: w_trace w) w).

Definition get_ep : M lodp_endpoint := fun w => Done (w_ep w) w.

(** Dereference of a session pointer. *)
Definition get_session (sid : nat) : M lodp_session :=
  fun w =>
    match w_sessions w !! sid with
    | Some (Some s) => Done s w
    | _ => Undefined
    end.

Definition put_session (sid : nat) (s : lodp_session) : M unit :=
  modify (fun w => set_sessions (<[sid := Some s]> (w_sessions w)) w).

(** [time(NULL)]. *)
Definition time : M Z := fun w => Done (w_now w) w.

(** [lodp_rand_bytes(buf, n)]: the next [n] bytes of the random tape. *)
Definition lodp_rand_bytes (n : nat) : M bytes :=
  fun w => Done (map (w_tape w) (seq (w_tape_pos w) n))
             (set_tape_pos (w_tape_pos w + n)%nat w).

(** [lodp_buf_alloc()]. *)
Definition lodp_buf_alloc : M (option lodp_buf) :=
  fun w =>
    match w_pool w with
    | Some b :: rest => Done (Some b) (set_pool rest w)
    | None :: rest => Done None (set_pool rest w)
    | [] => Done None w
    end.

(** [lodp_buf_free(buf)]: the buffer goes back to the pool, which is not
    observed. *)
Definition lodp_buf_free (b : option lodp_buf) : M unit := ret tt.

(** Whether the next heap allocation succeeds. *)
Definition heap_alloc : M bool :=
  fun w =>
    match w_heap w with
    | ok :: rest => Done ok (set_heap rest w)
    | [] => Done false w
    end.

(** Field updates of the records. *)
Definition set_len (n : Z) (b : lodp_buf) : lodp_buf :=
  mk_buf (plaintext b) (ciphertext b) n.

Definition set_state (st : lodp_session_state) (s : lodp_session) : lodp_session :=
  mk_session (peer_addr s) (is_initiator s) st (session_ecdh_keypair s)
    (remote_public_key s) (tx_key s) (rx_key s) (session_secret s)
    (session_secret_verifier s) (cookie s) (cookie_len s) (seen_peer_data s).

Definition set_seen_peer_data (b : bool) (s : lodp_session) : lodp_session :=
  mk_session (peer_addr s) (is_initiator s) (state s) (session_ecdh_keypair s)
    (remote_public_key s) (tx_key s) (rx_key s) (session_secret s)
    (session_secret_verifier s) (cookie s) (cookie_len s) b.

Definition set_cookie (c : option bytes) (n : Z) (s : lodp_session) : lodp_session :=
  mk_session (peer_addr s) (is_initiator s) (state s) (session_ecdh_keypair s)
    (remote_public_key s) (tx_key s) (rx_key s) (session_secret s)
    (session_secret_verifier s) c n (seen_peer_data s).

Definition set_keys (tx rx : lodp_symmetric_key) (s : lodp_session) : lodp_session :=
  mk_session (peer_addr s) (is_initiator s) (state s) (session_ecdh_keypair s)
    (remote_public_key s) tx rx (session_secret s)
    (session_secret_verifier s) (cookie s) (cookie_len s) (seen_peer_data s).

Definition set_handshake_material (kp : lodp_ecdh_keypair) (secret verifier : bytes)
    (s : lodp_session) : lodp_session :=
  mk_session (peer_addr s) (is_initiator s) (state s) kp
    (remote_public_key s) (tx_key s) (rx_key s) secret verifier
    (cookie s) (cookie_len s) (seen_peer_data s).

Definition set_cookie_keys (cur prev : bytes) (rotate expire : Z)
    (ep : lodp_endpoint) : lodp_endpoint :=
  mk_endpoint (has_intro_keys ep) (intro_ecdh_keypair ep) (intro_sym_keys ep)
    cur prev rotate expire (callbacks ep).

(** The packet a handler receives: the TLV header, its length already in host
    byte order, and the bytes that follow the header in the buffer. *)
Record lodp_pkt := mk_pkt {
  hdr_type : Z;
  hdr_flags : Z;
  hdr_length : Z;
  payload : bytes
}.

(** [lodp_pkt_type] (lodp_pkt.h). *)
Definition PKT_DATA : Z := 0.
Definition PKT_INIT : Z := 1.
Definition PKT_INIT_ACK : Z := 2.
Definition PKT_HANDSHAKE : Z := 3.
Definition PKT_HANDSHAKE_ACK : Z := 4.
Definition PKT_HEARTBEAT : Z := 5.
Definition PKT_HEARTBEAT_ACK : Z := 6.
Definition PKT_REKEY : Z := 7.
Definition PKT_REKEY_ACK : Z := 8.

Definition COOKIE_ROTATE_INTERVAL : Z := 30.
Definition COOKIE_GRACE_WINDOW : Z := 15.

(** ** The functions of lodp_pkt.c *)

Section Lodp.

Context {params : lodp_params} {crypto : lodp_crypto}.

Local Coercion Z.of_nat : nat >-> Z.

(** Packet size constants (lodp_pkt.h); the structures are packed. *)
Definition PKT_TAG_LEN : nat := (LODP_MAC_DIGEST_LEN + LODP_BULK_IV_LEN)%nat.
Definition PKT_TLV_LEN : nat := 4.
Definition PKT_HDR_LEN : nat := (PKT_TAG_LEN + 4)%nat.
Definition PKT_DATA_LEN : nat := PKT_HDR_LEN.
Definition PKT_HDR_DATA_LEN : nat := (PKT_DATA_LEN - PKT_TAG_LEN)%nat.
Definition PKT_INIT_LEN : nat := (PKT_HDR_LEN + LODP_MAC_KEY_LEN + LODP_MAC_KEY_LEN)%nat.
Definition PKT_HDR_INIT_LEN : nat := (PKT_INIT_LEN - PKT_TAG_LEN)%nat.
Definition PKT_INIT_ACK_LEN : nat := PKT_HDR_LEN.
Definition PKT_HDR_INIT_ACK_LEN : nat := (PKT_INIT_ACK_LEN - PKT_TAG_LEN)%nat.
Definition PKT_HANDSHAKE_LEN : nat :=
  (PKT_HDR_LEN + LODP_MAC_KEY_LEN + LODP_MAC_KEY_LEN + LODP_ECDH_PUBLIC_KEY_LEN)%nat.
Definition PKT_HDR_HANDSHAKE_LEN : nat := (PKT_HANDSHAKE_LEN - PKT_TAG_LEN)%nat.
Definition PKT_HANDSHAKE_ACK_LEN : nat :=
  (PKT_HDR_LEN + LODP_ECDH_PUBLIC_KEY_LEN + LODP_MAC_DIGEST_LEN)%nat.
Definition PKT_HDR_HANDSHAKE_ACK_LEN : nat := (PKT_HANDSHAKE_ACK_LEN - PKT_TAG_LEN)%nat.
Definition PKT_HEARTBEAT_LEN : nat := PKT_HDR_LEN.
Definition PKT_HDR_HEARTBEAT_LEN : nat := (PKT_HEARTBEAT_LEN - PKT_TAG_LEN)%nat.
Definition PKT_HEARTBEAT_ACK_LEN : nat := PKT_HDR_LEN.
Definition PKT_HDR_HEARTBEAT_ACK_LEN : nat := (PKT_HEARTBEAT_ACK_LEN - PKT_TAG_LEN)%nat.

Definition COOKIE_LEN : nat := LODP_MAC_DIGEST_LEN.

(** [assert(b)]. *)
Definition assert (b : bool) : M unit :=
  fun w => if NDEBUG || b then Done tt w else Aborted w.

(** A store through the plaintext view, and through the ciphertext view.
    When the views are one area the store shows in both. *)
Definition write_pt (off : nat) (src : bytes) (b : lodp_buf) : option lodp_buf :=
  match wr off src (plaintext b) with
  | Some pt =>
      if views_shared then
        match wr off src (ciphertext b) with
        | Some ct => Some (mk_buf pt ct (len b))
        | None => None
        end
      else Some (mk_buf pt (ciphertext b) (len b))
  | None => None
  end.

Definition write_ct (off : nat) (src : bytes) (b : lodp_buf) : option lodp_buf :=
  match wr off src (ciphertext b) with
  | Some ct =>
      if views_shared then
        match wr off src (plaintext b) with
        | Some pt => Some (mk_buf pt ct (len b))
        | None => None
        end
      else Some (mk_buf (plaintext b) ct (len b))
  | None => None
  end.

(** [ep->callbacks.sendto_fn(ep, ep->ctxt, buf->ciphertext, buf->len, addr,
    addr_len)]. *)
Definition sendto (buf : lodp_buf) (addr : sockaddr) : M Z :=
  let* ep := get_ep in
  let* datagram := mem (rd 0 (Z.to_nat (len buf)) (ciphertext buf)) in
  let* _ := emit (EvSendto datagram addr) in
  ret (sendto_fn (callbacks ep) datagram addr).

(** [encrypt_then_mac(ep, keys, buf)], lines 401-446.  [ret + buf->len] is
    an addition of [int]; a length below the size of a field makes the
    [size_t] length handed to a primitive wrap around. *)
Definition encrypt_then_mac (keys : lodp_symmetric_key) (buf : lodp_buf)
    : M (Z * lodp_buf) :=
  let* _ := assert (0 <? len buf) in
  let* _ := assert (len buf <=? LODP_MSS) in
  let* ep := get_ep in
  let* buf :=
    match pre_encrypt_fn (callbacks ep) with
    | Some f =>
        let r := f (len buf) LODP_MSS in
        if 0 <? r then
          if INT_MAX <? r + len buf then undefined
          else
            let r := if r + len buf >? LODP_MSS then LODP_MSS - len buf else r in
            if r <? 0 then undefined
            else
              let* padding := lodp_rand_bytes (Z.to_nat r) in
              let* buf := mem (write_pt (Z.to_nat (len buf)) padding buf) in
              ret (set_len (len buf + r) buf)
        else ret buf
    | None => ret buf
    end in
  (* Encrypt *)
  let* iv := lodp_rand_bytes LODP_BULK_IV_LEN in
  let* buf := mem (write_ct LODP_MAC_DIGEST_LEN iv buf) in
  if len buf <? PKT_TAG_LEN then undefined
  else
    let* iv := mem (rd LODP_MAC_DIGEST_LEN LODP_BULK_IV_LEN (ciphertext buf)) in
    let* body := mem (rd PKT_TAG_LEN (Z.to_nat (len buf - PKT_TAG_LEN)) (plaintext buf)) in
    let '(r, out) := lodp_encrypt (bulk_key keys) iv body in
    let* buf := mem (write_ct PKT_TAG_LEN out buf) in
    if negb (r =? 0) then ret (r, buf)
    else
      (* MAC *)
      let* msg := mem (rd LODP_MAC_DIGEST_LEN
                         (Z.to_nat (len buf - LODP_MAC_DIGEST_LEN)) (ciphertext buf)) in
      let '(r, tag) := lodp_mac (mac_key keys) msg LODP_MAC_DIGEST_LEN in
      let* buf := mem (write_ct 0 tag buf) in
      ret (r, buf).

(** [mac_then_decrypt(keys, buf)], lines 449-477. *)
Definition mac_then_decrypt (keys : lodp_symmetric_key) (buf : lodp_buf)
    : M (Z * lodp_buf) :=
  let* _ := assert (0 <? len buf) in
  (* MAC *)
  if len buf <? LODP_MAC_DIGEST_LEN then undefined
  else
    let* msg := mem (rd LODP_MAC_DIGEST_LEN
                       (Z.to_nat (len buf - LODP_MAC_DIGEST_LEN)) (ciphertext buf)) in
    let '(r, digest) := lodp_mac (mac_key keys) msg LODP_MAC_DIGEST_LEN in
    if negb (r =? 0) then ret (r, buf)
    else
      let* tag := mem (rd 0 LODP_MAC_DIGEST_LEN (ciphertext buf)) in
      if negb (lodp_memcmp digest tag =? 0) then ret (LODP_ERR_INVALID_MAC, buf)
      else
        (* Decrypt *)
        if len buf <? PKT_TAG_LEN then undefined
        else
          let* iv := mem (rd LODP_MAC_DIGEST_LEN LODP_BULK_IV_LEN (ciphertext buf)) in
          let* body := mem (rd PKT_TAG_LEN (Z.to_nat (len buf - PKT_TAG_LEN))
                              (ciphertext buf)) in
          let '(r, out) := lodp_decrypt (bulk_key keys) iv body in
          let* buf := mem (write_pt PKT_TAG_LEN out buf) in
          ret (r, buf).

(** [lodp_rotate_cookie_key(ep)], lines 384-398. *)
Definition lodp_rotate_cookie_key : M unit :=
  let* now := time in
  let* ep := get_ep in
  let* key := lodp_rand_bytes (length (cookie_key ep)) in
  modify (set_ep (set_cookie_keys key (cookie_key ep) now (now + COOKIE_GRACE_WINDOW) ep)).

(** The peer address and port as [generate_cookie] copies them to the blob. *)
Definition addr_blob (addr : sockaddr) : option (option bytes) :=
  match addr with
  | sockaddr_in a p =>
      match rd 0 4 a, rd 0 2 p with
      | Some a, Some p => Some (Some (a ++ p))
      | _, _ => None
      end
  | sockaddr_in6 a p =>
      match rd 0 16 a, rd 0 2 p with
      | Some a, Some p => Some (Some (a ++ p))
      | _, _ => None
      end
  | sockaddr_other _ => Some None
  end.

(** [generate_cookie(cookie, prev_key, ep, pkt, addr, addr_len)], lines
    480-549.  [dst] is the object [cookie] points into, from [cookie] on;
    the function returns its status and the object as it leaves it. *)
Definition generate_cookie (dst : bytes) (prev_key : Z) (pkt : lodp_pkt)
    (addr : sockaddr) : M (Z * bytes) :=
  (* If the cookie key rotation time is up, rotate the key *)
  let* now := time in
  let* ep := get_ep in
  let* _ := if now >? cookie_rotate_time ep + COOKIE_ROTATE_INTERVAL
            then lodp_rotate_cookie_key else ret tt in
  if negb (hdr_type pkt =? PKT_INIT) && negb (hdr_type pkt =? PKT_HANDSHAKE)
  then ret (LODP_ERR_BAD_PACKET, dst)
  else
    let* a := mem (addr_blob addr) in
    match a with
    | None => ret (LODP_ERR_AFNOTSUPPORT, dst)
    | Some a =>
        (* Both the INIT and HANDSHAKE packets put the keys in the same place *)
        if hdr_length pkt <? 4 + LODP_MAC_KEY_LEN + LODP_BULK_KEY_LEN
        then ret (LODP_ERR_BAD_PACKET, dst)
        else
          let* keys := mem (rd 0 (LODP_MAC_KEY_LEN + LODP_BULK_KEY_LEN) (payload pkt)) in
          let blob := a ++ keys in
          let* ep := get_ep in
          let '(r, digest) := lodp_mac (cookie_key ep) blob COOKIE_LEN in
          let* dst := mem (wr 0 digest dst) in
          let* dst := mem (lodp_memwipe SIZEOF_POINTER dst) in
          ret (r, dst)
    end.

(** The keys of the three MACs of the handshake: the characters of the
    initializer, padded with zero bytes to the size of a MAC key. *)
Definition ntor_key (s : string) : bytes :=
  let b := list_byte_of_string s in
  b ++ zeros (LODP_MAC_KEY_LEN - length b).

Definition PROTOID : bytes := list_byte_of_string "lodp-ntor-1".
Definition RESPONDER : bytes := list_byte_of_string "Responder".
Definition ss_key : bytes := ntor_key "lodp-ntor-1:key_extract".
Definition verify_key : bytes := ntor_key "lodp-ntor-1:key_expand".
Definition auth_key : bytes := ntor_key "lodp-ntor-1:mac".

(** [ntor_handshake(session, pub_key)], lines 552-719.  When a public key is
    rejected the function jumps to [out] and reads [ret], which has no value
    yet. *)
Definition ntor_handshake (session : nat) (pub_key : bytes) : M Z :=
  let* s := get_session session in
  let* ep := get_ep in
  let X := if is_initiator s then public_key (session_ecdh_keypair s) else pub_key in
  let Y := if is_initiator s then pub_key else public_key (session_ecdh_keypair s) in
  let B := if is_initiator s then remote_public_key s
           else public_key (intro_ecdh_keypair ep) in
  let* '(secret_1, secret_2) :=
    if is_initiator s then
      let x := private_key (session_ecdh_keypair s) in
      let secret := lodp_ecdh x Y in
      if negb (lodp_ecdh_validate_pubkey Y =? 0) then undefined
      else
        let* secret_1 := mem (rd 0 LODP_ECDH_SECRET_LEN secret) in
        let secret := lodp_ecdh x B in
        if negb (lodp_ecdh_validate_pubkey B =? 0) then undefined
        else
          let* secret_2 := mem (rd 0 LODP_ECDH_SECRET_LEN secret) in
          ret (secret_1, secret_2)
    else
      let y := private_key (session_ecdh_keypair s) in
      let b := private_key (intro_ecdh_keypair ep) in
      let secret := lodp_ecdh y X in
      if negb (lodp_ecdh_validate_pubkey X =? 0) then undefined
      else
        let* secret_1 := mem (rd 0 LODP_ECDH_SECRET_LEN secret) in
        let secret := lodp_ecdh b X in
        let* secret_2 := mem (rd 0 LODP_ECDH_SECRET_LEN secret) in
        ret (secret_1, secret_2) in
  let* Bb := mem (rd 0 LODP_ECDH_PUBLIC_KEY_LEN B) in
  let* Xb := mem (rd 0 LODP_ECDH_PUBLIC_KEY_LEN X) in
  let* Yb := mem (rd 0 LODP_ECDH_PUBLIC_KEY_LEN Y) in
  let secret_input := secret_1 ++ secret_2 ++ Bb ++ Xb ++ Yb ++ PROTOID in
  (* SharedSecret = H(PROTOID | ":key_extract", SecretInput) *)
  let '(r, secret) := lodp_mac ss_key secret_input LODP_ECDH_SECRET_LEN in
  if negb (r =? 0) then ret LODP_ERR_BAD_HANDSHAKE
  else
    let '(r, verify) := lodp_mac verify_key secret_input LODP_MAC_DIGEST_LEN in
    if negb (r =? 0) then ret LODP_ERR_BAD_HANDSHAKE
    else
      let* copied := mem (rd 0 LODP_ECDH_SECRET_LEN secret) in
      let* session_secret' := mem (wr 0 copied (session_secret s)) in
      (* Auth = H(PROTOID | ":mac", AuthInput); the 'verify' field of
         auth_input has LODP_ECDH_SECRET_LEN bytes and receives
         sizeof(verify) = LODP_MAC_DIGEST_LEN bytes *)
      let* verify := mem (if decide (LODP_MAC_DIGEST_LEN = LODP_ECDH_SECRET_LEN)
                          then rd 0 LODP_MAC_DIGEST_LEN verify else None) in
      let auth_input := verify ++ Bb ++ Xb ++ Yb ++ PROTOID ++ RESPONDER in
      let '(r, auth) := lodp_mac auth_key auth_input
                          (length (session_secret_verifier s)) in
      let* verifier' := mem (wr 0 auth (session_secret_verifier s)) in
      let s := set_handshake_material (session_ecdh_keypair s) session_secret'
                 verifier' s in
      let* _ := put_session session s in
      if negb (r =? 0) then ret LODP_ERR_BAD_HANDSHAKE
      else
        let '(r, (key_a, key_b)) := lodp_derive_sessionkeys secret in
        let s := if is_initiator s then set_keys key_a key_b s
                 else set_keys key_b key_a s in
        let* _ := put_session session s in
        ret (if r =? 0 then r else LODP_ERR_BAD_HANDSHAKE).

(** [scrub_handshake_material(session)], lines 722-742. *)
Definition scrub_handshake_material (session : nat) : M unit :=
  let* s := get_session session in
  (* Wipe the cookie *)
  let* s :=
    match cookie s with
    | Some block =>
        let* block := mem (lodp_memwipe SIZEOF_COOKIE_LEN block) in
        let* _ := emit (EvFree block) in
        ret (set_cookie None (cookie_len s) s)
    | None => ret s
    end in
  (* Wipe the handshake parameters, the cached shared secret and validator *)
  let kp := session_ecdh_keypair s in
  let s := set_handshake_material
             (mk_keypair (zeros (length (public_key kp)))
                (zeros (length (private_key kp))))
             (zeros (length (session_secret s)))
             (zeros (length (session_secret_verifier s))) s in
  put_session session s.

(** Modelled from the spec: [lodp_session_init] of lodp.c, which is not among
    the sources.  Section 4.6: a fresh session with the given role, peer
    address and remote public key and a fresh ephemeral key pair; section 3:
    a responder session is created in ESTABLISHED, an initiator begins in
    INIT.  The other fields are zero.  NULL when the allocation fails. *)
Definition lodp_session_init (addr : sockaddr) (pub_key : bytes)
    (initiator : bool) : M (option nat) :=
  let* ok := heap_alloc in
  if ok then
    let* seed := lodp_rand_bytes LODP_ECDH_PRIVATE_KEY_LEN in
    let zkey := mk_symmetric_key (zeros LODP_MAC_KEY_LEN) (zeros LODP_BULK_KEY_LEN) in
    let s := mk_session addr initiator
               (if initiator then STATE_INIT else STATE_ESTABLISHED)
               (lodp_gen_keypair seed) pub_key zkey zkey
               (zeros LODP_ECDH_SECRET_LEN) (zeros LODP_MAC_DIGEST_LEN)
               None 0 false in
    let* w := get in
    let* _ := modify (set_sessions (w_sessions w ++ [Some s])) in
    ret (Some (length (w_sessions w)))
  else ret None.

(** Modelled from the spec: [lodp_session_destroy] of lodp.c, which is not
    among the sources; the session is gone afterwards. *)
Definition lodp_session_destroy (session : nat) : M unit :=
  modify (fun w => set_sessions (<[session := None]> (w_sessions w)) w).

(** The TLV header as a builder stores it: type, flags = 0, htons(length). *)
Definition put_hdr (ty : Z) (length : Z) (buf : lodp_buf) : option lodp_buf :=
  write_pt PKT_TAG_LEN ([byte_of_Z ty; x00] ++ htons length) buf.

(** The copy of the peer's intro keys out of an INIT or HANDSHAKE packet:
    the bulk key field of the packet has LODP_MAC_KEY_LEN bytes, and that
    many are copied to a key of LODP_BULK_KEY_LEN bytes. *)
Definition peer_intro_keys (pkt : lodp_pkt) : option lodp_symmetric_key :=
  if decide (LODP_MAC_KEY_LEN = LODP_BULK_KEY_LEN) then
    match rd 0 LODP_MAC_KEY_LEN (payload pkt),
          rd LODP_MAC_KEY_LEN LODP_MAC_KEY_LEN (payload pkt) with
    | Some mk, Some bk => Some (mk_symmetric_key mk bk)
    | _, _ => None
    end
  else None.

(** [on_init_pkt(ep, init_pkt, addr, addr_len)], lines 745-796. *)
Definition on_init_pkt (init_pkt : lodp_pkt) (addr : sockaddr) : M Z :=
  (* Validate the INIT packet *)
  if negb (PKT_HDR_INIT_LEN =? hdr_length init_pkt) then ret LODP_ERR_BAD_PACKET
  else
    (* Pull out the peer's keys *)
    let* key := mem (peer_intro_keys init_pkt) in
    (* Generate the INIT ACK *)
    let* ob := lodp_buf_alloc in
    match ob with
    | None => ret LODP_ERR_NOBUFS
    | Some buf =>
        let buf := set_len (PKT_INIT_ACK_LEN + COOKIE_LEN) buf in
        let* _ := assert (len buf <? LODP_MSS) in
        let* buf := mem (put_hdr PKT_INIT_ACK (PKT_HDR_INIT_ACK_LEN + COOKIE_LEN) buf) in
        let* '(_, region) := generate_cookie (drop PKT_INIT_ACK_LEN (plaintext buf)) 0
                               init_pkt addr in
        let* buf := mem (write_pt PKT_INIT_ACK_LEN region buf) in
        let* '(r, buf) := encrypt_then_mac key buf in
        if negb (r =? 0) then
          let* _ := lodp_buf_free (Some buf) in ret r
        else
          let* r := sendto buf addr in
          let* _ := lodp_buf_free (Some buf) in
          ret r
    end.

(** [on_handshake_pkt(ep, session, hs_pkt, addr, addr_len)], lines 799-966.
    The local [cookie] is written by [generate_cookie] before it is read; it
    starts here as COOKIE_LEN zero bytes.  [do_xmit] is the code from the
    label of that name on. *)
Definition on_handshake_pkt (session : option nat) (hs_pkt : lodp_pkt)
    (addr : sockaddr) : M Z :=
  let* now := time in
  let should_callback := true in
  (* Validate the HANDSHAKE packet *)
  if negb (PKT_HDR_HANDSHAKE_LEN + COOKIE_LEN =? hdr_length hs_pkt)
  then ret LODP_ERR_BAD_PACKET
  else
    (* Validate the cookie *)
    let* '(r, cookie) := generate_cookie (zeros COOKIE_LEN) 0 hs_pkt addr in
    if negb (r =? 0) then ret r
    else
      let* cookie := mem (rd 0 COOKIE_LEN cookie) in
      let* echoed := mem (rd (LODP_MAC_KEY_LEN + LODP_MAC_KEY_LEN + LODP_ECDH_PUBLIC_KEY_LEN)
                            COOKIE_LEN (payload hs_pkt)) in
      (* [Some r]: goto out with ret = r; [None]: the cookie is accepted *)
      let* refused :=
        if negb (lodp_memcmp cookie echoed =? 0) then
          (* If not match, check the previous cookie if not stale *)
          let* ep := get_ep in
          if now >? cookie_expire_time ep then ret (Some LODP_ERR_INVALID_COOKIE)
          else
            let* '(r, cookie) := generate_cookie cookie 1 hs_pkt addr in
            if negb (r =? 0) then ret (Some r)
            else
              let* cookie := mem (rd 0 COOKIE_LEN cookie) in
              if negb (lodp_memcmp cookie echoed =? 0)
              then ret (Some LODP_ERR_INVALID_COOKIE)
              else ret None
        else ret None in
      match refused with
      | Some r => ret r
      | None =>
        (* Pull out the peer's keys *)
        let* key := mem (peer_intro_keys hs_pkt) in
        let* pub_key := mem (rd (LODP_MAC_KEY_LEN + LODP_MAC_KEY_LEN)
                               LODP_ECDH_PUBLIC_KEY_LEN (payload hs_pkt)) in
        let* ob := lodp_buf_alloc in
        match ob with
        | None => ret LODP_ERR_NOBUFS
        | Some buf =>
            let buf := set_len PKT_HANDSHAKE_ACK_LEN buf in
            let* _ := assert (len buf <? LODP_MSS) in
            let* buf := mem (put_hdr PKT_HANDSHAKE_ACK PKT_HDR_HANDSHAKE_ACK_LEN buf) in
            let do_xmit (session : nat) : M Z :=
              (* Finish building the HANDSHAKE ACK and transmit *)
              let* s := get_session session in
              let* Y := mem (rd 0 LODP_ECDH_PUBLIC_KEY_LEN
                               (public_key (session_ecdh_keypair s))) in
              let* buf := mem (write_pt PKT_HDR_LEN Y buf) in
              let* digest := mem (rd 0 LODP_MAC_DIGEST_LEN (session_secret_verifier s)) in
              let* buf := mem (write_pt (PKT_HDR_LEN + LODP_ECDH_PUBLIC_KEY_LEN) digest buf) in
              let* '(r, buf) := encrypt_then_mac key buf in
              if negb (r =? 0) then ret r
              else
                let* r := sendto buf addr in
                (* Inform the user of a incoming connection *)
                let* _ := if should_callback then emit (EvAccept session addr)
                          else ret tt in
                let* _ := lodp_buf_free (Some buf) in
                ret r in
            match session with
            | Some session =>
                let* s := get_session session in
                (* Responder side TCBs start in the ESTABLISHED state *)
                let* _ := assert (negb (is_initiator s)) in
                let* _ := assert (negb (bool_decide (STATE_ESTABLISHED = state s))) in
                if negb (seen_peer_data s) then do_xmit session
                else
                  let* _ := lodp_buf_free (Some buf) in
                  ret LODP_ERR_BAD_PACKET
            | None =>
                (* Generate a TCB *)
                let* ack_public_key := mem (rd PKT_HDR_LEN LODP_ECDH_PUBLIC_KEY_LEN
                                              (plaintext buf)) in
                let* session := lodp_session_init addr ack_public_key false in
                match session with
                | None =>
                    (* ret is still the 0 of generate_cookie *)
                    let* _ := lodp_buf_free (Some buf) in
                    ret 0
                | Some session =>
                    (* Complete our side of the modified ntor handshake *)
                    let* r := ntor_handshake session pub_key in
                    if negb (r =? 0) then
                      let* _ := lodp_session_destroy session in
                      let* _ := lodp_buf_free (Some buf) in
                      ret r
                    else do_xmit session
                end
            end
        end
      end.

(** [on_data_pkt(session, pkt)], lines 969-1010.  [payload_len] is a
    [uint16_t]. *)
Definition on_data_pkt (session : nat) (pkt : lodp_pkt) : M Z :=
  let* s := get_session session in
  let* _ := assert (PKT_DATA =? hdr_type pkt) in
  if negb (bool_decide (state s = STATE_ESTABLISHED)) then ret LODP_ERR_BAD_PACKET
  else
    let* _ :=
      if negb (seen_peer_data s) then
        let* _ := put_session session (set_seen_peer_data true s) in
        if negb (is_initiator s) then scrub_handshake_material session else ret tt
      else ret tt in
    let payload_len := (hdr_length pkt - PKT_HDR_DATA_LEN) mod 65536 in
    let* data := mem (rd 0 (Z.to_nat payload_len) (payload pkt)) in
    let* ep := get_ep in
    let* _ := emit (EvRecv session data) in
    ret (on_recv_fn (callbacks ep) session data).

(** [lodp_send_data_pkt(session, payload, len)], lines 222-258; [len] is the
    length of [payload]. *)
Definition lodp_send_data_pkt (session : nat) (data : bytes) : M Z :=
  let* s := get_session session in
  let* _ := assert (bool_decide (STATE_ESTABLISHED = state s)) in
  if PKT_DATA_LEN + length data >? LODP_MSS then ret LODP_ERR_MSGSIZE
  else
    let* ob := lodp_buf_alloc in
    match ob with
    | None => ret LODP_ERR_NOBUFS
    | Some buf =>
        let buf := set_len (PKT_DATA_LEN + length data) buf in
        let* _ := assert (len buf <? LODP_MSS) in
        let* buf := mem (put_hdr PKT_DATA (PKT_HDR_DATA_LEN + length data) buf) in
        let* buf := mem (write_pt PKT_HDR_LEN data buf) in
        let* '(r, buf) := encrypt_then_mac (tx_key s) buf in
        if negb (r =? 0) then
          let* _ := lodp_buf_free (Some buf) in ret r
        else
          let* r := sendto buf (peer_addr s) in
          let* _ := lodp_buf_free (Some buf) in
          ret r
    end.

(** [lodp_send_init_pkt(session)], lines 261-298. *)
Definition lodp_send_init_pkt (session : nat) : M Z :=
  let* s := get_session session in
  let* _ := assert (is_initiator s) in
  let* _ := assert (bool_decide (STATE_INIT = state s)) in
  let* ob := lodp_buf_alloc in
  match ob with
  | None => ret LODP_ERR_NOBUFS
  | Some buf =>
      let buf := set_len PKT_INIT_LEN buf in
      let* _ := assert (len buf <? LODP_MSS) in
      let* buf := mem (put_hdr PKT_INIT PKT_HDR_INIT_LEN buf) in
      let* mk := mem (rd 0 LODP_MAC_KEY_LEN (mac_key (rx_key s))) in
      let* buf := mem (write_pt PKT_HDR_LEN mk buf) in
      let* bk := mem (rd 0 LODP_MAC_KEY_LEN (bulk_key (rx_key s))) in
      let* buf := mem (write_pt (PKT_HDR_LEN + LODP_MAC_KEY_LEN) bk buf) in
      let* '(r, buf) := encrypt_then_mac (tx_key s) buf in
      if negb (r =? 0) then
        let* _ := lodp_buf_free (Some buf) in ret r
      else
        let* r := sendto buf (peer_addr s) in
        let* _ := lodp_buf_free (Some buf) in
        ret r
  end.

(** [lodp_send_handshake_pkt(session)], lines 301-342. *)
Definition lodp_send_handshake_pkt (session : nat) : M Z :=
  let* s := get_session session in
  let* _ := assert (is_initiator s) in
  let* _ := assert (bool_decide (STATE_HANDSHAKE = state s)) in
  let* ob := lodp_buf_alloc in
  match ob with
  | None => ret LODP_ERR_NOBUFS
  | Some buf =>
      let buf := set_len (PKT_HANDSHAKE_LEN + cookie_len s) buf in
      let* _ := assert (len buf <? LODP_MSS) in
      let* buf := mem (put_hdr PKT_HANDSHAKE (PKT_HDR_HANDSHAKE_LEN + cookie_len s) buf) in
      let* mk := mem (rd 0 LODP_MAC_KEY_LEN (mac_key (rx_key s))) in
      let* buf := mem (write_pt PKT_HDR_LEN mk buf) in
      let* bk := mem (rd 0 LODP_MAC_KEY_LEN (bulk_key (rx_key s))) in
      let* buf := mem (write_pt (PKT_HDR_LEN + LODP_MAC_KEY_LEN) bk buf) in
      let* X := mem (rd 0 LODP_ECDH_PUBLIC_KEY_LEN (public_key (session_ecdh_keypair s))) in
      let* buf := mem (write_pt (PKT_HDR_LEN + LODP_MAC_KEY_LEN + LODP_MAC_KEY_LEN) X buf) in
      let* block := mem (cookie s) in
      let* echoed := mem (if cookie_len s <? 0 then None
                          else rd 0 (Z.to_nat (cookie_len s)) block) in
      let* buf := mem (write_pt PKT_HANDSHAKE_LEN echoed buf) in
      let* '(r, buf) := encrypt_then_mac (tx_key s) buf in
      if negb (r =? 0) then
        let* _ := lodp_buf_free (Some buf) in ret 0
      else
        let* r := sendto buf (peer_addr s) in
        let* _ := lodp_buf_free (Some buf) in
        ret 0
  end.

(** [lodp_send_heartbeat_pkt(session, payload, len)], lines 345-381. *)
Definition lodp_send_heartbeat_pkt (session : nat) (data : bytes) : M Z :=
  let* s := get_session session in
  let* _ := assert (bool_decide (STATE_ESTABLISHED = state s)) in
  if PKT_HEARTBEAT_LEN + length data >? LODP_MSS then ret LODP_ERR_MSGSIZE
  else
    let* ob := lodp_buf_alloc in
    match ob with
    | None => ret LODP_ERR_NOBUFS
    | Some buf =>
        let buf := set_len (PKT_HEARTBEAT_LEN + length data) buf in
        let* _ := assert (len buf <? LODP_MSS) in
        let* buf := mem (put_hdr PKT_HEARTBEAT (PKT_HDR_HEARTBEAT_LEN + length data) buf) in
        let* buf := mem (write_pt PKT_HDR_LEN data buf) in
        let* '(r, buf) := encrypt_then_mac (tx_key s) buf in
        if negb (r =? 0) then
          let* _ := lodp_buf_free (Some buf) in ret r
        else
          let* r := sendto buf (peer_addr s) in
          let* _ := lodp_buf_free (Some buf) in
          ret r
    end.

(** Modelled from the spec: [lodp_handshake] of lodp.c, which is not among the
    sources; section 4.8 has it trigger the outbound HANDSHAKE. *)
Definition lodp_handshake (session : nat) : M Z := lodp_send_handshake_pkt session.

(** [on_init_ack_pkt(session, pkt)], lines 1013-1056.  [cookie_len] is a
    [size_t]: for a length below PKT_HDR_INIT_ACK_LEN, which the dispatcher
    does not let through, the subtraction wraps around to a size that no
    packet has; then [calloc] fails, or [memcpy] leaves the packet. *)
Definition on_init_ack_pkt (session : nat) (pkt : lodp_pkt) : M Z :=
  let* s := get_session session in
  let* _ := assert (PKT_INIT_ACK =? hdr_type pkt) in
  (* INIT ACK when in invalid states is silently dropped *)
  if negb (is_initiator s) || negb (bool_decide (STATE_INIT = state s))
  then ret LODP_ERR_BAD_PACKET
  else
    (* Save the cookie *)
    let cookie_len := hdr_length pkt - PKT_HDR_INIT_ACK_LEN in
    if cookie_len =? 0 then ret LODP_ERR_BAD_PACKET
    else
      let* ok := heap_alloc in
      if negb ok then
        let* _ := put_session session (set_state STATE_ERROR s) in
        let* _ := emit (EvConnect session LODP_ERR_NOBUFS) in
        ret LODP_ERR_NOBUFS
      else if cookie_len <? 0 then undefined
      else
        let* block := mem (rd 0 (Z.to_nat cookie_len) (payload pkt)) in
        let s := set_cookie (Some block) cookie_len s in
        (* Send a HANDSHAKE *)
        let* _ := put_session session (set_state STATE_HANDSHAKE s) in
        lodp_handshake session.

(** [on_handshake_ack_pkt(session, pkt)], lines 1059-1101. *)
Definition on_handshake_ack_pkt (session : nat) (pkt : lodp_pkt) : M Z :=
  let* s := get_session session in
  let* _ := assert (PKT_HANDSHAKE_ACK =? hdr_type pkt) in
  (* HANDSHAKE ACK when in invalid states is silently dropped *)
  if negb (is_initiator s) || negb (bool_decide (STATE_HANDSHAKE = state s))
  then ret LODP_ERR_BAD_PACKET
  else if negb (PKT_HDR_HANDSHAKE_ACK_LEN =? hdr_length pkt) then ret LODP_ERR_BAD_PACKET
  else
    (* Pull out the responder's public key *)
    let* pub_key := mem (rd 0 LODP_ECDH_PUBLIC_KEY_LEN (payload pkt)) in
    (* Complete our side of the modified ntor handshake *)
    let* r := ntor_handshake session pub_key in
    let* s := get_session session in
    let* r :=
      if negb (r =? 0) then
        let* _ := put_session session (set_state STATE_ERROR s) in
        ret r
      else
        (* Confirm that the correct shared secret was derived *)
        let* digest := mem (rd LODP_ECDH_PUBLIC_KEY_LEN LODP_MAC_DIGEST_LEN (payload pkt)) in
        let* verifier := mem (rd 0 LODP_MAC_DIGEST_LEN (session_secret_verifier s)) in
        if negb (lodp_memcmp digest verifier =? 0) then
          let* _ := put_session session (set_state STATE_ERROR s) in
          ret LODP_ERR_BAD_HANDSHAKE
        else
          (* Inform the user that the connection is established *)
          let* _ := put_session session (set_state STATE_ESTABLISHED s) in
          ret 0 in
    let* _ := scrub_handshake_material session in
    let* _ := emit (EvConnect session r) in
    ret r.

(** [on_heartbeat_pkt(session, hb_pkt)], lines 1104-1155. *)
Definition on_heartbeat_pkt (session : nat) (hb_pkt : lodp_pkt) : M Z :=
  let* s := get_session session in
  let* _ := assert (PKT_HEARTBEAT =? hdr_type hb_pkt) in
  if negb (bool_decide (state s = STATE_ESTABLISHED)) then ret LODP_ERR_BAD_PACKET
  else
    let payload_len := (hdr_length hb_pkt - PKT_HDR_HEARTBEAT_LEN) mod 65536 in
    let* ob := lodp_buf_alloc in
    match ob with
    | None => ret LODP_ERR_NOBUFS
    | Some buf =>
        let buf := set_len (PKT_HEARTBEAT_ACK_LEN + payload_len) buf in
        let* _ := assert (len buf <? LODP_MSS) in
        let* buf := mem (put_hdr PKT_HEARTBEAT_ACK (PKT_HDR_HEARTBEAT_ACK_LEN + payload_len)
                           buf) in
        let* data := mem (rd 0 (Z.to_nat payload_len) (payload hb_pkt)) in
        let* buf := mem (write_pt PKT_HDR_LEN data buf) in
        let* '(r, buf) := encrypt_then_mac (tx_key s) buf in
        if negb (r =? 0) then
          let* _ := lodp_buf_free (Some buf) in ret r
        else
          let* r := sendto buf (peer_addr s) in
          let* _ := lodp_buf_free (Some buf) in
          ret r
    end.

(** [on_heartbeat_ack_pkt(session, pkt)], lines 1158-1182. *)
Definition on_heartbeat_ack_pkt (session : nat) (pkt : lodp_pkt) : M Z :=
  let* s := get_session session in
  let* _ := assert (PKT_HEARTBEAT_ACK =? hdr_type pkt) in
  if negb (bool_decide (state s = STATE_ESTABLISHED)) then ret LODP_ERR_BAD_PACKET
  else
    let payload_len := (hdr_length pkt - PKT_HDR_HEARTBEAT_ACK_LEN) mod 65536 in
    let* ep := get_ep in
    let* _ :=
      if has_on_heartbeat_ack_fn (callbacks ep) then
        let* data := mem (rd 0 (Z.to_nat payload_len) (payload pkt)) in
        emit (EvHeartbeatAck session data)
      else ret tt in
    ret 0.

(** [hdr = (lodp_hdr * )buf->plaintext; hdr->length = ntohs(hdr->length)],
    lines 137-138: the TLV header of the decrypted packet, and the rest of
    the buffer as its payload.  The length that the C stores back in the
    buffer in host byte order is the [hdr_length] of the record; the
    handlers read it from there. *)
Definition parse_hdr (buf : lodp_buf) : option lodp_pkt :=
  match rd PKT_TAG_LEN 4 (plaintext buf) with
  | Some [ty; fl; hi; lo] =>
      Some (mk_pkt (u8 ty) (u8 fl) (ntohs hi lo) (drop PKT_HDR_LEN (plaintext buf)))
  | _ => None
  end.

(** [lodp_on_incoming_pkt], lines 98-117: the choice of the keys, up to the
    label [mac_then_decrypt_ok].  [inl r]: the function returns [r];
    [inr (used_session_keys, buf)]: control reaches the label. *)
Definition incoming_mac_then_decrypt (session : option nat) (buf : lodp_buf)
    : M (Z + bool * lodp_buf) :=
  let endpoint_keys (buf : lodp_buf) : M (Z + bool * lodp_buf) :=
    let* ep := get_ep in
    if negb (has_intro_keys ep) then ret (inl LODP_ERR_NOT_RESPONDER)
    else
      let* '(r, buf) := mac_then_decrypt (intro_sym_keys ep) buf in
      if negb (r =? 0) then ret (inl r) else ret (inr (false, buf)) in
  match session with
  | Some session =>
      let* s := get_session session in
      (* Try the session keys first *)
      let* '(r, buf) := mac_then_decrypt (rx_key s) buf in
      if r =? 0 then ret (inr (true, buf))
      else if negb (LODP_ERR_INVALID_MAC =? r) then ret (inl r)
      else endpoint_keys buf
  | None => endpoint_keys buf
  end.

(** [lodp_on_incoming_pkt], lines 137-218: from the label
    [mac_then_decrypt_ok] on. *)
Definition incoming_dispatch (session : option nat) (used_session_keys : bool)
    (buf : lodp_buf) (addr : sockaddr) : M Z :=
  let* hdr := mem (parse_hdr buf) in
  if hdr_length hdr <? PKT_TLV_LEN then ret LODP_ERR_BAD_PACKET      (* Undersized *)
  else if hdr_length hdr >? len buf - PKT_TAG_LEN then ret LODP_ERR_BAD_PACKET
                                                                     (* Oversized *)
  else if negb (0 =? hdr_flags hdr) then ret LODP_ERR_BAD_PACKET
  else
    match session with
    | Some session =>
        if negb used_session_keys then
          if negb (PKT_HANDSHAKE =? hdr_type hdr) then ret LODP_ERR_BAD_PACKET
          else
            let* s := get_session session in
            if is_initiator s then ret LODP_ERR_NOT_RESPONDER
            else on_handshake_pkt (Some session) hdr addr
        else
          (* Packets for an existing session *)
          if hdr_type hdr =? PKT_DATA then on_data_pkt session hdr
          else if hdr_type hdr =? PKT_INIT_ACK then on_init_ack_pkt session hdr
          else if hdr_type hdr =? PKT_HANDSHAKE_ACK then on_handshake_ack_pkt session hdr
          else if hdr_type hdr =? PKT_HEARTBEAT then on_heartbeat_pkt session hdr
          else if hdr_type hdr =? PKT_HEARTBEAT_ACK then on_heartbeat_ack_pkt session hdr
          else ret LODP_ERR_BAD_PACKET
    | None =>
        (* Responder handshake related packets *)
        let* ep := get_ep in
        let* _ := assert (has_intro_keys ep) in
        if hdr_type hdr =? PKT_INIT then on_init_pkt hdr addr
        else if hdr_type hdr =? PKT_HANDSHAKE then on_handshake_pkt None hdr addr
        else ret LODP_ERR_BAD_PACKET
    end.

(** [lodp_on_incoming_pkt(ep, session, buf, addr, addr_len)], lines 75-219. *)
Definition lodp_on_incoming_pkt (session : option nat) (buf : lodp_buf)
    (addr : sockaddr) : M Z :=
  let* k := incoming_mac_then_decrypt session buf in
  match k with
  | inl r => ret r
  | inr (used_session_keys, buf) => incoming_dispatch session used_session_keys buf addr
  end.

End Lodp.

(** ** An instance of the parameters, to run the code

    The sizes are those of a BLAKE2s MAC, a 24-byte nonce and Curve25519 keys
    on a 64-bit machine.  The primitives are stand-ins on which the code
    runs; they are not secure. *)

Definition byte_xor (a b : byte) : byte :=
  let '(a0, (a1, (a2, (a3, (a4, (a5, (a6, a7))))))) := Byte.to_bits a in
  let '(b0, (b1, (b2, (b3, (b4, (b5, (b6, b7))))))) := Byte.to_bits b in
  Byte.of_bits (xorb a0 b0, (xorb a1 b1, (xorb a2 b2, (xorb a3 b3,
               (xorb a4 b4, (xorb a5 b5, (xorb a6 b6, xorb a7 b7))))))).

Definition run_params (ndebug shared : bool) : lodp_params := {|
  LODP_MSS := 1280;
  LODP_MAC_DIGEST_LEN := 32;
  LODP_MAC_KEY_LEN := 32;
  LODP_BULK_KEY_LEN := 32;
  LODP_BULK_IV_LEN := 24;
  LODP_ECDH_PUBLIC_KEY_LEN := 32;
  LODP_ECDH_PRIVATE_KEY_LEN := 32;
  LODP_ECDH_SECRET_LEN := 32;
  SIZEOF_POINTER := 8;
  SIZEOF_COOKIE_LEN := 8;
  INT_MAX := 2147483647;
  NDEBUG := ndebug;
  views_shared := shared;
  LODP_ERR_INVALID_MAC := -1;
  LODP_ERR_BAD_PACKET := -2;
  LODP_ERR_INVALID_COOKIE := -3;
  LODP_ERR_BAD_HANDSHAKE := -4;
  LODP_ERR_NOT_RESPONDER := -5;
  LODP_ERR_NOBUFS := -6;
  LODP_ERR_MSGSIZE := -7;
  LODP_ERR_AFNOTSUPPORT := -8
|}.

(** A keyed checksum: byte [i] of the digest mixes byte [i] of the key, a
    running checksum of the message, and [i]. *)
Definition run_checksum (msg : bytes) : byte :=
  fold_left (fun acc b => byte_of_Z (u8 acc * 31 + u8 b + 7)) msg x00.

Definition run_mac (key msg : bytes) (n : nat) : Z * bytes :=
  (0, map (fun i => byte_xor (nth (i mod 32) key x00)
                      (byte_xor (run_checksum msg) (byte_of_Z (Z.of_nat i))))
          (seq 0 n)).

(** A cipher that xors every byte with one mask made of the key and the IV. *)
Definition run_mask (key iv : bytes) : byte :=
  fold_right byte_xor x00 (key ++ iv).

Definition run_cipher (key iv input : bytes) : Z * bytes :=
  (0, map (byte_xor (run_mask key iv)) input).

Definition run_ecdh (priv pub : bytes) : bytes :=
  zip_with byte_xor priv (map (byte_xor xff) pub).

Definition run_gen_keypair (seed : bytes) : lodp_ecdh_keypair :=
  mk_keypair (map (byte_xor xff) seed) seed.

Definition run_derive (secret : bytes) : Z * (lodp_symmetric_key * lodp_symmetric_key) :=
  (0, (mk_symmetric_key (map (byte_xor x01) secret) (map (byte_xor x02) secret),
       mk_symmetric_key (map (byte_xor x03) secret) (map (byte_xor x04) secret))).

Definition run_crypto : lodp_crypto := {|
  lodp_mac := run_mac;
  lodp_encrypt := run_cipher;
  lodp_decrypt := run_cipher;
  lodp_ecdh := run_ecdh;
  lodp_ecdh_validate_pubkey := fun _ => 0;
  lodp_derive_sessionkeys := run_derive;
  lodp_gen_keypair := run_gen_keypair
|}.

(** ** A run of the protocol

    An initiator and a responder, each with its own state, exchange the
    datagrams that the functions above hand to [sendto_fn]. *)

Module Scenario.

Definition P : lodp_params := run_params true false.     (* built with NDEBUG *)
Definition P_debug : lodp_params := run_params false false.
Definition C : lodp_crypto := run_crypto.

(** The clock of the host moves. *)
Definition set_now (t : Z) (w : world) : world :=
  mk_world (w_ep w) (w_sessions w) t (w_tape w) (w_tape_pos w) (w_pool w)
    (w_heap w) (w_trace w).

Definition fresh_buf : lodp_buf := mk_buf (zeros 1280) (zeros 1280) 0.

(** The host copies a datagram off the wire into the ciphertext view. *)
Definition recv_buf (d : bytes) : lodp_buf :=
  mk_buf (zeros 1280) (d ++ zeros (1280 - length d)) (Z.of_nat (length d)).

Definition addr_i : sockaddr := sockaddr_in [x0a; x00; x00; x01] [x10; x00].
Definition addr_r : sockaddr := sockaddr_in [x0a; x00; x00; x02] [x20; x00].

(** Callbacks whose [sendto_fn] returns [status]. *)
Definition cbs (status : Z) : lodp_callbacks :=
  mk_callbacks (fun _ _ => status) None (fun _ _ => 0) true.

Definition r_intro_sym : lodp_symmetric_key :=
  mk_symmetric_key (repeat x11 32) (repeat x22 32).
Definition r_intro_kp : lodp_ecdh_keypair := run_gen_keypair (repeat x33 32).

Definition ep_r : lodp_endpoint :=
  mk_endpoint true r_intro_kp r_intro_sym (repeat x44 32) (repeat x55 32) 0 0 (cbs 0).

Definition ep_i (status : Z) : lodp_endpoint :=
  mk_endpoint false (mk_keypair [] []) (mk_symmetric_key [] [])
    (zeros 32) (zeros 32) 0 0 (cbs status).

Definition tape (k : Z) (i : nat) : byte := byte_of_Z (Z.of_nat i * 7 + k).

(** The initiator's session before INIT is sent: it knows the responder's
    long-term public key and intro keys, and has chosen its own intro keys,
    which it keeps in [rx_key]. *)
Definition sess_i : lodp_session :=
  mk_session addr_r true STATE_INIT (run_gen_keypair (repeat x66 32))
    (public_key r_intro_kp) r_intro_sym
    (mk_symmetric_key (repeat x77 32) (repeat x88 32))
    (zeros 32) (zeros 32) None 0 false.

Definition w_i (status : Z) : world :=
  mk_world (ep_i status) [Some sess_i] 0 (tape 1) 0 (repeat (Some fresh_buf) 6)
    [true; true; true] [].

Definition w_r : world :=
  mk_world ep_r [] 0 (tape 2) 0 (repeat (Some fresh_buf) 8) [true; true; true] [].

(** The state an outcome leaves, and the latest datagram sent in a state. *)
Definition after {A} (o : outcome A) : world :=
  match o with
  | Done _ w => w
  | Aborted w => w
  | Undefined => w_r
  end.

Fixpoint last_sent (t : list event) : bytes :=
  match t with
  | EvSendto d _ :: _ => d
  | _ :: t => last_sent t
  | [] => []
  end.

Definition sent (w : world) : lodp_buf := recv_buf (last_sent (w_trace w)).

(** How many times [on_accept_fn] was called. *)
Fixpoint accepts (t : list event) : nat :=
  match t with
  | EvAccept _ _ :: t => S (accepts t)
  | _ :: t => accepts t
  | [] => 0
  end.

(** INIT, INIT ACK, HANDSHAKE, HANDSHAKE ACK. *)
Definition i1 := after (@lodp_send_init_pkt P C 0 (w_i 0)).
Definition r1 := after (@lodp_on_incoming_pkt P C None (sent i1) addr_i w_r).
Definition i2 := after (@lodp_on_incoming_pkt P C (Some 0%nat) (sent r1) addr_r i1).
Definition r2 := after (@lodp_on_incoming_pkt P C None (sent i2) addr_i r1).
Definition i3 := after (@lodp_on_incoming_pkt P C (Some 0%nat) (sent r2) addr_r i2).

(** The HANDSHAKE ACK is lost and the HANDSHAKE arrives again. *)
Definition r3 := after (@lodp_on_incoming_pkt P C (Some 0%nat) (sent i2) addr_i r2).

(** The responder before it runs the handshake for the HANDSHAKE of [i2]:
    its session exists, with [X] as the remote public key. *)
Definition session_of (w : world) (sid : nat) : lodp_session :=
  match w_sessions w !! sid with
  | Some (Some s) => s
  | _ => sess_i
  end.

Definition X_i : bytes := public_key (session_ecdh_keypair (session_of i2 0)).
Definition r1s := after (@lodp_session_init P C addr_i X_i false r1).
Definition Y_r : bytes := public_key (session_ecdh_keypair (session_of r1s 0)).

(** The cookie key is rotated at time 31, by an INIT that arrives then; the
    HANDSHAKE of [i2], which echoes the cookie made at time 0, arrives at
    time 40. *)
Definition r1_rotated :=
  after (@lodp_on_incoming_pkt P C None (sent i1) addr_i (set_now 31 r1)).
Definition r1_late : world := set_now 40 r1_rotated.

(** The blob of the cookie for the initiator: its address, port and intro
    keys. *)
Definition blob_i : bytes :=
  [x0a; x00; x00; x01] ++ [x10; x00] ++ repeat x77 32 ++ repeat x88 32.

(** A datagram with one bit of its MAC flipped. *)
Definition flip_first (d : bytes) : bytes :=
  match d with
  | b :: t => byte_xor x01 b :: t
  | [] => []
  end.

Definition tampered : lodp_buf := recv_buf (flip_first (last_sent (w_trace i1))).

(** A well formed envelope under the responder's intro keys around a DATA
    header whose flags byte is 1. *)
Definition bad_flags_plain : lodp_buf :=
  mk_buf (zeros 56 ++ [x00; x01; x00; x04] ++ zeros 1220) (zeros 1280) 60.

Definition bad_flags : lodp_buf :=
  match @encrypt_then_mac P C r_intro_sym bad_flags_plain (w_i 0) with
  | Done (_, b) _ => recv_buf (take 60 (ciphertext b))
  | _ => fresh_buf
  end.

(** A host that asks for 16 bytes of padding, and a DATA packet of 16 bytes
    to send. *)
Definition w_pad : world :=
  mk_world (mk_endpoint false (mk_keypair [] []) (mk_symmetric_key [] [])
              (zeros 32) (zeros 32) 0 0
              (mk_callbacks (fun _ _ => 0) (Some (fun _ _ => 16)) (fun _ _ => 0) true))
    [] 0 (tape 3) 0 [] [] [].

Definition data_body : bytes := [x00; x00; x00; x14] ++ repeat x41 16.

Definition data_plain : lodp_buf :=
  mk_buf (zeros 56 ++ data_body ++ zeros 1204) (zeros 1280) 76.

(** The INIT packet of the initiator as the responder's handlers see it. *)
Definition init_pkt_i : lodp_pkt :=
  mk_pkt PKT_INIT 0 68 (repeat x77 32 ++ repeat x88 32 ++ zeros 1156).

End Scenario.

(** The parts of the state that only callbacks, sessions and the clock touch. *)
Definition same_host (w w' : world) : Prop :=
  w_trace w' = w_trace w /\ w_ep w' = w_ep w /\ w_sessions w' = w_sessions w
  /\ w_now w' = w_now w.

(** What the envelope needs of the primitives: the MAC writes [digest_len]
    bytes, the cipher keeps the length, and decryption undoes a successful
    encryption under the same key and IV. *)
Record crypto_ok (crypto : lodp_crypto) : Prop := {
  mac_length : forall k m n, length (snd (lodp_mac k m n)) = n;
  encrypt_length : forall k iv m, length (snd (lodp_encrypt k iv m)) = length m;
  decrypt_encrypt : forall k iv m,
    fst (lodp_encrypt k iv m) = 0 ->
    lodp_decrypt k iv (snd (lodp_encrypt k iv m)) = (0, m)
}.

(** ** Predicates on states and sessions *)

(** A call that leaves the endpoint, the sessions and the clock as they were
    and hands at most one datagram, for [addr], to [sendto_fn]. *)
Definition sends_at_most_once (addr : sockaddr) (w w' : world) : Prop :=
  w_ep w' = w_ep w /\ w_sessions w' = w_sessions w /\ w_now w' = w_now w
  /\ (w_trace w' = w_trace w \/ exists d, w_trace w' = EvSendto d addr :: w_trace w).

(** What [ntor_handshake] keeps of a session: everything but the shared
    secret, the verifier and the two session keys. *)
Definition same_tcb (s s' : lodp_session) : Prop :=
  peer_addr s' = peer_addr s /\ is_initiator s' = is_initiator s
  /\ state s' = state s
  /\ session_ecdh_keypair s' = session_ecdh_keypair s
  /\ remote_public_key s' = remote_public_key s
  /\ cookie s' = cookie s /\ cookie_len s' = cookie_len s
  /\ seen_peer_data s' = seen_peer_data s
  /\ length (session_secret s') = length (session_secret s)
  /\ length (session_secret_verifier s') = length (session_secret_verifier s).

(** The session as [scrub_handshake_material] leaves it. *)
Definition scrubbed (s : lodp_session) : lodp_session :=
  mk_session (peer_addr s) (is_initiator s) (state s)
    (mk_keypair (zeros (length (public_key (session_ecdh_keypair s))))
       (zeros (length (private_key (session_ecdh_keypair s)))))
    (remote_public_key s) (tx_key s) (rx_key s)
    (zeros (length (session_secret s)))
    (zeros (length (session_secret_verifier s)))
    None (cookie_len s) (seen_peer_data s).

(** ** Further inputs for the run *)

Module Cases.

Import Scenario.

(** The datagram that [encrypt_then_mac] makes of a packet under [keys], in
    the buffer of the host that receives it. *)
Definition sealed (keys : lodp_symmetric_key) (b : lodp_buf) : lodp_buf :=
  match @encrypt_then_mac P C keys b (w_i 0) with
  | Done (_, b') _ => recv_buf (take (Z.to_nat (len b')) (ciphertext b'))
  | _ => fresh_buf
  end.

(** The packet that the handlers see of a datagram that opens under [keys]. *)
Definition opened (keys : lodp_symmetric_key) (b : lodp_buf) : lodp_pkt :=
  match @mac_then_decrypt P C keys b w_r with
  | Done (_, b') _ =>
      match @parse_hdr P b' with
      | Some p => p
      | None => init_pkt_i
      end
  | _ => init_pkt_i
  end.

(** A packet of type [ty] that is its header alone. *)
Definition plain (ty : byte) : lodp_buf :=
  mk_buf (zeros 56 ++ [ty; x00; x00; x04] ++ zeros 1220) (zeros 1280) 60.

(** DATA under the responder's intro keys; a REKEY under the keys of an
    established session; DATA under the keys of the initiator's session
    while it is still in HANDSHAKE. *)
Definition stray_data : lodp_buf := sealed r_intro_sym data_plain.
Definition rekey_in : lodp_buf := sealed (rx_key sess_i) (plain x07).
Definition early_data : lodp_buf := sealed (rx_key (session_of i2 0)) data_plain.

(** An endpoint that has intro keys and holds the session of an initiator. *)
Definition w_dual : world := set_sessions [Some sess_i] r1.

(** Two hosts that hold an ESTABLISHED session each, the keys of the one
    mirrored in the other. *)
Definition est_i : world :=
  set_sessions [Some (set_state STATE_ESTABLISHED sess_i)] (w_i 0).
Definition est_r : world :=
  set_sessions
    [Some (mk_session addr_i false STATE_ESTABLISHED
             (mk_keypair (zeros 32) (zeros 32)) (zeros 32)
             (rx_key sess_i) (tx_key sess_i) (zeros 32) (zeros 32) None 0 false)]
    w_r.

(** Payloads: one too large for a datagram, one that fills it, a small one. *)
Definition big_payload : bytes := zeros 1300.
Definition full_payload : bytes := zeros 1220.
Definition hello : bytes := repeat x68 5.

(** INIT ACK packets without a cookie and with a cookie of 32 bytes. *)
Definition empty_init_ack : lodp_pkt := mk_pkt PKT_INIT_ACK 0 4 [].
Definition init_ack_32 : lodp_pkt := mk_pkt PKT_INIT_ACK 0 36 (zeros 32).

(** The HANDSHAKE ACK of the run as the initiator's handler sees it, and the
    HANDSHAKE as the responder's handler sees it. *)
Definition hs_ack_pkt : lodp_pkt := opened (rx_key (session_of i2 0)) (sent r2).
Definition hs_pkt_i : lodp_pkt := opened r_intro_sym (sent i2).

(** The responder receives 8 bytes of DATA, and a HEARTBEAT of 8 bytes. *)
Definition data_pkt_8 : lodp_pkt := mk_pkt PKT_DATA 0 12 (repeat x41 8 ++ zeros 8).
Definition r2_data : world := after (@on_data_pkt P 0 data_pkt_8 r2).
Definition hb_pkt : lodp_pkt := mk_pkt PKT_HEARTBEAT 0 12 (repeat x42 8 ++ zeros 8).
Definition est_r_hb : world := after (@on_heartbeat_pkt P C 0 hb_pkt est_r).

(** The initiator sends DATA and a HEARTBEAT, and its HANDSHAKE once more;
    the responder answers the INIT and the HANDSHAKE. *)
Definition est_i_sent : world := after (@lodp_send_data_pkt P C 0 hello est_i).
Definition est_i_hb : world := after (@lodp_send_heartbeat_pkt P C 0 hello est_i).
Definition i2_again : world := after (@lodp_send_handshake_pkt P C 0 i2).
Definition r1_ack : world := after (@on_init_pkt P C init_pkt_i addr_i w_r).
Definition r1_hs : world := after (@on_handshake_pkt P C None hs_pkt_i addr_i r1).

(** The responder's new session after its side of the key agreement. *)
Definition r1k : world := after (@ntor_handshake P C 0 X_i r1s).

End Cases.

(** * Properties *)

(** ** The state monad *)

Lemma bind_Done {A B} (m : M A) (k : A -> M B) w b w2 :
  bind m k w = Done b w2 <->
  exists a w1, m w = Done a w1 /\ k a w1 = Done b w2.
Proof.
  unfold bind. split.
  - destruct (m w) as [a w1| |]; try discriminate. eauto.
  - intros (a & w1 & -> & H). exact H.
Qed.

Lemma bind_step {A B} (m : M A) (k : A -> M B) w a w1 :
  m w = Done a w1 -> bind m k w = k a w1.
Proof. unfold bind. intros ->. reflexivity. Qed.

Lemma mem_Done {A} (o : option A) w a w' :
  mem o w = Done a w' <-> o = Some a /\ w' = w.
Proof.
  destruct o; cbn; split.
  - intros [= -> ->]. auto.
  - intros [[= ->] ->]. reflexivity.
  - discriminate.
  - intros [[=] _].
Qed.

(** ** Memory regions *)

Lemma rd_Some off n m x :
  rd off n m = Some x ->
  (off + n <= length m)%nat /\ x = take n (drop off m) /\ length x = n.
Proof.
  unfold rd. destruct (decide _); [|discriminate]. intros [= <-].
  split; [assumption|]. split; [reflexivity|].
  rewrite length_take, length_drop. lia.
Qed.

Lemma rd_defined off n m :
  (off + n <= length m)%nat -> rd off n m = Some (take n (drop off m)).
Proof. unfold rd. intros H. destruct (decide _); [reflexivity|contradiction]. Qed.

Lemma wr_Some off src m m' :
  wr off src m = Some m' ->
  (off + length src <= length m)%nat /\ length m' = length m.
Proof.
  unfold wr. destruct (decide _) as [H|]; [|discriminate]. intros [= <-].
  split; [assumption|].
  rewrite !length_app, length_take, length_drop. lia.
Qed.

Lemma wr_defined off src m :
  (off + length src <= length m)%nat -> exists m', wr off src m = Some m'.
Proof. unfold wr. intros H. destruct (decide _); [eauto|contradiction]. Qed.

Lemma wr_lookup off src m m' i :
  wr off src m = Some m' ->
  m' !! i = if decide (off <= i < off + length src)%nat then src !! (i - off)%nat
            else m !! i.
Proof.
  unfold wr. destruct (decide _) as [Hb|]; [|discriminate]. intros [= <-].
  destruct (decide (off <= i < off + length src)%nat) as [Hi|Hi].
  - rewrite lookup_app_r by (rewrite length_take; lia).
    rewrite length_take, Nat.min_l by lia.
    rewrite lookup_app_l by lia. reflexivity.
  - destruct (decide (i < off)%nat).
    + rewrite lookup_app_l by (rewrite length_take; lia).
      apply lookup_take_lt. lia.
    + rewrite lookup_app_r by (rewrite length_take; lia).
      rewrite length_take, Nat.min_l by lia.
      rewrite lookup_app_r by lia.
      rewrite lookup_drop. f_equal. lia.
Qed.

Lemma rd_wr_same off src m m' :
  wr off src m = Some m' -> rd off (length src) m' = Some src.
Proof.
  intros H. pose proof (wr_Some _ _ _ _ H) as [Hb Hl].
  rewrite rd_defined by lia. f_equal.
  apply list_eq. intros i. rewrite lookup_take, lookup_drop.
  destruct (decide (i < length src)%nat).
  - rewrite (wr_lookup _ _ _ _ _ H).
    destruct (decide _); [f_equal; lia|lia].
  - symmetry. apply lookup_ge_None. lia.
Qed.

Lemma rd_wr_other off src m m' off2 n :
  wr off src m = Some m' ->
  (off2 + n <= off \/ off + length src <= off2)%nat ->
  rd off2 n m' = rd off2 n m.
Proof.
  intros H Hd. pose proof (wr_Some _ _ _ _ H) as [Hb Hl].
  unfold rd. rewrite Hl. destruct (decide _) as [Hin|]; [|reflexivity]. f_equal.
  apply list_eq. intros i. rewrite !lookup_take, !lookup_drop.
  destruct (decide (i < n)%nat); [|reflexivity].
  rewrite (wr_lookup _ _ _ _ _ H). destruct (decide _); [lia|reflexivity].
Qed.

Lemma rd_join off n1 n2 m a b :
  rd off n1 m = Some a -> rd (off + n1) n2 m = Some b ->
  rd off (n1 + n2) m = Some (a ++ b).
Proof.
  intros Ha Hb.
  apply rd_Some in Ha as (H1 & -> & _). apply rd_Some in Hb as (H2 & -> & _).
  rewrite rd_defined by lia. f_equal.
  rewrite <- (take_take_drop (drop off m) n1 n2). f_equal.
  rewrite drop_drop. reflexivity.
Qed.

Lemma rd_prefix off n n' m x :
  rd off n m = Some x -> (n' <= n)%nat -> rd off n' m = Some (take n' x).
Proof.
  intros H Hn. apply rd_Some in H as (H1 & -> & _).
  rewrite rd_defined by lia. f_equal.
  rewrite take_take, Nat.min_l by lia. reflexivity.
Qed.

Lemma rd_sub off n m x off' n' :
  rd off n m = Some x -> (off' + n' <= n)%nat ->
  rd (off + off') n' m = Some (take n' (drop off' x)).
Proof.
  intros H Hn. apply rd_Some in H as (H1 & -> & _).
  rewrite rd_defined by lia. f_equal.
  apply list_eq. intros i. rewrite !lookup_take, !lookup_drop.
  destruct (decide (i < n')%nat); [|reflexivity].
  rewrite lookup_take_lt by lia. rewrite lookup_drop. f_equal. lia.
Qed.

Lemma wr_wipe_again digest dst d1 n c1 :
  wr 0 digest dst = Some d1 ->
  lodp_memwipe n d1 = Some c1 ->
  exists d1', wr 0 digest c1 = Some d1' /\ lodp_memwipe n d1' = Some c1.
Proof.
  unfold lodp_memwipe. intros H1 H2.
  pose proof (wr_Some _ _ _ _ H1) as [Hb1 Hl1].
  pose proof (wr_Some _ _ _ _ H2) as [Hb2 Hl2].
  destruct (wr_defined 0 digest c1) as [d1' H3]; [lia|].
  pose proof (wr_Some _ _ _ _ H3) as [Hb3 Hl3].
  destruct (wr_defined 0 (zeros n) d1') as [c2 H4]; [lia|].
  pose proof (wr_Some _ _ _ _ H4) as [Hb4 Hl4].
  exists d1'. split; [exact H3|]. rewrite H4. f_equal.
  apply list_eq. intros i.
  rewrite (wr_lookup _ _ _ _ i H4), (wr_lookup _ _ _ _ i H2).
  destruct (decide _); [reflexivity|].
  rewrite (wr_lookup _ _ _ _ i H3), (wr_lookup _ _ _ _ i H1).
  destruct (decide _); [reflexivity|].
  rewrite (wr_lookup _ _ _ _ i H2). destruct (decide _); [contradiction|].
  rewrite (wr_lookup _ _ _ _ i H1). destruct (decide _); [contradiction|]. reflexivity.
Qed.

Section Properties.

Context {params : lodp_params} {crypto : lodp_crypto}.

Local Coercion Z.of_nat : nat >-> Z.

Lemma assert_true (b : bool) w : b = true -> assert b w = Done tt w.
Proof. intros ->. unfold assert. rewrite orb_true_r. reflexivity. Qed.

Lemma assert_Done (b : bool) u w w' : assert b w = Done u w' -> w' = w.
Proof. unfold assert. destruct (NDEBUG || b); congruence. Qed.

Lemma lodp_memcmp_0 (a b : bytes) : lodp_memcmp a b = 0 <-> a = b.
Proof. unfold lodp_memcmp. destruct (decide (a = b)); split; congruence. Qed.

(** ** The envelope: MAC before decryption *)

(** A buffer that [mac_then_decrypt] hands back changed has passed the MAC
    comparison. *)
Lemma mac_then_decrypt_changed keys buf w r buf' w' :
  mac_then_decrypt keys buf w = Done (r, buf') w' ->
  buf' <> buf ->
  exists msg digest,
    rd LODP_MAC_DIGEST_LEN (Z.to_nat (len buf - LODP_MAC_DIGEST_LEN)) (ciphertext buf)
      = Some msg
    /\ lodp_mac (mac_key keys) msg LODP_MAC_DIGEST_LEN = (0, digest)
    /\ rd 0 LODP_MAC_DIGEST_LEN (ciphertext buf) = Some digest.
Proof.
  unfold mac_then_decrypt. intros H Hne.
  apply bind_Done in H as (_ & w1 & _ & H).
  destruct (len buf <? LODP_MAC_DIGEST_LEN); [discriminate|].
  apply bind_Done in H as (msg & w2 & Hmsg & H).
  apply mem_Done in Hmsg as [Hmsg ->].
  destruct (lodp_mac (mac_key keys) msg LODP_MAC_DIGEST_LEN) as [r0 digest] eqn:Hmac.
  destruct (r0 =? 0) eqn:Hr0; cbn [negb] in H.
  2:{ cbv [ret] in H. congruence. }
  apply Z.eqb_eq in Hr0 as ->.
  apply bind_Done in H as (tag & w3 & Htag & H).
  apply mem_Done in Htag as [Htag ->].
  destruct (lodp_memcmp digest tag =? 0) eqn:Hcmp; cbn [negb] in H.
  2:{ cbv [ret] in H. congruence. }
  apply Z.eqb_eq, lodp_memcmp_0 in Hcmp as ->.
  exists msg, tag. auto.
Qed.

(** C6.  [mac_then_decrypt] recomputes the MAC and compares it with the
    received tag before it decrypts: when the recomputed MAC differs from the
    tag the function returns LODP_ERR_INVALID_MAC and leaves the buffer, its
    plaintext view included, as it was; and a buffer it hands back changed
    has passed the comparison. *)
Theorem mac_then_decrypt_invalid_mac keys buf w msg digest tag :
  0 < len buf ->
  LODP_MAC_DIGEST_LEN <= len buf ->
  rd LODP_MAC_DIGEST_LEN (Z.to_nat (len buf - LODP_MAC_DIGEST_LEN)) (ciphertext buf)
    = Some msg ->
  lodp_mac (mac_key keys) msg LODP_MAC_DIGEST_LEN = (0, digest) ->
  rd 0 LODP_MAC_DIGEST_LEN (ciphertext buf) = Some tag ->
  digest <> tag ->
  mac_then_decrypt keys buf w = Done (LODP_ERR_INVALID_MAC, buf) w
  /\ (forall keys' buf0 w0 r buf' w',
        mac_then_decrypt keys' buf0 w0 = Done (r, buf') w' ->
        plaintext buf' <> plaintext buf0 ->
        exists msg' digest',
          rd LODP_MAC_DIGEST_LEN (Z.to_nat (len buf0 - LODP_MAC_DIGEST_LEN))
            (ciphertext buf0) = Some msg'
          /\ lodp_mac (mac_key keys') msg' LODP_MAC_DIGEST_LEN = (0, digest')
          /\ rd 0 LODP_MAC_DIGEST_LEN (ciphertext buf0) = Some digest').
Proof.
  intros Hpos Hlen Hmsg Hmac Htag Hne. split.
  - unfold mac_then_decrypt.
    rewrite (bind_step _ _ _ _ _ (assert_true _ w (proj2 (Z.ltb_lt _ _) Hpos))).
    destruct (Z.ltb_spec (len buf) LODP_MAC_DIGEST_LEN) as [E|E]; [lia|].
    rewrite Hmsg. cbn [mem]. rewrite (bind_step _ _ _ _ _ eq_refl).
    rewrite Hmac. cbn [negb Z.eqb].
    rewrite Htag. cbn [mem]. rewrite (bind_step _ _ _ _ _ eq_refl).
    destruct (lodp_memcmp digest tag =? 0) eqn:Hcmp; [|reflexivity].
    apply Z.eqb_eq, lodp_memcmp_0 in Hcmp. contradiction.
  - intros keys' buf0 w0 r buf' w' H Hpt.
    eapply mac_then_decrypt_changed; [exact H|congruence].
Qed.

(** ** The ingress dispatcher *)

Lemma parse_hdr_bytes buf ty fl hi lo :
  rd PKT_TAG_LEN 4 (plaintext buf) = Some [ty; fl; hi; lo] ->
  parse_hdr buf =
    Some (mk_pkt (u8 ty) (u8 fl) (u8 hi * 256 + u8 lo)
            (drop PKT_HDR_LEN (plaintext buf))).
Proof. unfold parse_hdr. intros ->. reflexivity. Qed.

(** C7.  Once the packet is decrypted, [lodp_on_incoming_pkt] reads the
    length field in host byte order (the first byte in memory is the high
    one) and returns LODP_ERR_BAD_PACKET when the length is below 4, when it
    exceeds [buf->len - PKT_TAG_LEN], and when the flags byte is not zero,
    whatever the packet type. *)
Theorem incoming_header_checks session buf addr w used buf' w' ty fl hi lo :
  incoming_mac_then_decrypt session buf w = Done (inr (used, buf')) w' ->
  rd PKT_TAG_LEN 4 (plaintext buf') = Some [ty; fl; hi; lo] ->
  u8 hi * 256 + u8 lo < 4
    \/ u8 hi * 256 + u8 lo > len buf' - PKT_TAG_LEN
    \/ u8 fl <> 0 ->
  parse_hdr buf' =
    Some (mk_pkt (u8 ty) (u8 fl) (u8 hi * 256 + u8 lo)
            (drop PKT_HDR_LEN (plaintext buf')))
  /\ lodp_on_incoming_pkt session buf addr w = Done LODP_ERR_BAD_PACKET w'.
Proof.
  intros Hdec Hrd Hbad.
  pose proof (parse_hdr_bytes _ _ _ _ _ Hrd) as Hparse.
  split; [exact Hparse|].
  unfold lodp_on_incoming_pkt. rewrite (bind_step _ _ _ _ _ Hdec).
  unfold incoming_dispatch. rewrite Hparse. cbn [mem].
  rewrite (bind_step _ _ _ _ _ eq_refl). cbn [hdr_length hdr_flags].
  unfold PKT_TLV_LEN.
  destruct (Z.ltb_spec (u8 hi * 256 + u8 lo) 4%nat); [reflexivity|].
  destruct (Z.gtb_spec (u8 hi * 256 + u8 lo) (len buf' - PKT_TAG_LEN)); [reflexivity|].
  destruct (Z.eqb_spec 0 (u8 fl)); [|reflexivity].
  lia.
Qed.

(** C4.  The choice of the keys in [lodp_on_incoming_pkt].  With a session
    the session's [rx_key] is tried first: success goes on with the session
    keys, an error other than LODP_ERR_INVALID_MAC is returned at once.  The
    endpoint intro keys are tried after LODP_ERR_INVALID_MAC or without a
    session; an endpoint without intro keys then gives
    LODP_ERR_NOT_RESPONDER, and a failure under the intro keys is
    returned. *)
Theorem incoming_key_selection session buf addr w :
  LODP_ERR_INVALID_MAC <> 0 ->
  let intro_attempt buf1 w1 :=
    (has_intro_keys (w_ep w1) = false ->
       lodp_on_incoming_pkt session buf addr w = Done LODP_ERR_NOT_RESPONDER w1)
    /\ (has_intro_keys (w_ep w1) = true ->
         forall r2 buf2 w2,
           mac_then_decrypt (intro_sym_keys (w_ep w1)) buf1 w1 = Done (r2, buf2) w2 ->
           (r2 <> 0 -> lodp_on_incoming_pkt session buf addr w = Done r2 w2)
           /\ (r2 = 0 -> incoming_mac_then_decrypt session buf w
                           = Done (inr (false, buf2)) w2)) in
  (forall sid s r buf1 w1,
      session = Some sid ->
      w_sessions w !! sid = Some (Some s) ->
      mac_then_decrypt (rx_key s) buf w = Done (r, buf1) w1 ->
      (r = 0 -> incoming_mac_then_decrypt session buf w = Done (inr (true, buf1)) w1)
      /\ (r <> 0 -> r <> LODP_ERR_INVALID_MAC ->
            lodp_on_incoming_pkt session buf addr w = Done r w1)
      /\ (r = LODP_ERR_INVALID_MAC -> intro_attempt buf1 w1))
  /\ (session = None -> intro_attempt buf w).
Proof.
  intros Hne intro_attempt.
  assert (Hintro : forall buf1 w1,
    incoming_mac_then_decrypt session buf w =
      (let* ep := get_ep in
       if negb (has_intro_keys ep) then ret (inl LODP_ERR_NOT_RESPONDER)
       else
         let* '(r, b) := mac_then_decrypt (intro_sym_keys ep) buf1 in
         if negb (r =? 0) then ret (inl r) else ret (inr (false, b))) w1 ->
    intro_attempt buf1 w1).
  { intros buf1 w1 Hk. unfold intro_attempt, lodp_on_incoming_pkt.
    unfold bind at 1 in Hk. cbn [get_ep] in Hk. split.
    - intros Hik. rewrite Hik in Hk. cbn [negb] in Hk.
      unfold bind. rewrite Hk. reflexivity.
    - intros Hik r2 buf2 w2 Hm2. rewrite Hik in Hk. cbn [negb] in Hk.
      rewrite (bind_step _ _ _ _ _ Hm2) in Hk. split.
      + intros Hr2. unfold bind. rewrite Hk.
        destruct (Z.eqb_spec r2 0); [contradiction|]. reflexivity.
      + intros ->. rewrite Hk. reflexivity. }
  split.
  - intros sid s r buf1 w1 -> Hs Hm.
    assert (Hget : get_session sid w = Done s w).
    { unfold get_session. rewrite Hs. reflexivity. }
    split; [|split].
    + intros ->. unfold incoming_mac_then_decrypt.
      rewrite !(bind_step _ _ _ _ _ Hget), !(bind_step _ _ _ _ _ Hm).
      reflexivity.
    + intros Hr Hr'. unfold lodp_on_incoming_pkt. unfold bind at 1.
      unfold incoming_mac_then_decrypt.
      rewrite !(bind_step _ _ _ _ _ Hget), !(bind_step _ _ _ _ _ Hm).
      destruct (Z.eqb_spec r 0); [contradiction|].
      destruct (Z.eqb_spec LODP_ERR_INVALID_MAC r); [congruence|]. reflexivity.
    + intros ->. apply Hintro.
      unfold incoming_mac_then_decrypt.
      rewrite !(bind_step _ _ _ _ _ Hget), !(bind_step _ _ _ _ _ Hm).
      destruct (Z.eqb_spec LODP_ERR_INVALID_MAC 0); [contradiction|].
      rewrite Z.eqb_refl. reflexivity.
  - intros ->. apply Hintro. reflexivity.
Qed.

(** ** Stores through the two views of a buffer *)

Lemma write_ct_spec off src b b' :
  write_ct off src b = Some b' ->
  len b' = len b
  /\ length (plaintext b') = length (plaintext b)
  /\ length (ciphertext b') = length (ciphertext b)
  /\ rd off (length src) (ciphertext b') = Some src
  /\ (forall off2 n, (off2 + n <= off \/ off + length src <= off2)%nat ->
        rd off2 n (ciphertext b') = rd off2 n (ciphertext b)
        /\ rd off2 n (plaintext b') = rd off2 n (plaintext b)).
Proof.
  unfold write_ct. destruct (wr off src (ciphertext b)) as [ct|] eqn:Hct; [|discriminate].
  pose proof (wr_Some _ _ _ _ Hct) as [_ Hl].
  destruct views_shared.
  - destruct (wr off src (plaintext b)) as [pt|] eqn:Hpt; [|discriminate].
    pose proof (wr_Some _ _ _ _ Hpt) as [_ Hl'].
    intros [= <-]. cbn. split_and!; try (reflexivity || assumption).
    + eapply rd_wr_same; eassumption.
    + intros; split; eapply rd_wr_other; eassumption.
  - intros [= <-]. cbn. split_and!; try (reflexivity || assumption).
    + eapply rd_wr_same; eassumption.
    + intros; split; first [reflexivity | eapply rd_wr_other; eassumption].
Qed.

Lemma write_pt_spec off src b b' :
  write_pt off src b = Some b' ->
  len b' = len b
  /\ length (plaintext b') = length (plaintext b)
  /\ length (ciphertext b') = length (ciphertext b)
  /\ rd off (length src) (plaintext b') = Some src
  /\ (forall off2 n, (off2 + n <= off \/ off + length src <= off2)%nat ->
        rd off2 n (ciphertext b') = rd off2 n (ciphertext b)
        /\ rd off2 n (plaintext b') = rd off2 n (plaintext b)).
Proof.
  unfold write_pt. destruct (wr off src (plaintext b)) as [pt|] eqn:Hpt; [|discriminate].
  pose proof (wr_Some _ _ _ _ Hpt) as [_ Hl].
  destruct views_shared.
  - destruct (wr off src (ciphertext b)) as [ct|] eqn:Hct; [|discriminate].
    pose proof (wr_Some _ _ _ _ Hct) as [_ Hl'].
    intros [= <-]. cbn. split_and!; try (reflexivity || assumption).
    + eapply rd_wr_same; eassumption.
    + intros; split; eapply rd_wr_other; eassumption.
  - intros [= <-]. cbn. split_and!; try (reflexivity || assumption).
    + eapply rd_wr_same; eassumption.
    + intros; split; first [reflexivity | eapply rd_wr_other; eassumption].
Qed.

Lemma write_ct_defined off src b :
  (off + length src <= length (plaintext b))%nat ->
  (off + length src <= length (ciphertext b))%nat ->
  exists b', write_ct off src b = Some b'.
Proof.
  intros Hp Hc. unfold write_ct.
  destruct (wr_defined _ _ _ Hc) as [ct ->], (wr_defined _ _ _ Hp) as [pt ->].
  destruct views_shared; eauto.
Qed.

Lemma write_pt_defined off src b :
  (off + length src <= length (plaintext b))%nat ->
  (off + length src <= length (ciphertext b))%nat ->
  exists b', write_pt off src b = Some b'.
Proof.
  intros Hp Hc. unfold write_pt.
  destruct (wr_defined _ _ _ Hc) as [ct ->], (wr_defined _ _ _ Hp) as [pt ->].
  destruct views_shared; eauto.
Qed.

Lemma lodp_rand_bytes_spec n w :
  exists out w', lodp_rand_bytes n w = Done out w' /\ length out = n
                 /\ w_ep w' = w_ep w.
Proof.
  eexists _, _. split; [reflexivity|]. split; [|reflexivity].
  rewrite length_map, length_seq. reflexivity.
Qed.

(** ** The envelope: round trip *)

(** [encrypt_then_mac] returns for every packet that fits; when it reports
    success, [mac_then_decrypt] under the same keys succeeds on the buffer
    it leaves, whose plaintext view holds the [n] body bytes that were there
    before any padding was appended. *)
Lemma envelope_own_buffer keys buf w (n : nat) body :
  crypto_ok crypto ->
  length (plaintext buf) = LODP_MSS ->
  length (ciphertext buf) = LODP_MSS ->
  len buf = PKT_TAG_LEN + n ->
  0 < len buf <= LODP_MSS ->
  rd PKT_TAG_LEN n (plaintext buf) = Some body ->
  (forall f, pre_encrypt_fn (callbacks (w_ep w)) = Some f ->
             f (len buf) LODP_MSS + len buf <= INT_MAX) ->
  exists r buf' w',
    encrypt_then_mac keys buf w = Done (r, buf') w'
    /\ (r = 0 ->
        exists buf'',
          mac_then_decrypt keys buf' w' = Done (0, buf'') w'
          /\ rd PKT_TAG_LEN n (plaintext buf'') = Some body).
Proof.
  intros Hok Hpt Hct Hlen Hrange Hbody Hpad.
  unfold encrypt_then_mac.
  rewrite (bind_step _ _ _ _ _ (assert_true _ w (proj2 (Z.ltb_lt _ _) (proj1 Hrange)))).
  rewrite (bind_step _ _ _ _ _ (assert_true _ w (proj2 (Z.leb_le _ _) (proj2 Hrange)))).
  rewrite (bind_step get_ep _ w (w_ep w) w eq_refl).
  lazymatch goal with
  | |- exists r buf' w', bind ?pad ?K w = _ /\ _ => set (K0 := K); set (PAD := pad)
  end.
  assert (HK : forall buf1 w1 (k : nat),
    length (plaintext buf1) = LODP_MSS ->
    length (ciphertext buf1) = LODP_MSS ->
    len buf1 = PKT_TAG_LEN + k ->
    0 < len buf1 <= LODP_MSS ->
    (n <= k)%nat ->
    rd PKT_TAG_LEN n (plaintext buf1) = Some body ->
    exists r buf' w',
      K0 buf1 w1 = Done (r, buf') w'
      /\ (r = 0 ->
          exists buf'',
            mac_then_decrypt keys buf' w' = Done (0, buf'') w'
            /\ rd PKT_TAG_LEN n (plaintext buf'') = Some body)).
  { clear dependent buf. intros buf1 w1 k Hpt Hct Hlen Hrange Hnk Hbody.
    subst K0. cbv beta.
    assert (Htag : PKT_TAG_LEN = (LODP_MAC_DIGEST_LEN + LODP_BULK_IV_LEN)%nat) by reflexivity.
    destruct (lodp_rand_bytes_spec LODP_BULK_IV_LEN w1) as (iv & w2 & Hiv & Hivlen & _).
    rewrite (bind_step _ _ _ _ _ Hiv).
    destruct (write_ct_defined LODP_MAC_DIGEST_LEN iv buf1) as [buf2 Hw2]; [lia..|].
    rewrite Hw2. cbn [mem]. rewrite (bind_step _ _ _ _ _ eq_refl).
    destruct (write_ct_spec _ _ _ _ Hw2) as (Hl2 & Hpt2 & Hct2 & Hiv2 & Hoth2).
    destruct (Z.ltb_spec (len buf2) PKT_TAG_LEN); [lia|].
    rewrite Hivlen in Hiv2. rewrite Hiv2. cbn [mem]. rewrite (bind_step _ _ _ _ _ eq_refl).
    assert (Hk2 : Z.to_nat (len buf2 - PKT_TAG_LEN) = k) by lia.
    rewrite Hk2.
    set (body1 := take k (drop PKT_TAG_LEN (plaintext buf2))).
    assert (Hb1 : rd PKT_TAG_LEN k (plaintext buf2) = Some body1)
      by (apply rd_defined; lia).
    assert (Hb1len : length body1 = k) by (apply rd_Some in Hb1; tauto).
    assert (Hbody2 : rd PKT_TAG_LEN n (plaintext buf2) = Some body).
    { rewrite <- Hbody. apply Hoth2. right. lia. }
    assert (Hbody1 : take n body1 = body).
    { pose proof (rd_prefix _ _ n _ _ Hb1 Hnk) as Hp. congruence. }
    rewrite Hb1. cbn [mem]. rewrite (bind_step _ _ _ _ _ eq_refl).
    pose proof (encrypt_length _ Hok (bulk_key keys) iv body1) as Houtlen.
    pose proof (decrypt_encrypt _ Hok (bulk_key keys) iv body1) as Hdec.
    destruct (lodp_encrypt (bulk_key keys) iv body1) as [r0 out].
    cbn [fst snd] in Houtlen, Hdec.
    destruct (write_ct_defined PKT_TAG_LEN out buf2) as [buf3 Hw3]; [lia..|].
    rewrite Hw3. cbn [mem]. rewrite (bind_step _ _ _ _ _ eq_refl).
    destruct (write_ct_spec _ _ _ _ Hw3) as (Hl3 & Hpt3 & Hct3 & Hout3 & Hoth3).
    destruct (Z.eqb_spec r0 0) as [->|Hr0]; cbn [negb].
    2:{ eexists _, _, _. split; [reflexivity|]. intros; contradiction. }
    specialize (Hdec eq_refl).
    assert (Hiv3 : rd LODP_MAC_DIGEST_LEN LODP_BULK_IV_LEN (ciphertext buf3) = Some iv).
    { rewrite <- Hiv2. apply Hoth3. left. lia. }
    assert (Hmsg3 : rd LODP_MAC_DIGEST_LEN (Z.to_nat (len buf3 - LODP_MAC_DIGEST_LEN))
                      (ciphertext buf3) = Some (iv ++ out)).
    { replace (Z.to_nat (len buf3 - LODP_MAC_DIGEST_LEN))
        with (LODP_BULK_IV_LEN + length out)%nat by lia.
      apply rd_join; [exact Hiv3|]. rewrite <- Htag. exact Hout3. }
    rewrite Hmsg3. cbn [mem]. rewrite (bind_step _ _ _ _ _ eq_refl).
    pose proof (mac_length _ Hok (mac_key keys) (iv ++ out) LODP_MAC_DIGEST_LEN) as Htaglen.
    destruct (lodp_mac (mac_key keys) (iv ++ out) LODP_MAC_DIGEST_LEN) as [r1 tag] eqn:Hmac.
    cbn [snd] in Htaglen.
    destruct (write_ct_defined 0 tag buf3) as [buf4 Hw4]; [lia..|].
    rewrite Hw4. cbn [mem]. rewrite (bind_step _ _ _ _ _ eq_refl).
    destruct (write_ct_spec _ _ _ _ Hw4) as (Hl4 & Hpt4 & Hct4 & Htag4 & Hoth4).
    eexists _, _, _. split; [reflexivity|]. intros ->.
    (* the way back *)
    unfold mac_then_decrypt.
    assert (Hpos4 : 0 < len buf4) by lia.
    rewrite (bind_step _ _ _ _ _ (assert_true _ w2 (proj2 (Z.ltb_lt _ _) Hpos4))).
    destruct (Z.ltb_spec (len buf4) LODP_MAC_DIGEST_LEN); [lia|].
    assert (Hmsg4 : rd LODP_MAC_DIGEST_LEN (Z.to_nat (len buf4 - LODP_MAC_DIGEST_LEN))
                      (ciphertext buf4) = Some (iv ++ out)).
    { rewrite Hl4, <- Hmsg3. apply Hoth4. right. lia. }
    rewrite Hmsg4. cbn [mem]. rewrite (bind_step _ _ _ _ _ eq_refl).
    rewrite Hmac. cbn [negb Z.eqb].
    rewrite Htaglen in Htag4. rewrite Htag4. cbn [mem].
    rewrite (bind_step _ _ _ _ _ eq_refl).
    rewrite (proj2 (lodp_memcmp_0 tag tag) eq_refl). cbn [negb Z.eqb].
    destruct (Z.ltb_spec (len buf4) PKT_TAG_LEN); [lia|].
    assert (Hiv4 : rd LODP_MAC_DIGEST_LEN LODP_BULK_IV_LEN (ciphertext buf4) = Some iv).
    { rewrite <- Hiv3. apply Hoth4. right. lia. }
    rewrite Hiv4. cbn [mem]. rewrite (bind_step _ _ _ _ _ eq_refl).
    assert (Hout4 : rd PKT_TAG_LEN (Z.to_nat (len buf4 - PKT_TAG_LEN)) (ciphertext buf4)
                    = Some out).
    { replace (Z.to_nat (len buf4 - PKT_TAG_LEN)) with (length out) by lia.
      rewrite <- Hout3. apply Hoth4. right. lia. }
    rewrite Hout4. cbn [mem]. rewrite (bind_step _ _ _ _ _ eq_refl).
    rewrite Hdec.
    destruct (write_pt_defined PKT_TAG_LEN body1 buf4) as [buf5 Hw5]; [lia..|].
    rewrite Hw5. cbn [mem]. rewrite (bind_step _ _ _ _ _ eq_refl).
    destruct (write_pt_spec _ _ _ _ Hw5) as (Hl5 & Hpt5 & Hct5 & Hb5 & Hoth5).
    cbn [negb Z.eqb]. eexists. split; [reflexivity|].
    rewrite <- Hbody1. eapply rd_prefix; [exact Hb5|lia]. }
  assert (HP : exists buf1 w1 (k : nat),
    PAD w = Done buf1 w1
    /\ length (plaintext buf1) = LODP_MSS
    /\ length (ciphertext buf1) = LODP_MSS
    /\ len buf1 = PKT_TAG_LEN + k
    /\ 0 < len buf1 <= LODP_MSS
    /\ (n <= k)%nat
    /\ rd PKT_TAG_LEN n (plaintext buf1) = Some body).
  { subst PAD. clear K0 HK.
    destruct (pre_encrypt_fn (callbacks (w_ep w))) as [f|].
    2:{ exists buf, w, n. split_and!; auto; lia. }
    specialize (Hpad f eq_refl).
    destruct (Z.ltb_spec 0 (f (len buf) LODP_MSS)) as [Hr|Hr].
    2:{ exists buf, w, n. split_and!; auto; lia. }
    destruct (Z.ltb_spec INT_MAX (f (len buf) LODP_MSS + len buf)); [lia|].
    set (r := if f (len buf) LODP_MSS + len buf >? LODP_MSS
              then LODP_MSS - len buf else f (len buf) LODP_MSS).
    assert (Hrr : 0 <= r /\ len buf + r <= LODP_MSS).
    { subst r. destruct (Z.gtb_spec (f (len buf) LODP_MSS + len buf) LODP_MSS); lia. }
    destruct (Z.ltb_spec r 0); [lia|].
    destruct (lodp_rand_bytes_spec (Z.to_nat r) w) as (pad & w1 & Hrand & Hpadlen & _).
    rewrite (bind_step _ _ _ _ _ Hrand).
    destruct (write_pt_defined (Z.to_nat (len buf)) pad buf) as [buf1 Hw1]; [lia..|].
    rewrite Hw1. cbn [mem]. rewrite (bind_step _ _ _ _ _ eq_refl).
    destruct (write_pt_spec _ _ _ _ Hw1) as (Hl1 & Hpt1 & Hct1 & _ & Hoth1).
    exists (set_len (len buf1 + r) buf1), w1, (n + Z.to_nat r)%nat.
    cbn [set_len plaintext ciphertext len].
    split_and!; try lia; [reflexivity|].
    rewrite <- Hbody. apply Hoth1. left. lia. }
  destruct HP as (buf1 & w1 & k & HPAD & H1 & H2 & H3 & H4 & H5 & H6).
  rewrite (bind_step _ _ _ _ _ HPAD).
  exact (HK buf1 w1 k H1 H2 H3 H4 H5 H6).
Qed.
(** ** The modified ntor handshake *)

Lemma get_session_Done sid w s w' :
  get_session sid w = Done s w' <-> w_sessions w !! sid = Some (Some s) /\ w' = w.
Proof.
  unfold get_session. destruct (w_sessions w !! sid) as [[s0|]|]; split.
  - intros [= -> ->]. auto.
  - intros [[= ->] ->]. reflexivity.
  - discriminate.
  - intros [[=] _].
  - discriminate.
  - intros [[=] _].
Qed.

Lemma put_session_lookup sid s u w w' :
  put_session sid s w = Done u w' ->
  (sid < length (w_sessions w))%nat ->
  w_sessions w' !! sid = Some (Some s)
  /\ length (w_sessions w') = length (w_sessions w)
  /\ w_ep w' = w_ep w /\ w_trace w' = w_trace w.
Proof.
  unfold put_session, modify. intros [= ?] Hlt. subst w'.
  unfold set_sessions. cbn [w_sessions w_ep w_trace].
  rewrite list_lookup_insert_eq by assumption.
  rewrite length_insert. auto.
Qed.

Lemma ntor_handshake_keys session pub_key w w' :
  LODP_ERR_BAD_HANDSHAKE <> 0 ->
  ntor_handshake session pub_key w = Done 0 w' ->
  exists s s' secret_1 secret_2 Bb Xb Yb secret key_a key_b,
    w_sessions w !! session = Some (Some s)
    /\ w_sessions w' !! session = Some (Some s')
    /\ w_ep w' = w_ep w
    /\ (let kp := session_ecdh_keypair s in
        let ikp := intro_ecdh_keypair (w_ep w) in
        if is_initiator s then
          rd 0 LODP_ECDH_SECRET_LEN (lodp_ecdh (private_key kp) pub_key) = Some secret_1
          /\ rd 0 LODP_ECDH_SECRET_LEN (lodp_ecdh (private_key kp) (remote_public_key s))
               = Some secret_2
          /\ rd 0 LODP_ECDH_PUBLIC_KEY_LEN (remote_public_key s) = Some Bb
          /\ rd 0 LODP_ECDH_PUBLIC_KEY_LEN (public_key kp) = Some Xb
          /\ rd 0 LODP_ECDH_PUBLIC_KEY_LEN pub_key = Some Yb
        else
          rd 0 LODP_ECDH_SECRET_LEN (lodp_ecdh (private_key kp) pub_key) = Some secret_1
          /\ rd 0 LODP_ECDH_SECRET_LEN (lodp_ecdh (private_key ikp) pub_key) = Some secret_2
          /\ rd 0 LODP_ECDH_PUBLIC_KEY_LEN (public_key ikp) = Some Bb
          /\ rd 0 LODP_ECDH_PUBLIC_KEY_LEN pub_key = Some Xb
          /\ rd 0 LODP_ECDH_PUBLIC_KEY_LEN (public_key kp) = Some Yb)
    /\ lodp_mac ss_key (secret_1 ++ secret_2 ++ Bb ++ Xb ++ Yb ++ PROTOID)
         LODP_ECDH_SECRET_LEN = (0, secret)
    /\ lodp_derive_sessionkeys secret = (0, (key_a, key_b))
    /\ is_initiator s' = is_initiator s
    /\ (if is_initiator s then tx_key s' = key_a /\ rx_key s' = key_b
        else rx_key s' = key_a /\ tx_key s' = key_b).
Proof.
  unfold ntor_handshake. intros Hbh H.
  apply bind_Done in H as (s & w0 & Hs & H).
  apply get_session_Done in Hs as [Hs ->].
  apply bind_Done in H as (ep & w0 & Hep & H). injection Hep as <- <-.
  apply bind_Done in H as ([secret_1 secret_2] & w1 & Hsec & H).
  assert (Hsecrets :
    w1 = w /\
    (let kp := session_ecdh_keypair s in
     let ikp := intro_ecdh_keypair (w_ep w) in
     if is_initiator s then
       rd 0 LODP_ECDH_SECRET_LEN (lodp_ecdh (private_key kp) pub_key) = Some secret_1
       /\ rd 0 LODP_ECDH_SECRET_LEN (lodp_ecdh (private_key kp) (remote_public_key s))
            = Some secret_2
     else
       rd 0 LODP_ECDH_SECRET_LEN (lodp_ecdh (private_key kp) pub_key) = Some secret_1
       /\ rd 0 LODP_ECDH_SECRET_LEN (lodp_ecdh (private_key ikp) pub_key) = Some secret_2)).
  { cbv zeta. destruct (is_initiator s).
    - destruct (negb _); [discriminate|].
      apply bind_Done in Hsec as (s1 & ? & H1 & Hsec). apply mem_Done in H1 as [H1 ->].
      destruct (negb _); [discriminate|].
      apply bind_Done in Hsec as (s2 & ? & H2 & Hsec). apply mem_Done in H2 as [H2 ->].
      injection Hsec as <- <- <-. auto.
    - destruct (negb _); [discriminate|].
      apply bind_Done in Hsec as (s1 & ? & H1 & Hsec). apply mem_Done in H1 as [H1 ->].
      apply bind_Done in Hsec as (s2 & ? & H2 & Hsec). apply mem_Done in H2 as [H2 ->].
      injection Hsec as <- <- <-. auto. }
  clear Hsec. destruct Hsecrets as [-> Hsecrets].
  assert (Hsess : (session < length (w_sessions w))%nat)
    by (eapply lookup_lt_Some; eassumption).
  apply bind_Done in H as (Bb & ? & HB & H). apply mem_Done in HB as [HB ->].
  apply bind_Done in H as (Xb & ? & HX & H). apply mem_Done in HX as [HX ->].
  apply bind_Done in H as (Yb & ? & HY & H). apply mem_Done in HY as [HY ->].
  destruct (lodp_mac ss_key _ LODP_ECDH_SECRET_LEN) as [r secret] eqn:Hmac1.
  destruct (Z.eqb_spec r 0) as [->|]; cbn [negb] in H; [|injection H; congruence].
  destruct (lodp_mac verify_key _ LODP_MAC_DIGEST_LEN) as [r verify] eqn:Hmac2.
  destruct (Z.eqb_spec r 0) as [->|]; cbn [negb] in H; [|injection H; congruence].
  apply bind_Done in H as (copied & ? & Hc & H). apply mem_Done in Hc as [Hc ->].
  apply bind_Done in H as (secret' & ? & Hs' & H). apply mem_Done in Hs' as [Hs' ->].
  apply bind_Done in H as (verify0 & ? & Hv & H). apply mem_Done in Hv as [Hv ->].
  destruct (lodp_mac auth_key _ _) as [r auth] eqn:Hmac3.
  apply bind_Done in H as (verifier' & ? & Hvf & H). apply mem_Done in Hvf as [Hvf ->].
  apply bind_Done in H as (u & w2 & Hput1 & H).
  destruct (put_session_lookup _ _ _ _ _ Hput1 Hsess) as (_ & Hlen2 & Hep2 & _).
  destruct (Z.eqb_spec r 0) as [->|]; cbn [negb] in H; [|injection H; congruence].
  destruct (lodp_derive_sessionkeys secret) as [r [key_a key_b]] eqn:Hder.
  apply bind_Done in H as (u' & w3 & Hput2 & H).
  destruct (put_session_lookup _ _ _ _ _ Hput2 ltac:(lia)) as (Hlk3 & _ & Hep3 & _).
  destruct (Z.eqb_spec r 0) as [->|]; [|injection H; congruence].
  injection H as <-.
  eexists s, _, secret_1, secret_2, Bb, Xb, Yb, secret, key_a, key_b.
  split; [exact Hs|]. split; [exact Hlk3|]. split; [congruence|].
  split.
  { cbv zeta in Hsecrets |- *. destruct (is_initiator s); tauto. }
  split; [exact Hmac1|]. split; [exact Hder|].
  cbn [is_initiator set_handshake_material].
  destruct (is_initiator s) eqn:Hinit; cbn; rewrite ?Hinit; auto.
Qed.
(** C8.  [ntor_handshake] derives the two key pairs (key_a, key_b) from the
    shared secret; an initiator session takes tx_key = key_a and
    rx_key = key_b, a responder session rx_key = key_a and tx_key = key_b.
    So after a successful handshake of an initiator and a responder that
    hold each other's public keys, the initiator's tx_key is the
    responder's rx_key and the initiator's rx_key the responder's tx_key. *)
Theorem ntor_key_agreement (wi wi' wr wr' : world) (si sr : nat)
    (ini res : lodp_session) (X Y : bytes) :
  LODP_ERR_BAD_HANDSHAKE <> 0 ->
  w_sessions wi !! si = Some (Some ini) -> is_initiator ini = true ->
  w_sessions wr !! sr = Some (Some res) -> is_initiator res = false ->
  (* what the two sides hold of each other *)
  X = public_key (session_ecdh_keypair ini) ->
  Y = public_key (session_ecdh_keypair res) ->
  remote_public_key ini = public_key (intro_ecdh_keypair (w_ep wr)) ->
  (* Diffie-Hellman: the two sides compute the same two secrets *)
  lodp_ecdh (private_key (session_ecdh_keypair ini)) Y
    = lodp_ecdh (private_key (session_ecdh_keypair res)) X ->
  lodp_ecdh (private_key (session_ecdh_keypair ini)) (remote_public_key ini)
    = lodp_ecdh (private_key (intro_ecdh_keypair (w_ep wr))) X ->
  ntor_handshake si Y wi = Done 0 wi' ->
  ntor_handshake sr X wr = Done 0 wr' ->
  exists ini' res' secret_input secret key_a key_b,
    w_sessions wi' !! si = Some (Some ini')
    /\ w_sessions wr' !! sr = Some (Some res')
    /\ lodp_mac ss_key secret_input LODP_ECDH_SECRET_LEN = (0, secret)
    /\ lodp_derive_sessionkeys secret = (0, (key_a, key_b))
    /\ (tx_key ini' = key_a /\ rx_key ini' = key_b)
    /\ (rx_key res' = key_a /\ tx_key res' = key_b)
    /\ tx_key ini' = rx_key res'
    /\ rx_key ini' = tx_key res'.
Proof.
  intros Hbh Hini Hi Hres Hr HX HY HB Hdh1 Hdh2 Hni Hnr.
  apply ntor_handshake_keys in Hni as
    (s1 & ini' & a1 & a2 & aB & aX & aY & secret & key_a & key_b
       & Hs1 & Hini' & _ & Hin1 & Hmac1 & Hder1 & _ & Hk1); [|exact Hbh].
  apply ntor_handshake_keys in Hnr as
    (s2 & res' & b1 & b2 & bB & bX & bY & secret' & key_a' & key_b'
       & Hs2 & Hres' & _ & Hin2 & Hmac2 & Hder2 & _ & Hk2); [|exact Hbh].
  assert (s1 = ini) by congruence. assert (s2 = res) by congruence. subst s1 s2.
  cbv zeta in Hin1, Hin2. rewrite Hi in Hin1, Hk1. rewrite Hr in Hin2, Hk2.
  destruct Hin1 as (H11 & H12 & H1B & H1X & H1Y).
  destruct Hin2 as (H21 & H22 & H2B & H2X & H2Y).
  assert (a1 = b1) by congruence. assert (a2 = b2) by congruence.
  assert (aB = bB) by congruence. assert (aX = bX) by congruence.
  assert (aY = bY) by congruence. subst b1 b2 bB bX bY.
  assert (secret' = secret) by congruence. subst secret'.
  assert (key_a' = key_a /\ key_b' = key_b) as [-> ->]
    by (split; congruence).
  destruct Hk1 as [Ht1 Hr1], Hk2 as [Hr2 Ht2].
  exists ini', res', (a1 ++ a2 ++ aB ++ aX ++ aY ++ PROTOID), secret, key_a, key_b.
  split_and!; congruence.
Qed.

(** ** The cookie *)

Lemma lodp_rotate_cookie_key_spec w :
  exists w', lodp_rotate_cookie_key w = Done tt w'
    /\ w_trace w' = w_trace w /\ w_sessions w' = w_sessions w
    /\ w_pool w' = w_pool w /\ w_now w' = w_now w.
Proof. eexists. split; [reflexivity|]. cbn. auto. Qed.

Lemma generate_cookie_inv dst prev pkt addr w r dst' w' :
  generate_cookie dst prev pkt addr w = Done (r, dst') w' ->
  (w_trace w' = w_trace w /\ w_sessions w' = w_sessions w /\ w_pool w' = w_pool w
   /\ w_now w' = w_now w)
  /\ ((r = LODP_ERR_BAD_PACKET \/ r = LODP_ERR_AFNOTSUPPORT) /\ dst' = dst
      \/ exists a keys digest d1,
           addr_blob addr = Some (Some a)
           /\ rd 0 (LODP_MAC_KEY_LEN + LODP_BULK_KEY_LEN) (payload pkt) = Some keys
           /\ lodp_mac (cookie_key (w_ep w')) (a ++ keys) COOKIE_LEN = (r, digest)
           /\ wr 0 digest dst = Some d1
           /\ lodp_memwipe SIZEOF_POINTER d1 = Some dst').
Proof.
  unfold generate_cookie. intros H.
  apply bind_Done in H as (now & ? & Hnow & H). injection Hnow as <- <-.
  apply bind_Done in H as (ep & ? & Hep & H). injection Hep as <- <-.
  apply bind_Done in H as (u & w0 & Hrot & H).
  assert (Hw0 : w_trace w0 = w_trace w /\ w_sessions w0 = w_sessions w
                /\ w_pool w0 = w_pool w /\ w_now w0 = w_now w).
  { destruct (_ >? _).
    - destruct (lodp_rotate_cookie_key_spec w) as (w1 & Hr & Hf).
      rewrite Hr in Hrot. injection Hrot as ?. subst w0. exact Hf.
    - injection Hrot as ?. subst w0. auto. }
  clear Hrot.
  destruct (negb (hdr_type pkt =? PKT_INIT) && negb (hdr_type pkt =? PKT_HANDSHAKE)).
  { injection H as ? ? ?; subst. split; [exact Hw0|]. left. auto. }
  apply bind_Done in H as (a & ? & Ha & H). apply mem_Done in Ha as [Ha ->].
  destruct a as [a|].
  2:{ injection H as ? ? ?; subst. split; [exact Hw0|]. left. auto. }
  destruct (hdr_length pkt <? _).
  { injection H as ? ? ?; subst. split; [exact Hw0|]. left. auto. }
  apply bind_Done in H as (keys & ? & Hk & H). apply mem_Done in Hk as [Hk ->].
  apply bind_Done in H as (ep' & ? & Hep & H). injection Hep as <- <-.
  destruct (lodp_mac _ _ _) as [r0 digest] eqn:Hmac.
  apply bind_Done in H as (d1 & ? & Hd1 & H). apply mem_Done in Hd1 as [Hd1 ->].
  apply bind_Done in H as (d2 & ? & Hd2 & H). apply mem_Done in Hd2 as [Hd2 ->].
  injection H as ? ? ?; subst. split; [exact Hw0|]. right.
  exists a, keys, digest, d1. auto.
Qed.

Lemma wiped_cookie dst digest d1 dst' :
  length digest = COOKIE_LEN ->
  (SIZEOF_POINTER <= COOKIE_LEN)%nat ->
  wr 0 digest dst = Some d1 ->
  lodp_memwipe SIZEOF_POINTER d1 = Some dst' ->
  rd 0 COOKIE_LEN dst' = Some (zeros SIZEOF_POINTER ++ drop SIZEOF_POINTER digest).
Proof.
  intros Hlen Hle Hd1 Hd2. unfold lodp_memwipe in Hd2.
  assert (Hz : length (zeros SIZEOF_POINTER) = SIZEOF_POINTER) by apply repeat_length.
  pose proof (rd_wr_same _ _ _ _ Hd1) as Hr1. rewrite Hlen in Hr1.
  pose proof (rd_wr_same _ _ _ _ Hd2) as Hr2. rewrite Hz in Hr2.
  replace COOKIE_LEN with (SIZEOF_POINTER + (COOKIE_LEN - SIZEOF_POINTER))%nat at 1 by lia.
  apply rd_join; [exact Hr2|].
  rewrite (rd_wr_other _ _ _ _ _ _ Hd2) by (right; rewrite Hz; lia).
  rewrite (rd_sub 0 _ _ _ SIZEOF_POINTER (COOKIE_LEN - SIZEOF_POINTER) Hr1) by lia.
  f_equal. apply take_ge. rewrite length_drop. lia.
Qed.
Lemma lodp_buf_alloc_spec w ob w' :
  lodp_buf_alloc w = Done ob w' ->
  w_trace w' = w_trace w /\ w_ep w' = w_ep w /\ w_sessions w' = w_sessions w
  /\ w_now w' = w_now w.
Proof.
  unfold lodp_buf_alloc. destruct (w_pool w) as [|[b|] rest]; intros [= ? ?]; subst; auto.
Qed.

Lemma on_init_pkt_inv init_pkt addr w r w' :
  on_init_pkt init_pkt addr w = Done r w' ->
  (r = LODP_ERR_BAD_PACKET \/ r = LODP_ERR_NOBUFS) /\ w_trace w' = w_trace w
  \/ exists key buf0 w0 rc region wc buf re buf' we,
       peer_intro_keys init_pkt = Some key
       /\ generate_cookie (drop PKT_INIT_ACK_LEN (plaintext buf0)) 0 init_pkt addr w0
            = Done (rc, region) wc
       /\ write_pt PKT_INIT_ACK_LEN region buf0 = Some buf
       /\ len buf = PKT_INIT_ACK_LEN + COOKIE_LEN
       /\ encrypt_then_mac key buf wc = Done (re, buf') we
       /\ (if re =? 0 then sendto buf' addr we = Done r w' else r = re /\ w' = we).
Proof.
  unfold on_init_pkt. intros H.
  destruct (negb (PKT_HDR_INIT_LEN =? hdr_length init_pkt)).
  { injection H as ? ?; subst. left. auto. }
  apply bind_Done in H as (key & ? & Hkey & H). apply mem_Done in Hkey as [Hkey ->].
  apply bind_Done in H as (ob & w0 & Hal & H).
  apply lodp_buf_alloc_spec in Hal as (Htr & _).
  destruct ob as [b|].
  2:{ injection H as ? ?; subst. left. auto. }
  apply bind_Done in H as (u & w1 & Has & H). apply assert_Done in Has as ->.
  apply bind_Done in H as (buf0 & ? & Hhdr & H). apply mem_Done in Hhdr as [Hhdr ->].
  apply bind_Done in H as ([rc region] & wc & Hgen & H).
  apply bind_Done in H as (buf & ? & Hwr & H). apply mem_Done in Hwr as [Hwr ->].
  apply bind_Done in H as ([re buf'] & we & Henc & H).
  right. exists key, buf0, w0, rc, region, wc, buf, re, buf', we.
  split; [exact Hkey|]. split; [exact Hgen|]. split; [exact Hwr|].
  split.
  { apply write_pt_spec in Hwr as (-> & _).
    unfold put_hdr in Hhdr. apply write_pt_spec in Hhdr as (-> & _).
    reflexivity. }
  split; [exact Henc|].
  destruct (re =? 0); cbn [negb] in H.
  - apply bind_Done in H as (r' & w2 & Hsend & H).
    apply bind_Done in H as (? & ? & Hfree & H).
    injection Hfree as ? ?; subst. injection H as ? ?; subst. exact Hsend.
  - apply bind_Done in H as (? & ? & Hfree & H).
    injection Hfree as ? ?; subst. injection H as ? ?; subst. auto.
Qed.

(** C10.  A successful [generate_cookie] leaves in the caller's cookie buffer
    the digest with its first [sizeof(lodp_cookie * )] bytes, the size of a
    pointer and not COOKIE_LEN, wiped to zero.  So the cookie that
    [on_init_pkt] puts in an INIT ACK starts with that many zero bytes, as
    does every reference cookie of the HANDSHAKE validation, which is
    computed by the same function; and two successful calls for the same
    address and intro keys under the same cookie key give the same cookie,
    which is why the cookie check still compares equal. *)
Theorem generate_cookie_wipes_pointer_prefix :
  crypto_ok crypto ->
  (SIZEOF_POINTER <= COOKIE_LEN)%nat ->
  LODP_ERR_BAD_PACKET <> 0 ->
  LODP_ERR_AFNOTSUPPORT <> 0 ->
  (forall dst prev_key pkt addr w dst' w',
      generate_cookie dst prev_key pkt addr w = Done (0, dst') w' ->
      exists a keys digest,
        addr_blob addr = Some (Some a)
        /\ rd 0 (LODP_MAC_KEY_LEN + LODP_BULK_KEY_LEN) (payload pkt) = Some keys
        /\ lodp_mac (cookie_key (w_ep w')) (a ++ keys) COOKIE_LEN = (0, digest)
        /\ rd 0 COOKIE_LEN dst'
             = Some (zeros SIZEOF_POINTER ++ drop SIZEOF_POINTER digest))
  /\ (forall init_pkt addr w r w',
        on_init_pkt init_pkt addr w = Done r w' ->
        w_trace w' <> w_trace w ->
        exists key buf0 w0 rc region wc buf re buf' we,
          generate_cookie (drop PKT_INIT_ACK_LEN (plaintext buf0)) 0 init_pkt addr w0
            = Done (rc, region) wc
          /\ write_pt PKT_INIT_ACK_LEN region buf0 = Some buf
          /\ encrypt_then_mac key buf wc = Done (re, buf') we
          /\ (if re =? 0 then sendto buf' addr we = Done r w' else r = re /\ w' = we)
          /\ (rc = 0 ->
               rd PKT_INIT_ACK_LEN SIZEOF_POINTER (plaintext buf)
                 = Some (zeros SIZEOF_POINTER)))
  /\ (forall dst1 prev1 pkt1 w1 c1 w1' dst2 prev2 pkt2 w2 c2 w2' addr,
        generate_cookie dst1 prev1 pkt1 addr w1 = Done (0, c1) w1' ->
        generate_cookie dst2 prev2 pkt2 addr w2 = Done (0, c2) w2' ->
        rd 0 (LODP_MAC_KEY_LEN + LODP_BULK_KEY_LEN) (payload pkt1)
          = rd 0 (LODP_MAC_KEY_LEN + LODP_BULK_KEY_LEN) (payload pkt2) ->
        cookie_key (w_ep w1') = cookie_key (w_ep w2') ->
        exists c,
          rd 0 COOKIE_LEN c1 = Some c /\ rd 0 COOKIE_LEN c2 = Some c
          /\ lodp_memcmp c c = 0).
Proof.
  intros Hok Hle Hbp Haf.
  assert (HA : forall dst prev_key pkt addr w dst' w',
      generate_cookie dst prev_key pkt addr w = Done (0, dst') w' ->
      exists a keys digest,
        addr_blob addr = Some (Some a)
        /\ rd 0 (LODP_MAC_KEY_LEN + LODP_BULK_KEY_LEN) (payload pkt) = Some keys
        /\ lodp_mac (cookie_key (w_ep w')) (a ++ keys) COOKIE_LEN = (0, digest)
        /\ rd 0 COOKIE_LEN dst'
             = Some (zeros SIZEOF_POINTER ++ drop SIZEOF_POINTER digest)).
  { intros dst prev_key pkt addr w dst' w' H.
    apply generate_cookie_inv in H as [_ [[[E|E] _]|H]]; [congruence..|].
    destruct H as (a & keys & digest & d1 & Ha & Hk & Hmac & Hd1 & Hd2).
    exists a, keys, digest. split_and!; auto.
    eapply wiped_cookie; eauto.
    pose proof (mac_length _ Hok (cookie_key (w_ep w')) (a ++ keys) COOKIE_LEN) as Hl.
    rewrite Hmac in Hl. exact Hl. }
  split; [exact HA|]. split.
  - intros init_pkt addr w r w' H Htr.
    apply on_init_pkt_inv in H as [[_ E]|H]; [contradiction|].
    destruct H as (key & buf0 & w0 & rc & region & wc & buf & re & buf' & we
                   & Hkey & Hgen & Hwr & Hlen & Henc & Hsend).
    exists key, buf0, w0, rc, region, wc, buf, re, buf', we.
    split_and!; auto. intros ->.
    destruct (HA _ _ _ _ _ _ _ Hgen) as (a & keys & digest & _ & _ & Hmac & Hrd).
    apply write_pt_spec in Hwr as (_ & _ & _ & Hreg & _).
    assert (Hz : length (zeros SIZEOF_POINTER) = SIZEOF_POINTER) by apply repeat_length.
    pose proof (rd_Some _ _ _ _ Hrd) as (Hb & _ & _).
    pose proof (rd_prefix _ _ SIZEOF_POINTER _ _ Hrd Hle) as Hp.
    rewrite take_app_length' in Hp by (symmetry; exact Hz).
    apply rd_Some in Hp as (_ & Hp & _). rewrite drop_0 in Hp.
    pose proof (rd_prefix _ _ SIZEOF_POINTER _ _ Hreg ltac:(cbn in Hb; lia)) as Hq.
    rewrite Hq. f_equal. symmetry. exact Hp.
  - intros dst1 prev1 pkt1 w1 c1 w1' dst2 prev2 pkt2 w2 c2 w2' addr H1 H2 Hk Hck.
    destruct (HA _ _ _ _ _ _ _ H1) as (a1 & k1 & d1 & Ha1 & Hk1 & Hm1 & Hr1).
    destruct (HA _ _ _ _ _ _ _ H2) as (a2 & k2 & d2 & Ha2 & Hk2 & Hm2 & Hr2).
    assert (a1 = a2) by congruence. assert (k1 = k2) by congruence. subst a2 k2.
    assert (d1 = d2) by congruence. subst d2.
    eexists. split; [exact Hr1|]. split; [exact Hr2|].
    apply lodp_memcmp_0. reflexivity.
Qed.
(** ** What the defects do in general *)

Lemma same_host_refl w : same_host w w.
Proof. repeat split. Qed.

Lemma same_host_trans w1 w2 w3 : same_host w1 w2 -> same_host w2 w3 -> same_host w1 w3.
Proof. unfold same_host. intros (?&?&?&?) (?&?&?&?). split_and!; congruence. Qed.

Ltac peel H :=
  repeat first
    [ apply bind_Done in H as (? & ? & _ & H)
    | match type of H with
      | (match ?x with _ => _ end) _ = Done _ _ => destruct x
      | (if ?c then _ else _) _ = Done _ _ => destruct c
      end ].

Lemma encrypt_then_mac_same_host keys buf w x w' :
  encrypt_then_mac keys buf w = Done x w' -> same_host w w'.
Proof.
  unfold encrypt_then_mac. intros H.
  apply bind_Done in H as (? & wa & Ha & H). apply assert_Done in Ha. subst wa.
  apply bind_Done in H as (? & wa & Ha & H). apply assert_Done in Ha. subst wa.
  apply bind_Done in H as (ep & wa & Hep & H). injection Hep as ? ?; subst ep wa.
  apply bind_Done in H as (buf1 & w1 & Hpad & H).
  assert (H1 : same_host w w1).
  { destruct (pre_encrypt_fn _) as [f|];
      [|injection Hpad as ? ?; subst buf1 w1; apply same_host_refl].
    destruct (0 <? _); [|injection Hpad as ? ?; subst buf1 w1; apply same_host_refl].
    destruct (INT_MAX <? _); [discriminate|].
    destruct (_ <? 0); [discriminate|].
    apply bind_Done in Hpad as (? & wa & Hr & Hpad). injection Hr as ? ?; subst wa.
    apply bind_Done in Hpad as (? & wb & Hm & Hpad). apply mem_Done in Hm as [_ Hm].
    subst wb. injection Hpad as ? ?; subst buf1 w1. repeat split. }
  apply bind_Done in H as (iv & w2 & Hr & H). injection Hr as ? ?; subst w2.
  eapply same_host_trans; [exact H1|]. clear H1 Hpad.
  apply bind_Done in H as (? & wa & Hm & H). apply mem_Done in Hm as [_ Hm]. subst wa.
  destruct (_ <? _); [discriminate|].
  apply bind_Done in H as (? & wa & Hm & H). apply mem_Done in Hm as [_ Hm]. subst wa.
  apply bind_Done in H as (? & wa & Hm & H). apply mem_Done in Hm as [_ Hm]. subst wa.
  destruct (lodp_encrypt _ _ _) as [r out].
  apply bind_Done in H as (? & wa & Hm & H). apply mem_Done in Hm as [_ Hm]. subst wa.
  destruct (negb _).
  { injection H as ? ?; subst w'. repeat split. }
  apply bind_Done in H as (? & wa & Hm & H). apply mem_Done in Hm as [_ Hm]. subst wa.
  destruct (lodp_mac _ _ _) as [r' tag].
  apply bind_Done in H as (? & wa & Hm & H). apply mem_Done in Hm as [_ Hm]. subst wa.
  injection H as ? ?; subst w'. repeat split.
Qed.

Lemma sendto_spec buf addr w r w' :
  sendto buf addr w = Done r w' ->
  exists d,
    rd 0 (Z.to_nat (len buf)) (ciphertext buf) = Some d
    /\ w_trace w' = EvSendto d addr :: w_trace w
    /\ r = sendto_fn (callbacks (w_ep w)) d addr
    /\ w_ep w' = w_ep w /\ w_sessions w' = w_sessions w /\ w_now w' = w_now w.
Proof.
  unfold sendto. intros H.
  apply bind_Done in H as (ep & wa & Hep & H). injection Hep as ? ?; subst ep wa.
  apply bind_Done in H as (d & wa & Hm & H). apply mem_Done in Hm as [Hd Hm]. subst wa.
  apply bind_Done in H as (? & wa & He & H). injection He as ?; subst wa.
  injection H as ? ?; subst r w'. exists d. repeat split; auto.
Qed.

(** [lodp_send_handshake_pkt] returns 0 once it has a buffer. *)
Lemma lodp_send_handshake_pkt_status session w r w' :
  lodp_send_handshake_pkt session w = Done r w' ->
  r = 0 \/ r = LODP_ERR_NOBUFS.
Proof.
  unfold lodp_send_handshake_pkt, lodp_buf_free. intros H. peel H;
    injection H as ? ?; subst; auto.
Qed.

Lemma send_tail_status key buf addr w r w' :
  (let* '(r, buf) := encrypt_then_mac key buf in
   if negb (r =? 0) then
     let* _ := lodp_buf_free (Some buf) in ret r
   else
     let* r := sendto buf addr in
     let* _ := lodp_buf_free (Some buf) in
     ret r) w = Done r w' ->
  w_trace w' = w_trace w
  \/ exists d, w_trace w' = EvSendto d addr :: w_trace w
               /\ r = sendto_fn (callbacks (w_ep w)) d addr.
Proof.
  intros H. apply bind_Done in H as ([re buf'] & we & Henc & H).
  apply encrypt_then_mac_same_host in Henc as (Htr & Hep & _).
  destruct (negb _).
  - apply bind_Done in H as (? & wa & Hf & H). injection Hf as ?; subst wa.
    injection H as ? ?; subst. left. exact Htr.
  - apply bind_Done in H as (r' & ws & Hs & H).
    apply bind_Done in H as (? & wa & Hf & H). injection Hf as ?; subst wa.
    injection H as ? ?; subst. right.
    apply sendto_spec in Hs as (d & _ & Ht & Hr & _).
    exists d. rewrite Ht, Htr, Hr, Hep. auto.
Qed.

(** The three builders that end in [return (ret)] return what [sendto_fn]
    returned. *)
Lemma lodp_send_data_pkt_status session data w r w' :
  lodp_send_data_pkt session data w = Done r w' ->
  w_trace w' = w_trace w
  \/ exists s d,
       w_sessions w !! session = Some (Some s)
       /\ w_trace w' = EvSendto d (peer_addr s) :: w_trace w
       /\ r = sendto_fn (callbacks (w_ep w)) d (peer_addr s).
Proof.
  unfold lodp_send_data_pkt. intros H.
  apply bind_Done in H as (s & wa & Hs & H). apply get_session_Done in Hs as [Hs ?]; subst wa.
  apply bind_Done in H as (? & wa & Ha & H). apply assert_Done in Ha; subst wa.
  destruct (_ >? _); [injection H as ? ?; subst; auto|].
  apply bind_Done in H as (ob & w0 & Hal & H).
  apply lodp_buf_alloc_spec in Hal as (Htr & Hep & _).
  destruct ob as [b|]; [|injection H as ? ?; subst; auto].
  apply bind_Done in H as (? & wa & Ha & H). apply assert_Done in Ha; subst wa.
  apply bind_Done in H as (? & wa & Hm & H). apply mem_Done in Hm as [_ ?]; subst wa.
  apply bind_Done in H as (? & wa & Hm & H). apply mem_Done in Hm as [_ ?]; subst wa.
  apply send_tail_status in H as [H|(d & H1 & H2)]; [left; congruence|].
  right. exists s, d. rewrite H1, H2, Htr, Hep. auto.
Qed.

Lemma lodp_send_init_pkt_status session w r w' :
  lodp_send_init_pkt session w = Done r w' ->
  w_trace w' = w_trace w
  \/ exists s d,
       w_sessions w !! session = Some (Some s)
       /\ w_trace w' = EvSendto d (peer_addr s) :: w_trace w
       /\ r = sendto_fn (callbacks (w_ep w)) d (peer_addr s).
Proof.
  unfold lodp_send_init_pkt. intros H.
  apply bind_Done in H as (s & wa & Hs & H). apply get_session_Done in Hs as [Hs ?]; subst wa.
  apply bind_Done in H as (? & wa & Ha & H). apply assert_Done in Ha; subst wa.
  apply bind_Done in H as (? & wa & Ha & H). apply assert_Done in Ha; subst wa.
  apply bind_Done in H as (ob & w0 & Hal & H).
  apply lodp_buf_alloc_spec in Hal as (Htr & Hep & _).
  destruct ob as [b|]; [|injection H as ? ?; subst; auto].
  apply bind_Done in H as (? & wa & Ha & H). apply assert_Done in Ha; subst wa.
  do 5 (apply bind_Done in H as (? & wa & Hm & H); apply mem_Done in Hm as [_ ?]; subst wa).
  apply send_tail_status in H as [H|(d & H1 & H2)]; [left; congruence|].
  right. exists s, d. rewrite H1, H2, Htr, Hep. auto.
Qed.

Lemma lodp_send_heartbeat_pkt_status session data w r w' :
  lodp_send_heartbeat_pkt session data w = Done r w' ->
  w_trace w' = w_trace w
  \/ exists s d,
       w_sessions w !! session = Some (Some s)
       /\ w_trace w' = EvSendto d (peer_addr s) :: w_trace w
       /\ r = sendto_fn (callbacks (w_ep w)) d (peer_addr s).
Proof.
  unfold lodp_send_heartbeat_pkt. intros H.
  apply bind_Done in H as (s & wa & Hs & H). apply get_session_Done in Hs as [Hs ?]; subst wa.
  apply bind_Done in H as (? & wa & Ha & H). apply assert_Done in Ha; subst wa.
  destruct (_ >? _); [injection H as ? ?; subst; auto|].
  apply bind_Done in H as (ob & w0 & Hal & H).
  apply lodp_buf_alloc_spec in Hal as (Htr & Hep & _).
  destruct ob as [b|]; [|injection H as ? ?; subst; auto].
  apply bind_Done in H as (? & wa & Ha & H). apply assert_Done in Ha; subst wa.
  apply bind_Done in H as (? & wa & Hm & H). apply mem_Done in Hm as [_ ?]; subst wa.
  apply bind_Done in H as (? & wa & Hm & H). apply mem_Done in Hm as [_ ?]; subst wa.
  apply send_tail_status in H as [H|(d & H1 & H2)]; [left; congruence|].
  right. exists s, d. rewrite H1, H2, Htr, Hep. auto.
Qed.

(** [scrub_handshake_material] on a session that holds a cookie. *)
Lemma scrub_handshake_material_cookie sid s block w :
  w_sessions w !! sid = Some (Some s) ->
  cookie s = Some block ->
  (SIZEOF_COOKIE_LEN <= length block)%nat ->
  exists w' s',
    scrub_handshake_material sid w = Done tt w'
    /\ w_trace w'
         = EvFree (zeros SIZEOF_COOKIE_LEN ++ drop SIZEOF_COOKIE_LEN block) :: w_trace w
    /\ w_sessions w' !! sid = Some (Some s')
    /\ cookie s' = None
    /\ session_ecdh_keypair s'
         = mk_keypair (zeros (length (public_key (session_ecdh_keypair s))))
             (zeros (length (private_key (session_ecdh_keypair s))))
    /\ session_secret s' = zeros (length (session_secret s))
    /\ session_secret_verifier s' = zeros (length (session_secret_verifier s)).
Proof.
  intros Hs Hc Hlen. unfold scrub_handshake_material.
  assert (Hget : get_session sid w = Done s w) by (apply get_session_Done; auto).
  rewrite (bind_step _ _ _ _ _ Hget). rewrite Hc.
  assert (Hz : length (zeros SIZEOF_COOKIE_LEN) = SIZEOF_COOKIE_LEN) by apply repeat_length.
  assert (Hw : lodp_memwipe SIZEOF_COOKIE_LEN block
               = Some (zeros SIZEOF_COOKIE_LEN ++ drop SIZEOF_COOKIE_LEN block)).
  { unfold lodp_memwipe, wr. rewrite Hz. destruct (decide _); [|lia]. reflexivity. }
  rewrite Hw. cbn [mem]. unfold bind, ret, emit, modify, put_session. cbn.
  eexists _, _. split; [reflexivity|]. cbn.
  split; [reflexivity|]. split.
  { apply list_lookup_insert_eq. eapply lookup_lt_Some. exact Hs. }
  cbn. auto.
Qed.
(** A cookie shorter than [sizeof(session->cookie_len)]: the wipe runs past
    the end of the block. *)
Lemma scrub_handshake_material_short_cookie sid s block w :
  w_sessions w !! sid = Some (Some s) ->
  cookie s = Some block ->
  (length block < SIZEOF_COOKIE_LEN)%nat ->
  scrub_handshake_material sid w = Undefined.
Proof.
  intros Hs Hc Hlen. unfold scrub_handshake_material.
  assert (Hget : get_session sid w = Done s w) by (apply get_session_Done; auto).
  rewrite (bind_step _ _ _ _ _ Hget). rewrite Hc.
  assert (Hw : lodp_memwipe SIZEOF_COOKIE_LEN block = None).
  { unfold lodp_memwipe, wr, zeros. rewrite repeat_length.
    destruct (decide _); [lia|reflexivity]. }
  rewrite Hw. reflexivity.
Qed.

Lemma generate_cookie_same_host dst prev pkt addr w x w' :
  generate_cookie dst prev pkt addr w = Done x w' ->
  w_trace w' = w_trace w /\ w_sessions w' = w_sessions w.
Proof.
  destruct x as [r dst']. intros H.
  apply generate_cookie_inv in H as [(? & ? & _) _]. auto.
Qed.

(** A HANDSHAKE for a session that exists: whenever the HANDSHAKE ACK is
    sent again, [on_accept_fn] is called again. *)
Lemma on_handshake_pkt_retransmit sid hs_pkt addr w r w' :
  on_handshake_pkt (Some sid) hs_pkt addr w = Done r w' ->
  w_trace w' = w_trace w
  \/ exists s d,
       w_sessions w !! sid = Some (Some s)
       /\ seen_peer_data s = false
       /\ w_trace w' = EvAccept sid addr :: EvSendto d addr :: w_trace w.
Proof.
  unfold on_handshake_pkt. intros H.
  apply bind_Done in H as (now & wa & Ht & H). injection Ht as ? ?; subst now wa.
  destruct (negb (_ =? hdr_length hs_pkt)); [injection H as ? ?; subst; auto|].
  apply bind_Done in H as ([r1 c1] & w1 & Hg1 & H).
  apply generate_cookie_same_host in Hg1 as [Htr1 Hss1].
  destruct (negb (r1 =? 0)); [injection H as ? ?; subst; auto|].
  apply bind_Done in H as (c & wa & Hm & H). apply mem_Done in Hm as [_ ?]; subst wa.
  apply bind_Done in H as (echoed & wa & Hm & H). apply mem_Done in Hm as [_ ?]; subst wa.
  apply bind_Done in H as (refused & w2 & Hchk & H).
  assert (H2 : w_trace w2 = w_trace w1 /\ w_sessions w2 = w_sessions w1).
  { destruct (negb (lodp_memcmp c echoed =? 0)); [|injection Hchk as ? ?; subst; auto].
    apply bind_Done in Hchk as (ep & wa & Hep & Hchk). injection Hep as ? ?; subst ep wa.
    destruct (_ >? _); [injection Hchk as ? ?; subst; auto|].
    apply bind_Done in Hchk as ([r2 c2] & w3 & Hg2 & Hchk).
    apply generate_cookie_same_host in Hg2.
    destruct (negb (r2 =? 0)); [injection Hchk as ? ?; subst; auto|].
    apply bind_Done in Hchk as (c' & wa & Hm & Hchk). apply mem_Done in Hm as [_ ?]; subst wa.
    destruct (negb _); injection Hchk as ? ?; subst; auto. }
  destruct H2 as [Htr2 Hss2]. clear Hchk.
  destruct refused as [r'|]; [injection H as ? ?; subst; left; congruence|].
  apply bind_Done in H as (key & wa & Hm & H). apply mem_Done in Hm as [_ ?]; subst wa.
  apply bind_Done in H as (pub_key & wa & Hm & H). apply mem_Done in Hm as [_ ?]; subst wa.
  apply bind_Done in H as (ob & w3 & Hal & H).
  apply lodp_buf_alloc_spec in Hal as (Htr3 & Hep3 & Hss3 & _).
  destruct ob as [b|]; [|injection H as ? ?; subst; left; congruence].
  apply bind_Done in H as (? & wa & Ha & H). apply assert_Done in Ha; subst wa.
  apply bind_Done in H as (buf & wa & Hm & H). apply mem_Done in Hm as [_ ?]; subst wa.
  apply bind_Done in H as (s & wa & Hs & H). apply get_session_Done in Hs as [Hs ?]; subst wa.
  apply bind_Done in H as (? & wa & Ha & H). apply assert_Done in Ha; subst wa.
  apply bind_Done in H as (? & wa & Ha & H). apply assert_Done in Ha; subst wa.
  destruct (seen_peer_data s) eqn:Hseen; cbn [negb] in H.
  { apply bind_Done in H as (? & wa & Hf & H). injection Hf as ?; subst wa.
    injection H as ? ?; subst. left. congruence. }
  apply bind_Done in H as (s' & wa & Hs' & H). apply get_session_Done in Hs' as [_ ?]; subst wa.
  do 4 (apply bind_Done in H as (? & wa & Hm & H); apply mem_Done in Hm as [_ ?]; subst wa).
  apply bind_Done in H as ([re buf'] & we & Henc & H).
  apply encrypt_then_mac_same_host in Henc as (Htre & _).
  destruct (negb (re =? 0)); [injection H as ? ?; subst; left; congruence|].
  apply bind_Done in H as (rs & ws & Hsend & H).
  apply sendto_spec in Hsend as (d & _ & Htrs & _).
  apply bind_Done in H as (? & wc & Hemit & H). injection Hemit as ?; subst wc.
  apply bind_Done in H as (? & wa & Hf & H). injection Hf as ?; subst wa.
  injection H as ? ?; subst. right. exists s, d.
  split; [congruence|]. split; [exact Hseen|].
  cbn. congruence.
Qed.
(** A second [generate_cookie] for the same packet and address, whatever its
    [prev_key], returns what the first returned. *)
Lemma generate_cookie_again dst prev prev' pkt addr w r c1 w1 :
  generate_cookie dst prev pkt addr w = Done (r, c1) w1 ->
  generate_cookie c1 prev' pkt addr w1 = Done (r, c1) w1.
Proof.
  unfold generate_cookie. intros H.
  apply bind_Done in H as (now & wa & Hnow & H). injection Hnow as ? ?; subst now wa.
  apply bind_Done in H as (ep & wa & Hep & H). injection Hep as ? ?; subst ep wa.
  apply bind_Done in H as (u & w0 & Hrot & H).
  assert (Hw0 : (w_now w0 >? cookie_rotate_time (w_ep w0) + COOKIE_ROTATE_INTERVAL) = false).
  { destruct (_ >? _) eqn:E.
    - injection Hrot as ?. subst w0. cbn. unfold COOKIE_ROTATE_INTERVAL.
      destruct (Z.gtb_spec (w_now w) (w_now w + 30)); [lia|reflexivity].
    - injection Hrot as ?. subst w0. exact E. }
  clear Hrot.
  rewrite (bind_step time _ w1 (w_now w1) w1 eq_refl).
  rewrite (bind_step get_ep _ w1 (w_ep w1) w1 eq_refl).
  destruct (negb (hdr_type pkt =? PKT_INIT) && negb (hdr_type pkt =? PKT_HANDSHAKE)).
  { injection H as ? ? ?; subst. rewrite Hw0. reflexivity. }
  apply bind_Done in H as (a & wa & Ha & H). apply mem_Done in Ha as [Ha ?]; subst wa.
  destruct a as [a|].
  2:{ injection H as ? ? ?; subst. rewrite Hw0.
      rewrite (bind_step (ret tt) _ w1 tt w1 eq_refl). rewrite Ha. reflexivity. }
  destruct (hdr_length pkt <? _).
  { injection H as ? ? ?; subst. rewrite Hw0.
    rewrite (bind_step (ret tt) _ w1 tt w1 eq_refl). rewrite Ha. reflexivity. }
  apply bind_Done in H as (keys & wa & Hk & H). apply mem_Done in Hk as [Hk ?]; subst wa.
  apply bind_Done in H as (ep' & wa & Hep & H). injection Hep as ? ?; subst ep' wa.
  destruct (lodp_mac _ _ _) as [r0 digest] eqn:Hmac.
  apply bind_Done in H as (d1 & wa & Hd1 & H). apply mem_Done in Hd1 as [Hd1 ?]; subst wa.
  apply bind_Done in H as (d2 & wa & Hd2 & H). apply mem_Done in Hd2 as [Hd2 ?]; subst wa.
  injection H as ? ? ?; subst.
  rewrite Hw0. rewrite (bind_step (ret tt) _ w1 tt w1 eq_refl).
  rewrite Ha. cbn [mem]. rewrite (bind_step _ _ _ _ _ eq_refl).
  rewrite Hk. cbn [mem]. rewrite (bind_step _ _ _ _ _ eq_refl).
  rewrite (bind_step get_ep _ w1 (w_ep w1) w1 eq_refl). rewrite Hmac.
  destruct (wr_wipe_again _ _ _ _ _ Hd1 Hd2) as (d1' & H3 & H4).
  rewrite H3. cbn [mem]. rewrite (bind_step _ _ _ _ _ eq_refl).
  rewrite H4. reflexivity.
Qed.

(** A cookie that does not match under the current key is refused, whatever
    the previous key and the time: the second attempt of [on_handshake_pkt]
    cannot succeed. *)
Lemma on_handshake_pkt_stale_cookie session hs_pkt addr w c1 w1 echoed r w' :
  generate_cookie (zeros COOKIE_LEN) 0 hs_pkt addr w = Done (0, c1) w1 ->
  rd (LODP_MAC_KEY_LEN + LODP_MAC_KEY_LEN + LODP_ECDH_PUBLIC_KEY_LEN) COOKIE_LEN
     (payload hs_pkt) = Some echoed ->
  c1 <> echoed ->
  on_handshake_pkt session hs_pkt addr w = Done r w' ->
  r = LODP_ERR_INVALID_COOKIE \/ r = LODP_ERR_BAD_PACKET.
Proof.
  intros Hg He Hne. unfold on_handshake_pkt. intros H.
  apply bind_Done in H as (now & wa & Ht & H). injection Ht as ? ?; subst now wa.
  destruct (negb (_ =? hdr_length hs_pkt)); [injection H as ? ?; subst; auto|].
  rewrite (bind_step _ _ _ _ _ Hg) in H. cbn [negb Z.eqb] in H.
  assert (Hc1 : rd 0 COOKIE_LEN c1 = Some c1).
  { assert (length c1 = COOKIE_LEN) as Hl.
    { apply generate_cookie_inv in Hg as [_ [[_ ->]|(a & k & dg & d1 & _ & _ & _ & H1 & H2)]].
      - apply repeat_length.
      - apply wr_Some in H1 as [_ H1]. unfold lodp_memwipe in H2.
        apply wr_Some in H2 as [_ H2]. rewrite H2, H1. apply repeat_length. }
    rewrite rd_defined by lia. rewrite drop_0, take_ge by lia. reflexivity. }
  rewrite Hc1, He in H. cbn [mem] in H.
  rewrite !(bind_step _ _ _ _ _ eq_refl) in H.
  apply bind_Done in H as (refused & w2 & Hchk & H).
  assert (Hcmp : negb (lodp_memcmp c1 echoed =? 0) = true).
  { destruct (Z.eqb_spec (lodp_memcmp c1 echoed) 0) as [E|E]; [|reflexivity].
    apply lodp_memcmp_0 in E. contradiction. }
  assert (Href : refused = Some LODP_ERR_INVALID_COOKIE).
  { rewrite Hcmp in Hchk.
    rewrite (bind_step get_ep _ w1 (w_ep w1) w1 eq_refl) in Hchk.
    destruct (_ >? _); [injection Hchk as ? ?; subst; reflexivity|].
    rewrite (bind_step _ _ _ _ _ (generate_cookie_again _ _ 1 _ _ _ _ _ _ Hg)) in Hchk.
    cbn [negb Z.eqb] in Hchk. rewrite Hc1 in Hchk. cbn [mem] in Hchk.
    rewrite (bind_step _ _ _ _ _ eq_refl) in Hchk. rewrite Hcmp in Hchk.
    injection Hchk as ? ?; subst; reflexivity. }
  subst refused. injection H as ? ?; subst. auto.
Qed.
End Properties.

(** ** The stand-in primitives meet the requirements *)

Lemma byte_xor_involutive (a b : byte) : byte_xor a (byte_xor a b) = b.
Proof.
  unfold byte_xor at 2. 
  destruct (Byte.to_bits b) as (b0 & b1 & b2 & b3 & b4 & b5 & b6 & b7) eqn:Eb.
  unfold byte_xor.
  destruct (Byte.to_bits a) as (a0 & a1 & a2 & a3 & a4 & a5 & a6 & a7) eqn:Ea.
  rewrite Byte.to_bits_of_bits.
  rewrite <- !xorb_assoc, !xorb_nilpotent, !xorb_false_l.
  rewrite <- Eb. apply Byte.of_bits_to_bits.
Qed.

Lemma run_crypto_ok : crypto_ok run_crypto.
Proof.
  split.
  - intros k m n. cbn. rewrite length_map, length_seq. reflexivity.
  - intros k iv m. cbn. apply length_map.
  - intros k iv m _. cbn. unfold run_cipher. f_equal.
    rewrite map_map. rewrite <- (map_id m) at 2. apply map_ext.
    intros b. apply byte_xor_involutive.
Qed.

(** ** The run of the protocol *)

(** Every step of the run returns: the two ends complete the handshake. *)
Lemma scenario_steps :
  @lodp_send_init_pkt Scenario.P Scenario.C 0 (Scenario.w_i 0) = Done 0 Scenario.i1
  /\ @lodp_on_incoming_pkt Scenario.P Scenario.C None (Scenario.sent Scenario.i1)
       Scenario.addr_i Scenario.w_r = Done 0 Scenario.r1
  /\ @lodp_on_incoming_pkt Scenario.P Scenario.C (Some 0%nat) (Scenario.sent Scenario.r1)
       Scenario.addr_r Scenario.i1 = Done 0 Scenario.i2
  /\ @lodp_on_incoming_pkt Scenario.P Scenario.C None (Scenario.sent Scenario.i2)
       Scenario.addr_i Scenario.r1 = Done 0 Scenario.r2
  /\ @lodp_on_incoming_pkt Scenario.P Scenario.C (Some 0%nat) (Scenario.sent Scenario.r2)
       Scenario.addr_r Scenario.i2 = Done 0 Scenario.i3
  /\ @lodp_session_init Scenario.P Scenario.C Scenario.addr_i Scenario.X_i false
       Scenario.r1 = Done (Some 0%nat) Scenario.r1s
  /\ @lodp_on_incoming_pkt Scenario.P Scenario.C None (Scenario.sent Scenario.i1)
       Scenario.addr_i (Scenario.set_now 31 Scenario.r1) = Done 0 Scenario.r1_rotated
  /\ tx_key (Scenario.session_of Scenario.i3 0) = rx_key (Scenario.session_of Scenario.r2 0)
  /\ rx_key (Scenario.session_of Scenario.i3 0) = tx_key (Scenario.session_of Scenario.r2 0).
Proof. split_and!; vm_compute; reflexivity. Qed.

(** C1, at a run.  The responder makes a cookie at time 0, rotates its cookie
    key at time 31 and receives at time 40, inside the grace window that
    ends at 46, the HANDSHAKE that echoes the cookie.  The cookie is the one
    made under what is now the previous key, yet the HANDSHAKE is refused
    with LODP_ERR_INVALID_COOKIE: [generate_cookie] keys the MAC with
    [cookie_key] whatever [prev_key] says.  Before the rotation the same
    datagram is accepted. *)
Theorem prev_key_cookie_rejected_in_grace_window :
  let w := Scenario.r1_late in
  let hs := Scenario.sent Scenario.i2 in
  cookie (Scenario.session_of Scenario.i2 0)
    = Some (zeros 8 ++ drop 8 (snd (run_mac (prev_cookie_key (w_ep w)) Scenario.blob_i 32)))
  /\ cookie_key (w_ep w) <> prev_cookie_key (w_ep w)
  /\ w_now w <= cookie_expire_time (w_ep w)
  /\ (exists w', @lodp_on_incoming_pkt Scenario.P Scenario.C None hs Scenario.addr_i w
                 = Done (@LODP_ERR_INVALID_COOKIE Scenario.P) w')
  /\ (exists w', @lodp_on_incoming_pkt Scenario.P Scenario.C None hs Scenario.addr_i
                   (Scenario.set_now 29 Scenario.r1) = Done 0 w').
Proof.
  cbv zeta. split_and!.
  - vm_compute. reflexivity.
  - vm_compute. discriminate.
  - vm_compute. discriminate.
  - eexists. vm_compute. reflexivity.
  - eexists. vm_compute. reflexivity.
Qed.

(** C2, at a run.  The responder has accepted a HANDSHAKE and has seen no
    DATA; the same HANDSHAKE arrives again.  Built with NDEBUG the responder
    sends the HANDSHAKE ACK again and calls [on_accept_fn] a second time;
    built with assertions it stops at
    [assert(STATE_ESTABLISHED != session->state)]. *)
Theorem retransmitted_handshake_calls_on_accept_again :
  (exists s, w_sessions Scenario.r2 !! 0%nat = Some (Some s)
             /\ is_initiator s = false /\ seen_peer_data s = false
             /\ state s = STATE_ESTABLISHED)
  /\ Scenario.accepts (w_trace Scenario.r2) = 1%nat
  /\ @lodp_on_incoming_pkt Scenario.P Scenario.C (Some 0%nat)
       (Scenario.sent Scenario.i2) Scenario.addr_i Scenario.r2 = Done 0 Scenario.r3
  /\ Scenario.accepts (w_trace Scenario.r3) = 2%nat
  /\ (exists w', @lodp_on_incoming_pkt Scenario.P_debug Scenario.C (Some 0%nat)
                   (Scenario.sent Scenario.i2) Scenario.addr_i Scenario.r2 = Aborted w').
Proof.
  split_and!.
  - eexists. split; [vm_compute; reflexivity|]. vm_compute. auto.
  - vm_compute. reflexivity.
  - vm_compute. reflexivity.
  - vm_compute. reflexivity.
  - eexists. vm_compute. reflexivity.
Qed.

(** C3, at a run.  The initiator holds a cookie of 32 bytes and receives the
    valid HANDSHAKE ACK.  Its session is ESTABLISHED, the key pair, the
    secret and the verifier are zero, and the cookie block is released with
    only its first [sizeof(session->cookie_len)] = 8 bytes wiped: the other
    24 bytes are those of the cookie, none of them zero. *)
Theorem scrub_leaves_cookie_tail :
  let before := Scenario.session_of Scenario.i2 0 in
  let after := Scenario.session_of Scenario.i3 0 in
  state before = STATE_HANDSHAKE
  /\ cookie_len before = 32
  /\ @lodp_on_incoming_pkt Scenario.P Scenario.C (Some 0%nat)
       (Scenario.sent Scenario.r2) Scenario.addr_r Scenario.i2 = Done 0 Scenario.i3
  /\ w_sessions Scenario.i3 !! 0%nat = Some (Some after)
  /\ state after = STATE_ESTABLISHED
  /\ session_ecdh_keypair after = mk_keypair (zeros 32) (zeros 32)
  /\ session_secret after = zeros 32
  /\ session_secret_verifier after = zeros 32
  /\ cookie after = None
  /\ exists block freed,
       cookie before = Some block
       /\ length block = 32%nat
       /\ w_trace Scenario.i3 = EvConnect 0 0 :: EvFree freed :: w_trace Scenario.i2
       /\ take 8 freed = zeros 8
       /\ drop 8 freed = drop 8 block
       /\ Forall (fun b => b <> x00) (drop 8 freed).
Proof.
  cbv zeta. split_and!; try (vm_compute; reflexivity).
  eexists _, _. split_and!; try (vm_compute; reflexivity).
  vm_compute. repeat (constructor; [discriminate|]). constructor.
Qed.

(** C9, at a run.  [sendto_fn] fails with -9.  [lodp_send_handshake_pkt]
    builds, encrypts and hands the datagram to [sendto_fn], and returns 0;
    [lodp_send_init_pkt] in the same situation returns -9. *)
Theorem send_handshake_drops_sendto_status :
  let w := set_trace [] (set_ep (Scenario.ep_i (-9)) Scenario.i2) in
  (exists d w',
     @lodp_send_handshake_pkt Scenario.P Scenario.C 0 w = Done 0 w'
     /\ w_trace w' = [EvSendto d Scenario.addr_r]
     /\ sendto_fn (callbacks (w_ep w)) d Scenario.addr_r = -9)
  /\ (exists d w',
        @lodp_send_init_pkt Scenario.P Scenario.C 0 (Scenario.w_i (-9)) = Done (-9) w'
        /\ w_trace w' = [EvSendto d Scenario.addr_r]
        /\ sendto_fn (callbacks (w_ep (Scenario.w_i (-9)))) d Scenario.addr_r = -9).
Proof.
  cbv zeta. split.
  - eexists _, _. split_and!; [vm_compute; reflexivity| vm_compute; reflexivity | reflexivity].
  - eexists _, _. split_and!; [vm_compute; reflexivity| vm_compute; reflexivity | reflexivity].
Qed.

(** ** Further properties: bytes, memory regions and sessions *)

Lemma u8_byte_of_Z z : u8 (byte_of_Z z) = z mod 256.
Proof.
  unfold u8, byte_of_Z.
  pose proof (Z.mod_pos_bound z 256 ltac:(lia)) as Hz.
  destruct (Byte.of_N (Z.to_N (z mod 256))) as [b|] eqn:E.
  - apply Byte.to_of_N in E. rewrite E. lia.
  - apply Byte.of_N_None_iff in E. lia.
Qed.

Lemma ntohs_htons x :
  exists hi lo, htons x = [hi; lo] /\ ntohs hi lo = x mod 65536.
Proof.
  eexists _, _. split; [reflexivity|].
  unfold ntohs. rewrite !u8_byte_of_Z.
  pose proof (Z.mod_pos_bound x 65536 ltac:(lia)) as Hx.
  rewrite (Z.mod_small (x mod 65536 / 256)).
  2:{ split; [apply Z.div_pos; lia|apply Z.div_lt_upper_bound; lia]. }
  rewrite Z.mod_mod by lia.
  pose proof (Z.div_mod (x mod 65536) 256 ltac:(lia)). lia.
Qed.

Lemma set_sessions_id w : set_sessions (w_sessions w) w = w.
Proof. destruct w; reflexivity. Qed.

Lemma same_tcb_refl s : same_tcb s s.
Proof. unfold same_tcb. split_and!; reflexivity. Qed.

Lemma rd_drop off n m x : rd off n m = Some x -> rd 0 n (drop off m) = Some x.
Proof.
  intros H. apply rd_Some in H as (Hb & -> & _).
  rewrite rd_defined by (rewrite length_drop; lia). rewrite drop_0. reflexivity.
Qed.

Lemma rd_split off m (a b : bytes) :
  rd off (length a + length b) m = Some (a ++ b) ->
  rd off (length a) m = Some a /\ rd (off + length a) (length b) m = Some b.
Proof.
  intros H. split.
  - rewrite (rd_prefix _ _ (length a) _ _ H) by lia.
    rewrite take_app_length. reflexivity.
  - rewrite (rd_sub _ _ _ _ (length a) (length b) H) by lia.
    rewrite drop_app_length, take_ge by lia. reflexivity.
Qed.

Lemma wr_whole src m : length src = length m -> wr 0 src m = Some src.
Proof.
  intros H. unfold wr. destruct (decide _); [|lia]. f_equal.
  rewrite take_0, drop_ge by lia. cbn. apply app_nil_r.
Qed.

(** ** Further properties: handlers, builders and the wire format *)

Section Coverage.

Context {params : lodp_params} {crypto : lodp_crypto}.

Local Coercion Z.of_nat : nat >-> Z.

Ltac step H :=
  let a := fresh "a" in
  let wa := fresh "wa" in
  let Hm := fresh "Hm" in
  apply bind_Done in H as (a & wa & Hm & H);
  first [ apply mem_Done in Hm as [Hm ?]; subst wa
        | apply assert_Done in Hm; subst wa
        | apply get_session_Done in Hm as [Hm ?]; subst wa
        | idtac ].

Tactic Notation "step_mem" hyp(H) "as" ident(x) ident(Hx) :=
  let wa := fresh "wa" in
  apply bind_Done in H as (x & wa & Hx & H);
  apply mem_Done in Hx as [Hx ?]; subst wa.

Ltac pkt_types :=
  unfold PKT_DATA, PKT_INIT, PKT_INIT_ACK, PKT_HANDSHAKE, PKT_HANDSHAKE_ACK,
    PKT_HEARTBEAT, PKT_HEARTBEAT_ACK, PKT_REKEY, PKT_REKEY_ACK.

Ltac run_mem H :=
  rewrite (bind_step _ _ _ _ _ (proj2 (mem_Done _ _ _ _) (conj H eq_refl))).

Ltac no_datagram Htr :=
  exfalso; apply (f_equal (@length _)) in Htr; cbn in Htr; lia.

Lemma parse_hdr_built buf ty length :
  0 <= ty < 256 ->
  rd PKT_TAG_LEN 4 (plaintext buf) = Some ([byte_of_Z ty; x00] ++ htons length) ->
  parse_hdr buf =
    Some (mk_pkt ty 0 (length mod 65536) (drop PKT_HDR_LEN (plaintext buf))).
Proof.
  intros Hty Hrd.
  destruct (ntohs_htons length) as (hi & lo & Hh & Hn).
  rewrite Hh in Hrd. cbn [app] in Hrd.
  rewrite (parse_hdr_bytes _ _ _ _ _ Hrd). unfold ntohs in Hn.
  rewrite Hn, u8_byte_of_Z, Z.mod_small by lia. reflexivity.
Qed.

Lemma drop_wr off src m m' (k : nat) :
  wr off src m = Some m' -> (off + length src <= k)%nat -> drop k m' = drop k m.
Proof.
  intros H Hk. apply list_eq. intros i. rewrite !lookup_drop.
  rewrite (wr_lookup _ _ _ _ _ H). destruct (decide _); [lia|reflexivity].
Qed.

Lemma write_pt_drop off src b b' (k : nat) :
  write_pt off src b = Some b' -> (off + length src <= k)%nat ->
  drop k (plaintext b') = drop k (plaintext b).
Proof.
  unfold write_pt. intros H Hk.
  destruct (wr off src (plaintext b)) as [pt|] eqn:Hpt; [|discriminate].
  assert (plaintext b' = pt) as ->.
  { destruct views_shared; [destruct (wr off src (ciphertext b)); [|discriminate]|];
      injection H as <-; reflexivity. }
  eapply drop_wr; eassumption.
Qed.

(** X1.  The header round trip.  The TLV header that a builder stores in the
    plaintext view (the type, a zero flags byte and [htons(length)]) is read
    back by the dispatcher as that type, flags 0 and the length reduced
    modulo 2^16; the store leaves the bytes after the header and [buf->len]
    as they were. *)
Theorem put_hdr_parse_hdr ty length buf buf' :
  0 <= ty < 256 ->
  put_hdr ty length buf = Some buf' ->
  parse_hdr buf'
    = Some (mk_pkt ty 0 (length mod 65536) (drop PKT_HDR_LEN (plaintext buf)))
  /\ len buf' = len buf.
Proof.
  intros Hty H. unfold put_hdr in H.
  pose proof (write_pt_spec _ _ _ _ H) as (Hl & _ & _ & Hrd & _).
  rewrite (parse_hdr_built _ _ _ Hty Hrd).
  rewrite (write_pt_drop _ _ _ _ PKT_HDR_LEN H) by (cbn; unfold PKT_HDR_LEN; lia).
  auto.
Qed.

Lemma mac_then_decrypt_world keys buf w x w' :
  mac_then_decrypt keys buf w = Done x w' -> w' = w.
Proof.
  unfold mac_then_decrypt. intros H.
  step H. destruct (_ <? _); [discriminate|].
  step H. destruct (lodp_mac _ _ _) as [r digest].
  destruct (negb _); [injection H as ? ?; subst; reflexivity|].
  step H. destruct (negb _); [injection H as ? ?; subst; reflexivity|].
  destruct (_ <? _); [discriminate|].
  step H. step H. destruct (lodp_decrypt _ _ _) as [r' out].
  step H. injection H as ? ?; subst; reflexivity.
Qed.

Lemma incoming_mac_then_decrypt_inr session buf w used buf' w' :
  incoming_mac_then_decrypt session buf w = Done (inr (used, buf')) w' ->
  w' = w
  /\ (used = false -> has_intro_keys (w_ep w) = true)
  /\ (session = None -> used = false).
Proof.
  unfold incoming_mac_then_decrypt. intros H.
  assert (Hep : forall b w0,
    (let* ep := get_ep in
     if negb (has_intro_keys ep) then ret (inl LODP_ERR_NOT_RESPONDER)
     else
       let* '(r, b) := mac_then_decrypt (intro_sym_keys ep) b in
       if negb (r =? 0) then ret (inl r) else ret (inr (false, b))) w0
      = Done (inr (used, buf')) w' ->
    w' = w0 /\ used = false /\ has_intro_keys (w_ep w0) = true).
  { intros b w0 Hk. unfold bind at 1 in Hk. cbn [get_ep] in Hk.
    destruct (has_intro_keys (w_ep w0)); [|discriminate]. cbn [negb] in Hk.
    apply bind_Done in Hk as ([r b'] & w1 & Hm & Hk).
    apply mac_then_decrypt_world in Hm. subst w1.
    destruct (negb _); [discriminate|]. injection Hk as ? ? ?; subst. auto. }
  destruct session as [sid|].
  - step H. apply bind_Done in H as ([r b'] & w1 & Hmd & H).
    apply mac_then_decrypt_world in Hmd. subst w1.
    destruct (r =? 0).
    { injection H as ? ? ?; subst. split; [reflexivity|]. split; discriminate. }
    destruct (negb _); [discriminate|].
    apply Hep in H as (-> & -> & Hk). auto.
  - apply Hep in H as (-> & -> & Hk). auto.
Qed.

Lemma incoming_dispatch_unhandled (session : option nat) (used : bool) buf addr w hdr :
  parse_hdr buf = Some hdr ->
  (session = None -> has_intro_keys (w_ep w) = true) ->
  match session with
  | None => hdr_type hdr <> PKT_INIT /\ hdr_type hdr <> PKT_HANDSHAKE
  | Some _ =>
      if used then
        hdr_type hdr <> PKT_DATA /\ hdr_type hdr <> PKT_INIT_ACK
        /\ hdr_type hdr <> PKT_HANDSHAKE_ACK /\ hdr_type hdr <> PKT_HEARTBEAT
        /\ hdr_type hdr <> PKT_HEARTBEAT_ACK
      else hdr_type hdr <> PKT_HANDSHAKE
  end ->
  incoming_dispatch session used buf addr w = Done LODP_ERR_BAD_PACKET w.
Proof.
  intros Hparse Hik Hty. unfold incoming_dispatch.
  rewrite Hparse. cbn [mem]. rewrite (bind_step _ _ _ _ _ eq_refl).
  destruct (_ <? _); [reflexivity|].
  destruct (_ >? _); [reflexivity|].
  destruct (negb (0 =? _)); [reflexivity|].
  destruct session as [sid|].
  - destruct used; cbn [negb].
    + destruct Hty as (H0 & H2 & H4 & H5 & H6).
      rewrite (proj2 (Z.eqb_neq _ _) H0), (proj2 (Z.eqb_neq _ _) H2),
        (proj2 (Z.eqb_neq _ _) H4), (proj2 (Z.eqb_neq _ _) H5),
        (proj2 (Z.eqb_neq _ _) H6). reflexivity.
    + destruct (Z.eqb_spec PKT_HANDSHAKE (hdr_type hdr)); [congruence|]. reflexivity.
  - rewrite (bind_step get_ep _ w (w_ep w) w eq_refl).
    rewrite (bind_step _ _ _ _ _ (assert_true _ w (Hik eq_refl))).
    destruct Hty as (H1 & H3).
    rewrite (proj2 (Z.eqb_neq _ _) H1), (proj2 (Z.eqb_neq _ _) H3). reflexivity.
Qed.

(** X2.  A decrypted packet whose type has no handler in its context makes
    [lodp_on_incoming_pkt] return LODP_ERR_BAD_PACKET and leaves the state as
    it was: without a session every type but INIT and HANDSHAKE; with a
    session and its keys every type but DATA, INIT ACK, HANDSHAKE ACK,
    HEARTBEAT and HEARTBEAT ACK; with a session and the endpoint keys every
    type but HANDSHAKE. *)
Theorem incoming_type_out_of_context session buf addr w used buf' w' hdr :
  incoming_mac_then_decrypt session buf w = Done (inr (used, buf')) w' ->
  parse_hdr buf' = Some hdr ->
  match session with
  | None => hdr_type hdr <> PKT_INIT /\ hdr_type hdr <> PKT_HANDSHAKE
  | Some _ =>
      if used then
        hdr_type hdr <> PKT_DATA /\ hdr_type hdr <> PKT_INIT_ACK
        /\ hdr_type hdr <> PKT_HANDSHAKE_ACK /\ hdr_type hdr <> PKT_HEARTBEAT
        /\ hdr_type hdr <> PKT_HEARTBEAT_ACK
      else hdr_type hdr <> PKT_HANDSHAKE
  end ->
  lodp_on_incoming_pkt session buf addr w = Done LODP_ERR_BAD_PACKET w.
Proof.
  intros Hdec Hparse Hty.
  pose proof (incoming_mac_then_decrypt_inr _ _ _ _ _ _ Hdec) as (-> & Hik & Hnone).
  unfold lodp_on_incoming_pkt. rewrite (bind_step _ _ _ _ _ Hdec).
  eapply incoming_dispatch_unhandled; eauto.
Qed.

(** X3.  REKEY and REKEY ACK are not implemented: a packet of type REKEY,
    REKEY ACK or above is rejected with LODP_ERR_BAD_PACKET in every context,
    and nothing changes. *)
Theorem incoming_rekey_rejected session buf addr w used buf' w' hdr :
  incoming_mac_then_decrypt session buf w = Done (inr (used, buf')) w' ->
  parse_hdr buf' = Some hdr ->
  hdr_type hdr = PKT_REKEY \/ hdr_type hdr = PKT_REKEY_ACK \/ PKT_REKEY_ACK < hdr_type hdr ->
  lodp_on_incoming_pkt session buf addr w = Done LODP_ERR_BAD_PACKET w
  /\ w' = w.
Proof.
  intros Hdec Hparse Hty.
  pose proof (incoming_mac_then_decrypt_inr _ _ _ _ _ _ Hdec) as (-> & Hik & Hnone).
  split; [|reflexivity].
  unfold lodp_on_incoming_pkt. rewrite (bind_step _ _ _ _ _ Hdec).
  eapply incoming_dispatch_unhandled; eauto.
  unfold PKT_REKEY, PKT_REKEY_ACK, PKT_DATA, PKT_INIT, PKT_INIT_ACK, PKT_HANDSHAKE,
    PKT_HANDSHAKE_ACK, PKT_HEARTBEAT, PKT_HEARTBEAT_ACK in *.
  destruct session; [destruct used|]; lia.
Qed.

(** X4.  A HANDSHAKE that arrives under the endpoint keys for the session of
    an initiator is refused with LODP_ERR_NOT_RESPONDER, and nothing
    changes. *)
Theorem incoming_handshake_for_initiator sid s buf addr w buf' w' hdr :
  incoming_mac_then_decrypt (Some sid) buf w = Done (inr (false, buf')) w' ->
  parse_hdr buf' = Some hdr ->
  PKT_TLV_LEN <= hdr_length hdr <= len buf' - PKT_TAG_LEN ->
  hdr_flags hdr = 0 ->
  hdr_type hdr = PKT_HANDSHAKE ->
  w_sessions w !! sid = Some (Some s) ->
  is_initiator s = true ->
  lodp_on_incoming_pkt (Some sid) buf addr w = Done LODP_ERR_NOT_RESPONDER w.
Proof.
  intros Hdec Hparse Hlen Hfl Hty Hs Hini.
  pose proof (incoming_mac_then_decrypt_inr _ _ _ _ _ _ Hdec) as (-> & _).
  unfold lodp_on_incoming_pkt. rewrite (bind_step _ _ _ _ _ Hdec).
  unfold incoming_dispatch.
  rewrite Hparse. cbn [mem]. rewrite (bind_step _ _ _ _ _ eq_refl).
  destruct (Z.ltb_spec (hdr_length hdr) PKT_TLV_LEN); [lia|].
  destruct (Z.gtb_spec (hdr_length hdr) (len buf' - PKT_TAG_LEN)); [lia|].
  rewrite Hfl, Hty, !Z.eqb_refl. cbn [negb].
  assert (Hget : get_session sid w = Done s w) by (apply get_session_Done; auto).
  rewrite (bind_step _ _ _ _ _ Hget), Hini. reflexivity.
Qed.

Lemma established_true s :
  state s = STATE_ESTABLISHED -> bool_decide (STATE_ESTABLISHED = state s) = true.
Proof. intros ->. reflexivity. Qed.

(** X7.  [lodp_send_data_pkt] and [lodp_send_heartbeat_pkt] return
    LODP_ERR_MSGSIZE for a payload that does not fit LODP_MSS with the
    header, before a buffer is taken: the state is as before. *)
Theorem send_payload_too_large sid s data w :
  w_sessions w !! sid = Some (Some s) ->
  state s = STATE_ESTABLISHED ->
  LODP_MSS < PKT_DATA_LEN + length data ->
  lodp_send_data_pkt sid data w = Done LODP_ERR_MSGSIZE w
  /\ lodp_send_heartbeat_pkt sid data w = Done LODP_ERR_MSGSIZE w.
Proof.
  intros Hs Hst Hlen.
  assert (Hget : get_session sid w = Done s w) by (apply get_session_Done; auto).
  unfold lodp_send_data_pkt, lodp_send_heartbeat_pkt, PKT_HEARTBEAT_LEN.
  fold PKT_DATA_LEN.
  rewrite !(bind_step _ _ _ _ _ Hget).
  rewrite !(bind_step _ _ _ _ _ (assert_true _ w (established_true _ Hst))).
  destruct (Z.gtb_spec (PKT_DATA_LEN + length data) LODP_MSS); [|lia].
  split; reflexivity.
Qed.

(** X8.  A payload that fills the datagram exactly (header and payload of
    LODP_MSS bytes) passes the size check, which tests [> LODP_MSS], and then
    fails [assert(buf->len < LODP_MSS)]: built with assertions, both builders
    abort after they have taken a buffer. *)
Theorem send_payload_filling_mss_asserts sid s data b rest w :
  NDEBUG = false ->
  w_sessions w !! sid = Some (Some s) ->
  state s = STATE_ESTABLISHED ->
  PKT_DATA_LEN + length data = LODP_MSS ->
  w_pool w = Some b :: rest ->
  lodp_send_data_pkt sid data w = Aborted (set_pool rest w)
  /\ lodp_send_heartbeat_pkt sid data w = Aborted (set_pool rest w).
Proof.
  intros Hnd Hs Hst Hlen Hpool.
  assert (Hget : get_session sid w = Done s w) by (apply get_session_Done; auto).
  assert (Hal : lodp_buf_alloc w = Done (Some b) (set_pool rest w)).
  { unfold lodp_buf_alloc. rewrite Hpool. reflexivity. }
  unfold lodp_send_data_pkt, lodp_send_heartbeat_pkt, PKT_HEARTBEAT_LEN.
  fold PKT_DATA_LEN.
  rewrite !(bind_step _ _ _ _ _ Hget).
  rewrite !(bind_step _ _ _ _ _ (assert_true _ w (established_true _ Hst))).
  destruct (Z.gtb_spec (PKT_DATA_LEN + length data) LODP_MSS); [lia|].
  rewrite !(bind_step _ _ _ _ _ Hal).
  unfold bind, assert. cbn [set_len len]. rewrite Hnd, Hlen, Z.ltb_irrefl.
  split; reflexivity.
Qed.

Lemma send_tail_effects key buf addr w r w' :
  (let* '(r, buf) := encrypt_then_mac key buf in
   if negb (r =? 0) then
     let* _ := lodp_buf_free (Some buf) in ret r
   else
     let* r := sendto buf addr in
     let* _ := lodp_buf_free (Some buf) in
     ret r) w = Done r w' ->
  sends_at_most_once addr w w'.
Proof.
  intros H. apply bind_Done in H as ([re buf'] & we & Henc & H).
  apply encrypt_then_mac_same_host in Henc as (Htr & Hep & Hss & Hnow).
  destruct (negb _).
  - apply bind_Done in H as (? & wf & Hf & H). injection Hf as ?; subst wf.
    injection H as ? ?; subst.
    unfold sends_at_most_once. auto.
  - apply bind_Done in H as (r' & ws & Hsend & H).
    apply bind_Done in H as (? & wf & Hf & H). injection Hf as ?; subst wf.
    injection H as ? ?; subst.
    apply sendto_spec in Hsend as (d & _ & Ht & _ & Hep' & Hss' & Hnow').
    unfold sends_at_most_once. split_and!; try congruence.
    right. exists d. congruence.
Qed.

Lemma sends_at_most_once_alloc addr w ob w0 w' :
  lodp_buf_alloc w = Done ob w0 ->
  sends_at_most_once addr w0 w' -> sends_at_most_once addr w w'.
Proof.
  intros Hal (H1 & H2 & H3 & H4).
  apply lodp_buf_alloc_spec in Hal as (Htr & Hep & Hss & Hnow).
  unfold sends_at_most_once. rewrite <- Htr, <- Hep, <- Hss, <- Hnow. auto.
Qed.

Lemma sends_at_most_once_refl addr w : sends_at_most_once addr w w.
Proof. unfold sends_at_most_once. auto. Qed.

(** X9.  The four builders leave the endpoint, the sessions and the clock as
    they were, and hand at most one datagram to [sendto_fn], addressed to the
    peer of the session. *)
Theorem builders_send_at_most_once sid s data w r w' :
  w_sessions w !! sid = Some (Some s) ->
  lodp_send_data_pkt sid data w = Done r w'
  \/ lodp_send_init_pkt sid w = Done r w'
  \/ lodp_send_handshake_pkt sid w = Done r w'
  \/ lodp_send_heartbeat_pkt sid data w = Done r w' ->
  sends_at_most_once (peer_addr s) w w'.
Proof.
  intros Hs [H|[H|[H|H]]].
  - unfold lodp_send_data_pkt in H.
    step H. step H. assert (a = s) by congruence. subst a.
    destruct (_ >? _); [injection H as ? ?; subst; apply sends_at_most_once_refl|].
    apply bind_Done in H as (ob & w0 & Hal & H).
    eapply sends_at_most_once_alloc; [exact Hal|].
    destruct ob as [b|]; [|injection H as ? ?; subst; apply sends_at_most_once_refl].
    do 3 step H. eapply send_tail_effects. exact H.
  - unfold lodp_send_init_pkt in H.
    step H. step H. step H. assert (a = s) by congruence. subst a.
    apply bind_Done in H as (ob & w0 & Hal & H).
    eapply sends_at_most_once_alloc; [exact Hal|].
    destruct ob as [b|]; [|injection H as ? ?; subst; apply sends_at_most_once_refl].
    do 6 step H. eapply send_tail_effects. exact H.
  - unfold lodp_send_handshake_pkt in H.
    step H. step H. step H. assert (a = s) by congruence. subst a.
    apply bind_Done in H as (ob & w0 & Hal & H).
    eapply sends_at_most_once_alloc; [exact Hal|].
    destruct ob as [b|]; [|injection H as ? ?; subst; apply sends_at_most_once_refl].
    do 11 step H.
    apply bind_Done in H as ([re buf'] & we & Henc & H).
    apply encrypt_then_mac_same_host in Henc as (Htr & Hep & Hss & Hnow).
    destruct (negb _).
    + apply bind_Done in H as (? & wf & Hf & H). injection Hf as ?; subst wf.
      injection H as ? ?; subst.
      unfold sends_at_most_once. auto.
    + apply bind_Done in H as (r' & ws & Hsend & H).
      apply bind_Done in H as (? & wf & Hf & H). injection Hf as ?; subst wf.
      injection H as ? ?; subst.
      apply sendto_spec in Hsend as (d & _ & Ht & _ & Hep' & Hss' & Hnow').
      unfold sends_at_most_once. split_and!; try congruence.
      right. exists d. congruence.
  - unfold lodp_send_heartbeat_pkt in H.
    step H. step H. assert (a = s) by congruence. subst a.
    destruct (_ >? _); [injection H as ? ?; subst; apply sends_at_most_once_refl|].
    apply bind_Done in H as (ob & w0 & Hal & H).
    eapply sends_at_most_once_alloc; [exact Hal|].
    destruct ob as [b|]; [|injection H as ? ?; subst; apply sends_at_most_once_refl].
    do 3 step H. eapply send_tail_effects. exact H.
Qed.

(** X6.  The guards of the session handlers.  Under the session keys, a DATA,
    HEARTBEAT or HEARTBEAT ACK packet for a session that is not ESTABLISHED,
    an INIT ACK for a session that is not an initiator in INIT, and a
    HANDSHAKE ACK for a session that is not an initiator in HANDSHAKE or
    whose length is not PKT_HDR_HANDSHAKE_ACK_LEN, are dropped with
    LODP_ERR_BAD_PACKET; the state does not change. *)
Theorem incoming_session_packet_out_of_state sid s buf addr w buf' w' hdr :
  incoming_mac_then_decrypt (Some sid) buf w = Done (inr (true, buf')) w' ->
  parse_hdr buf' = Some hdr ->
  w_sessions w !! sid = Some (Some s) ->
  (hdr_type hdr = PKT_DATA \/ hdr_type hdr = PKT_HEARTBEAT
     \/ hdr_type hdr = PKT_HEARTBEAT_ACK) /\ state s <> STATE_ESTABLISHED
  \/ hdr_type hdr = PKT_INIT_ACK
       /\ (is_initiator s = false \/ state s <> STATE_INIT)
  \/ hdr_type hdr = PKT_HANDSHAKE_ACK
       /\ (is_initiator s = false \/ state s <> STATE_HANDSHAKE
           \/ hdr_length hdr <> PKT_HDR_HANDSHAKE_ACK_LEN) ->
  lodp_on_incoming_pkt (Some sid) buf addr w = Done LODP_ERR_BAD_PACKET w.
Proof.
  intros Hdec Hparse Hs Hcase.
  pose proof (incoming_mac_then_decrypt_inr _ _ _ _ _ _ Hdec) as (-> & _).
  assert (Hget : get_session sid w = Done s w) by (apply get_session_Done; auto).
  unfold lodp_on_incoming_pkt. rewrite (bind_step _ _ _ _ _ Hdec).
  unfold incoming_dispatch.
  rewrite Hparse. cbn [mem]. rewrite (bind_step _ _ _ _ _ eq_refl).
  destruct (_ <? _); [reflexivity|].
  destruct (_ >? _); [reflexivity|].
  destruct (negb (0 =? _)); [reflexivity|].
  cbn [negb].
  assert (Has : forall t, hdr_type hdr = t -> assert (t =? hdr_type hdr) w = Done tt w).
  { intros t <-. apply assert_true, Z.eqb_refl. }
  destruct Hcase as [[Hty Hst]|[[Hty Hst]|[Hty Hst]]].
  - assert (Hb : bool_decide (state s = STATE_ESTABLISHED) = false)
      by (apply bool_decide_eq_false; exact Hst).
    destruct Hty as [Hty|[Hty|Hty]]; rewrite Hty; pkt_types; cbn [Z.eqb Pos.eqb];
      unfold on_data_pkt, on_heartbeat_pkt, on_heartbeat_ack_pkt;
      rewrite (bind_step _ _ _ _ _ Hget);
      rewrite (bind_step _ _ _ _ _ (Has _ Hty));
      rewrite Hb; reflexivity.
  - rewrite Hty. pkt_types. cbn [Z.eqb Pos.eqb].
    unfold on_init_ack_pkt. rewrite (bind_step _ _ _ _ _ Hget).
    rewrite (bind_step _ _ _ _ _ (Has _ Hty)).
    destruct Hst as [Hi|Hst].
    + rewrite Hi. reflexivity.
    + rewrite (bool_decide_eq_false_2 _ (fun E => Hst (eq_sym E))).
      rewrite orb_true_r. reflexivity.
  - rewrite Hty. pkt_types. cbn [Z.eqb Pos.eqb].
    unfold on_handshake_ack_pkt. rewrite (bind_step _ _ _ _ _ Hget).
    rewrite (bind_step _ _ _ _ _ (Has _ Hty)).
    destruct Hst as [Hi|[Hst|Hlen]].
    + rewrite Hi. reflexivity.
    + rewrite (bool_decide_eq_false_2 _ (fun E => Hst (eq_sym E))).
      rewrite orb_true_r. reflexivity.
    + destruct (negb (is_initiator s) || _); [reflexivity|].
      destruct (Z.eqb_spec PKT_HDR_HANDSHAKE_ACK_LEN (hdr_length hdr)); [congruence|].
      reflexivity.
Qed.

(** X18.  [on_init_ack_pkt] on an initiator in INIT: an INIT ACK that carries
    no cookie is dropped with LODP_ERR_BAD_PACKET and no change; when the
    allocation of the cookie fails the session goes to ERROR, [on_connect_fn]
    is called with LODP_ERR_NOBUFS, and that status is returned. *)
Theorem on_init_ack_pkt_edge sid s pkt w :
  w_sessions w !! sid = Some (Some s) ->
  is_initiator s = true ->
  state s = STATE_INIT ->
  hdr_type pkt = PKT_INIT_ACK ->
  (hdr_length pkt = PKT_HDR_INIT_ACK_LEN ->
     on_init_ack_pkt sid pkt w = Done LODP_ERR_BAD_PACKET w)
  /\ (PKT_HDR_INIT_ACK_LEN < hdr_length pkt ->
      (forall rest, w_heap w <> true :: rest) ->
      exists w',
        on_init_ack_pkt sid pkt w = Done LODP_ERR_NOBUFS w'
        /\ w_sessions w' = <[sid := Some (set_state STATE_ERROR s)]> (w_sessions w)
        /\ w_trace w' = EvConnect sid LODP_ERR_NOBUFS :: w_trace w).
Proof.
  intros Hs Hi Hst Hty.
  assert (Hget : get_session sid w = Done s w) by (apply get_session_Done; auto).
  assert (Has : assert (PKT_INIT_ACK =? hdr_type pkt) w = Done tt w).
  { apply assert_true. rewrite Hty. reflexivity. }
  split.
  - intros Hlen. unfold on_init_ack_pkt.
    rewrite (bind_step _ _ _ _ _ Hget), (bind_step _ _ _ _ _ Has).
    rewrite Hi, Hst, bool_decide_eq_true_2 by reflexivity. cbn [negb orb].
    rewrite Hlen, Z.sub_diag. reflexivity.
  - intros Hlen Hheap. unfold on_init_ack_pkt.
    rewrite (bind_step _ _ _ _ _ Hget), (bind_step _ _ _ _ _ Has).
    rewrite Hi, Hst, bool_decide_eq_true_2 by reflexivity. cbn [negb orb].
    destruct (Z.eqb_spec (hdr_length pkt - PKT_HDR_INIT_ACK_LEN) 0); [lia|].
    unfold bind at 1. unfold heap_alloc.
    destruct (w_heap w) as [|[|] rest] eqn:Hh.
    + eexists. split; [reflexivity|]. cbn. auto.
    + exfalso. eapply Hheap. reflexivity.
    + eexists. split; [reflexivity|]. cbn. auto.
Qed.

Lemma ntor_handshake_effect sid pub_key w r w' :
  ntor_handshake sid pub_key w = Done r w' ->
  (r = 0 \/ r = LODP_ERR_BAD_HANDSHAKE)
  /\ exists s s',
       w_sessions w !! sid = Some (Some s)
       /\ same_tcb s s'
       /\ w' = set_sessions (<[sid := Some s']> (w_sessions w)) w.
Proof.
  unfold ntor_handshake. intros H.
  apply bind_Done in H as (s & w0 & Hs & H).
  apply get_session_Done in Hs as [Hs ->].
  apply bind_Done in H as (ep & w0 & Hep & H). injection Hep as <- <-.
  apply bind_Done in H as ([secret_1 secret_2] & w1 & Hsec & H).
  assert (w1 = w) as ->.
  { destruct (is_initiator s).
    - destruct (negb _); [discriminate|]. step Hsec.
      destruct (negb _); [discriminate|]. step Hsec.
      injection Hsec as _ _ <-. reflexivity.
    - destruct (negb _); [discriminate|]. step Hsec. step Hsec.
      injection Hsec as _ _ <-. reflexivity. }
  clear Hsec.
  assert (Hid : w = set_sessions (<[sid := Some s]> (w_sessions w)) w).
  { rewrite list_insert_id by exact Hs. symmetry. apply set_sessions_id. }
  do 3 step H.
  destruct (lodp_mac ss_key _ _) as [r1 secret].
  destruct (negb (r1 =? 0)).
  { injection H as ? ?; subst. split; [auto|].
    exists s, s. split_and!; auto using same_tcb_refl. }
  destruct (lodp_mac verify_key _ _) as [r2 verify].
  destruct (negb (r2 =? 0)).
  { injection H as ? ?; subst. split; [auto|].
    exists s, s. split_and!; auto using same_tcb_refl. }
  step H. step H. step H.
  destruct (lodp_mac auth_key _ _) as [r3 auth]. step H.
  apply wr_Some in Hm3 as [_ Hl1]. apply wr_Some in Hm5 as [_ Hl2].
  apply bind_Done in H as (u & w2 & Hput & H). injection Hput as ?; subst w2.
  destruct (negb (r3 =? 0)).
  { injection H as ? ?; subst. split; [auto|].
    eexists s, _. split; [exact Hs|]. split; [|reflexivity].
    unfold same_tcb. cbn. split_and!; auto. }
  destruct (lodp_derive_sessionkeys secret) as [r4 [key_a key_b]].
  apply bind_Done in H as (u' & w3 & Hput & H). injection Hput as ?; subst w3.
  injection H as ? ?; subst. split.
  { destruct (Z.eqb_spec r4 0); auto. }
  eexists s, _. split; [exact Hs|]. split.
  2:{ unfold set_sessions. cbn. rewrite list_insert_insert_eq. reflexivity. }
  unfold same_tcb. destruct (is_initiator s) eqn:Hini; cbn; rewrite ?Hini;
    split_and!; auto.
Qed.

(** X16.  [ntor_handshake] returns 0 or LODP_ERR_BAD_HANDSHAKE and nothing
    else, calls no callback, leaves the endpoint alone and changes of the
    session at most the shared secret, the verifier and the two keys.  When
    [lodp_ecdh_validate_pubkey] rejects the peer's public key the function
    jumps to [out] before [ret] has a value, and the return reads it: the
    behaviour is undefined. *)
Theorem ntor_handshake_status sid pub_key w :
  (forall r w',
      ntor_handshake sid pub_key w = Done r w' ->
      (r = 0 \/ r = LODP_ERR_BAD_HANDSHAKE)
      /\ w_trace w' = w_trace w /\ w_ep w' = w_ep w
      /\ exists s s',
           w_sessions w !! sid = Some (Some s)
           /\ w_sessions w' = <[sid := Some s']> (w_sessions w)
           /\ same_tcb s s')
  /\ (forall s,
        w_sessions w !! sid = Some (Some s) ->
        lodp_ecdh_validate_pubkey pub_key <> 0 ->
        ntor_handshake sid pub_key w = Undefined).
Proof.
  split.
  - intros r w' H.
    apply ntor_handshake_effect in H as (Hr & s & s' & Hs & Htcb & ->).
    split; [exact Hr|]. split; [reflexivity|]. split; [reflexivity|].
    exists s, s'. auto.
  - intros s Hs Hv. unfold ntor_handshake.
    assert (Hget : get_session sid w = Done s w) by (apply get_session_Done; auto).
    rewrite (bind_step _ _ _ _ _ Hget).
    rewrite (bind_step get_ep _ w (w_ep w) w eq_refl).
    unfold bind at 1.
    destruct (is_initiator s);
      destruct (Z.eqb_spec (lodp_ecdh_validate_pubkey pub_key) 0);
      try contradiction; reflexivity.
Qed.

Lemma scrub_handshake_material_inv sid s w u w' :
  w_sessions w !! sid = Some (Some s) ->
  scrub_handshake_material sid w = Done u w' ->
  w_sessions w' = <[sid := Some (scrubbed s)]> (w_sessions w)
  /\ w_ep w' = w_ep w
  /\ match cookie s with
     | Some block =>
         exists block', lodp_memwipe SIZEOF_COOKIE_LEN block = Some block'
                        /\ w_trace w' = EvFree block' :: w_trace w
     | None => w_trace w' = w_trace w
     end.
Proof.
  intros Hs H. unfold scrub_handshake_material in H.
  step H. assert (a = s) by congruence. subst a.
  apply bind_Done in H as (s1 & w1 & Hc & H).
  injection H as ?; subst w'.
  destruct (cookie s) as [block|] eqn:Hck.
  - step Hc. apply bind_Done in Hc as (? & w2 & He & Hc).
    injection He as ?; subst w2. injection Hc as ? ?; subst s1 w1.
    cbn. split_and!; [|reflexivity|eauto].
    unfold scrubbed. cbn. reflexivity.
  - injection Hc as ? ?; subst s1 w1.
    cbn. split_and!; [|reflexivity|reflexivity].
    unfold scrubbed, set_handshake_material. cbn. rewrite Hck. reflexivity.
Qed.

(** X17.  [on_handshake_ack_pkt] on an initiator in HANDSHAKE, for a packet of
    the right length: when it returns, the status is 0 and the session
    ESTABLISHED, or the status is LODP_ERR_BAD_HANDSHAKE and the session in
    ERROR; either way the cookie is released, the key pair, the shared secret
    and the verifier are zero, and [on_connect_fn] has been called once, with
    the status, after the release of the cookie. *)
Theorem on_handshake_ack_pkt_outcome sid s pkt w r w' :
  w_sessions w !! sid = Some (Some s) ->
  is_initiator s = true ->
  state s = STATE_HANDSHAKE ->
  hdr_length pkt = PKT_HDR_HANDSHAKE_ACK_LEN ->
  on_handshake_ack_pkt sid pkt w = Done r w' ->
  exists s',
    w_sessions w' = <[sid := Some s']> (w_sessions w)
    /\ (r = 0 /\ state s' = STATE_ESTABLISHED
        \/ r = LODP_ERR_BAD_HANDSHAKE /\ state s' = STATE_ERROR)
    /\ cookie s' = None
    /\ session_ecdh_keypair s'
         = mk_keypair (zeros (length (public_key (session_ecdh_keypair s))))
             (zeros (length (private_key (session_ecdh_keypair s))))
    /\ session_secret s' = zeros (length (session_secret s))
    /\ session_secret_verifier s' = zeros (length (session_secret_verifier s))
    /\ match cookie s with
       | Some block =>
           exists block', lodp_memwipe SIZEOF_COOKIE_LEN block = Some block'
             /\ w_trace w' = EvConnect sid r :: EvFree block' :: w_trace w
       | None => w_trace w' = EvConnect sid r :: w_trace w
       end.
Proof.
  intros Hs Hi Hst Hlen H. unfold on_handshake_ack_pkt in H.
  step H. assert (a = s) by congruence. subst a. step H.
  rewrite Hi, Hst, bool_decide_eq_true_2 in H by reflexivity. cbn [negb orb] in H.
  rewrite Hlen, Z.eqb_refl in H. cbn [negb] in H.
  step H.
  apply bind_Done in H as (r0 & w1 & Hntor & H).
  apply ntor_handshake_effect in Hntor as (Hr0 & s0 & s1 & Hs0 & Htcb & Hw1).
  assert (s0 = s) by congruence. subst s0.
  assert (Hlt : (sid < length (w_sessions w))%nat) by (eapply lookup_lt_Some; eauto).
  assert (Hs1 : w_sessions w1 !! sid = Some (Some s1)).
  { subst w1. cbn. apply list_lookup_insert_eq. exact Hlt. }
  step H. assert (a1 = s1) by congruence. subst a1.
  destruct Htcb as (_ & _ & _ & Hkp & _ & Hck & _ & _ & Hl1 & Hl2).
  apply bind_Done in H as (r1 & w2 & Hbr & H).
  assert (Hw2 : exists st,
    w2 = set_sessions (<[sid := Some (set_state st s1)]> (w_sessions w)) w
    /\ (r1 = 0 /\ st = STATE_ESTABLISHED
        \/ r1 = LODP_ERR_BAD_HANDSHAKE /\ st = STATE_ERROR)).
  { destruct (Z.eqb_spec r0 0) as [->|Hne]; cbn [negb] in Hbr.
    - step Hbr. step Hbr. destruct (negb _).
      + apply bind_Done in Hbr as (? & w3 & Hp & Hbr). injection Hp as ?; subst w3.
        injection Hbr as ? ?; subst. exists STATE_ERROR. split; [|auto].
        unfold set_sessions. cbn. rewrite list_insert_insert_eq. reflexivity.
      + apply bind_Done in Hbr as (? & w3 & Hp & Hbr). injection Hp as ?; subst w3.
        injection Hbr as ? ?; subst. exists STATE_ESTABLISHED. split; [|auto].
        unfold set_sessions. cbn. rewrite list_insert_insert_eq. reflexivity.
    - apply bind_Done in Hbr as (? & w3 & Hp & Hbr). injection Hp as ?; subst w3.
      injection Hbr as ? ?; subst. exists STATE_ERROR. split.
      + unfold set_sessions. cbn. rewrite list_insert_insert_eq. reflexivity.
      + right. split; [|reflexivity]. destruct Hr0; [contradiction|assumption]. }
  destruct Hw2 as (st & Hw2 & Hcase). clear Hbr.
  apply bind_Done in H as (u & w3 & Hscrub & H).
  assert (Hs2 : w_sessions w2 !! sid = Some (Some (set_state st s1))).
  { subst w2. cbn. apply list_lookup_insert_eq. exact Hlt. }
  apply (scrub_handshake_material_inv _ _ _ _ _ Hs2) in Hscrub as (Hss3 & _ & Htr3).
  apply bind_Done in H as (? & w4 & He & H). injection He as ?; subst w4.
  injection H as ? ?; subst r w'.
  exists (scrubbed (set_state st s1)). cbn.
  split.
  { rewrite Hss3. subst w2. cbn. apply list_insert_insert_eq. }
  split; [exact Hcase|]. split; [reflexivity|].
  rewrite Hkp, Hl1, Hl2. split_and!; try reflexivity.
  cbn [set_state cookie] in Htr3. rewrite Hck in Htr3.
  destruct (cookie s) as [block|].
  - destruct Htr3 as (block' & Hwipe & Htr3). exists block'. split; [exact Hwipe|].
    rewrite Htr3. subst w2. reflexivity.
  - rewrite Htr3. subst w2. reflexivity.
Qed.

(** What [encrypt_then_mac] leaves in the buffer when it reports success. *)
Lemma encrypt_then_mac_inv keys buf w buf' w' (n : nat) body :
  crypto_ok crypto ->
  len buf = PKT_TAG_LEN + n ->
  rd PKT_TAG_LEN n (plaintext buf) = Some body ->
  encrypt_then_mac keys buf w = Done (0, buf') w' ->
  exists (k : nat) iv body1 out tag,
    (n <= k)%nat
    /\ len buf' = PKT_TAG_LEN + k
    /\ (len buf <= LODP_MSS -> len buf' <= LODP_MSS)
    /\ take n body1 = body
    /\ length body1 = k
    /\ length iv = LODP_BULK_IV_LEN
    /\ lodp_encrypt (bulk_key keys) iv body1 = (0, out)
    /\ lodp_mac (mac_key keys) (iv ++ out) LODP_MAC_DIGEST_LEN = (0, tag)
    /\ rd 0 (PKT_TAG_LEN + k) (ciphertext buf') = Some (tag ++ iv ++ out).
Proof.
  intros Hok Hlen Hbody H. unfold encrypt_then_mac in H.
  assert (Htag : PKT_TAG_LEN = (LODP_MAC_DIGEST_LEN + LODP_BULK_IV_LEN)%nat) by reflexivity.
  step H. step H.
  apply bind_Done in H as (ep & wa & Hep & H). injection Hep as ? ?; subst ep wa.
  apply bind_Done in H as (buf1 & w1 & Hpad & H).
  assert (HP : exists k : nat,
    (n <= k)%nat /\ len buf1 = PKT_TAG_LEN + k
    /\ (len buf <= LODP_MSS -> len buf1 <= LODP_MSS)
    /\ rd PKT_TAG_LEN n (plaintext buf1) = Some body).
  { destruct (pre_encrypt_fn _) as [f|].
    2:{ injection Hpad as ? ?; subst. exists n. split_and!; auto; lia. }
    destruct (0 <? _) eqn:Hpos.
    2:{ injection Hpad as ? ?; subst. exists n. split_and!; auto; lia. }
    apply Z.ltb_lt in Hpos.
    destruct (INT_MAX <? _); [discriminate|].
    set (p := if f (len buf) LODP_MSS + len buf >? LODP_MSS
              then LODP_MSS - len buf else f (len buf) LODP_MSS) in *.
    destruct (Z.ltb_spec p 0) as [|Hp]; [discriminate|].
    apply bind_Done in Hpad as (pad & wr & Hr & Hpad). injection Hr as ? ?; subst pad wr.
    step_mem Hpad as b1 Hw1. injection Hpad as ? ?; subst buf1 w1.
    apply write_pt_spec in Hw1 as (Hl1 & _ & _ & _ & Hoth1).
    exists (n + Z.to_nat p)%nat. cbn [set_len len plaintext].
    split; [lia|]. split; [lia|]. split.
    { intros Hle. subst p.
      destruct (Z.gtb_spec (f (len buf) LODP_MSS + len buf) LODP_MSS); lia. }
    rewrite <- Hbody. apply Hoth1. left. lia. }
  clear Hpad. destruct HP as (k & Hnk & Hlen1 & Hmss & Hbody1).
  apply bind_Done in H as (iv & w2 & Hr & H). injection Hr as ? ?; subst iv w2.
  set (iv := map (w_tape w1) (seq (w_tape_pos w1) LODP_BULK_IV_LEN)) in *.
  assert (Hivlen : length iv = LODP_BULK_IV_LEN)
    by (subst iv; rewrite length_map, length_seq; reflexivity).
  step_mem H as buf2 Hw2.
  apply write_ct_spec in Hw2 as (Hl2 & _ & _ & Hiv2 & Hoth2).
  rewrite Hivlen in Hiv2.
  destruct (Z.ltb_spec (len buf2) PKT_TAG_LEN); [discriminate|].
  step_mem H as iv' Hiv'. assert (iv' = iv) by congruence. subst iv'. clear Hiv'.
  step_mem H as body1 Hb1.
  assert (Hk2 : Z.to_nat (len buf2 - PKT_TAG_LEN) = k) by lia.
  rewrite Hk2 in Hb1.
  assert (Hbody2 : rd PKT_TAG_LEN n (plaintext buf2) = Some body).
  { rewrite <- Hbody1. apply Hoth2. right. lia. }
  pose proof (rd_prefix _ _ n _ _ Hb1 Hnk) as Hpre.
  assert (Htake : take n body1 = body) by congruence.
  assert (Hb1len : length body1 = k) by (apply rd_Some in Hb1; tauto).
  pose proof (encrypt_length _ Hok (bulk_key keys) iv body1) as Houtlen.
  destruct (lodp_encrypt (bulk_key keys) iv body1) as [r0 out] eqn:Henc.
  cbn [snd] in Houtlen.
  step_mem H as buf3 Hw3.
  apply write_ct_spec in Hw3 as (Hl3 & _ & _ & Hout3 & Hoth3).
  destruct (Z.eqb_spec r0 0) as [->|Hr0]; cbn [negb] in H.
  2:{ injection H as ? ? ?. congruence. }
  step_mem H as msg Hmsg.
  assert (Hiv3 : rd LODP_MAC_DIGEST_LEN LODP_BULK_IV_LEN (ciphertext buf3) = Some iv).
  { rewrite <- Hiv2. apply Hoth3. left. lia. }
  assert (Hmsg3 : rd LODP_MAC_DIGEST_LEN (LODP_BULK_IV_LEN + length out) (ciphertext buf3)
                  = Some (iv ++ out)).
  { apply rd_join; [exact Hiv3|]. rewrite <- Htag. exact Hout3. }
  replace (Z.to_nat (len buf3 - LODP_MAC_DIGEST_LEN))
    with (LODP_BULK_IV_LEN + length out)%nat in Hmsg by lia.
  assert (msg = iv ++ out) by congruence. subst msg. clear Hmsg.
  pose proof (mac_length _ Hok (mac_key keys) (iv ++ out) LODP_MAC_DIGEST_LEN) as Htaglen.
  destruct (lodp_mac (mac_key keys) (iv ++ out) LODP_MAC_DIGEST_LEN) as [r1 tag] eqn:Hmac.
  cbn [snd] in Htaglen.
  step_mem H as buf4 Hw4.
  apply write_ct_spec in Hw4 as (Hl4 & _ & _ & Htag4 & Hoth4).
  injection H as ? ? ?; subst r1 buf' w'.
  exists k, iv, body1, out, tag.
  split_and!; auto; try lia.
  replace (PKT_TAG_LEN + k)%nat
    with (LODP_MAC_DIGEST_LEN + (LODP_BULK_IV_LEN + length out))%nat by lia.
  rewrite Htaglen in Htag4.
  apply rd_join; [exact Htag4|].
  rewrite <- Hmsg3. apply Hoth4. right. lia.
Qed.

(** [mac_then_decrypt] on a buffer that holds such an envelope. *)
Lemma mac_then_decrypt_opens keys rb w (k : nat) iv body1 out tag :
  crypto_ok crypto ->
  lodp_encrypt (bulk_key keys) iv body1 = (0, out) ->
  lodp_mac (mac_key keys) (iv ++ out) LODP_MAC_DIGEST_LEN = (0, tag) ->
  length iv = LODP_BULK_IV_LEN ->
  length body1 = k ->
  0 < len rb ->
  len rb = PKT_TAG_LEN + k ->
  rd 0 (PKT_TAG_LEN + k) (ciphertext rb) = Some (tag ++ iv ++ out) ->
  (PKT_TAG_LEN + k <= length (plaintext rb))%nat ->
  exists rb',
    mac_then_decrypt keys rb w = Done (0, rb') w
    /\ len rb' = len rb
    /\ rd PKT_TAG_LEN k (plaintext rb') = Some body1.
Proof.
  intros Hok Henc Hmac Hivlen Hb1len Hpos Hlen Hrd Hpt.
  assert (Htag : PKT_TAG_LEN = (LODP_MAC_DIGEST_LEN + LODP_BULK_IV_LEN)%nat) by reflexivity.
  pose proof (mac_length _ Hok (mac_key keys) (iv ++ out) LODP_MAC_DIGEST_LEN) as Htaglen.
  rewrite Hmac in Htaglen. cbn [snd] in Htaglen.
  pose proof (encrypt_length _ Hok (bulk_key keys) iv body1) as Houtlen.
  rewrite Henc in Houtlen. cbn [snd] in Houtlen.
  pose proof (decrypt_encrypt _ Hok (bulk_key keys) iv body1) as Hdec.
  rewrite Henc in Hdec. cbn [fst snd] in Hdec. specialize (Hdec eq_refl).
  pose proof (rd_Some _ _ _ _ Hrd) as (Hct & _ & _).
  assert (Hrt : rd 0 LODP_MAC_DIGEST_LEN (ciphertext rb) = Some tag).
  { rewrite (rd_prefix _ _ LODP_MAC_DIGEST_LEN _ _ Hrd) by lia.
    rewrite take_app_length' by lia. reflexivity. }
  assert (Hrm : rd LODP_MAC_DIGEST_LEN (LODP_BULK_IV_LEN + k) (ciphertext rb)
                = Some (iv ++ out)).
  { pose proof (rd_sub 0 _ _ _ LODP_MAC_DIGEST_LEN (LODP_BULK_IV_LEN + k) Hrd
                  ltac:(lia)) as Hs.
    rewrite Nat.add_0_l in Hs. rewrite Hs. f_equal.
    rewrite drop_app_length' by lia. apply take_ge. rewrite length_app. lia. }
  assert (Hri : rd LODP_MAC_DIGEST_LEN LODP_BULK_IV_LEN (ciphertext rb) = Some iv).
  { rewrite (rd_prefix _ _ LODP_BULK_IV_LEN _ _ Hrm) by lia.
    rewrite take_app_length' by lia. reflexivity. }
  assert (Hro : rd PKT_TAG_LEN k (ciphertext rb) = Some out).
  { pose proof (rd_sub _ _ _ _ LODP_BULK_IV_LEN k Hrm ltac:(lia)) as Hs.
    rewrite <- Htag in Hs. rewrite Hs. f_equal.
    rewrite drop_app_length' by lia. apply take_ge. lia. }
  unfold mac_then_decrypt.
  rewrite (bind_step _ _ _ _ _ (assert_true _ w (proj2 (Z.ltb_lt _ _) Hpos))).
  destruct (Z.ltb_spec (len rb) LODP_MAC_DIGEST_LEN); [lia|].
  replace (Z.to_nat (len rb - LODP_MAC_DIGEST_LEN)) with (LODP_BULK_IV_LEN + k)%nat by lia.
  rewrite Hrm. cbn [mem]. rewrite (bind_step _ _ _ _ _ eq_refl).
  rewrite Hmac. cbn [negb Z.eqb].
  rewrite Hrt. cbn [mem]. rewrite (bind_step _ _ _ _ _ eq_refl).
  rewrite (proj2 (lodp_memcmp_0 tag tag) eq_refl). cbn [negb Z.eqb].
  destruct (Z.ltb_spec (len rb) PKT_TAG_LEN); [lia|].
  rewrite Hri. cbn [mem]. rewrite (bind_step _ _ _ _ _ eq_refl).
  replace (Z.to_nat (len rb - PKT_TAG_LEN)) with k by lia.
  rewrite Hro. cbn [mem]. rewrite (bind_step _ _ _ _ _ eq_refl).
  rewrite Hdec.
  destruct (write_pt_defined PKT_TAG_LEN body1 rb) as [rb' Hw]; [lia..|].
  rewrite Hw. cbn [mem]. rewrite (bind_step _ _ _ _ _ eq_refl).
  apply write_pt_spec in Hw as (Hl & _ & _ & Hb & _).
  exists rb'. split; [reflexivity|]. split; [exact Hl|].
  rewrite <- Hb1len. exact Hb.
Qed.

(** The status of [encrypt_then_mac] is the status of [lodp_encrypt] or of
    [lodp_mac]: when both succeed under these keys, it is 0. *)
Lemma encrypt_then_mac_status keys buf w r buf' w' :
  (forall iv m, fst (lodp_encrypt (bulk_key keys) iv m) = 0) ->
  (forall m, fst (lodp_mac (mac_key keys) m LODP_MAC_DIGEST_LEN) = 0) ->
  encrypt_then_mac keys buf w = Done (r, buf') w' ->
  r = 0.
Proof.
  intros He Hm H. unfold encrypt_then_mac in H.
  step H. step H.
  apply bind_Done in H as (ep & wa & Hep & H). injection Hep as ? ?; subst ep wa.
  apply bind_Done in H as (buf1 & w1 & _ & H).
  apply bind_Done in H as (iv & w2 & _ & H).
  step_mem H as buf2 Hw2.
  destruct (len buf2 <? PKT_TAG_LEN); [discriminate|].
  step_mem H as iv' Hiv'. step_mem H as body1 Hb1.
  pose proof (He iv' body1) as He1.
  destruct (lodp_encrypt (bulk_key keys) iv' body1) as [r0 out].
  cbn [fst] in He1. subst r0.
  step_mem H as buf3 Hw3. cbn [Z.eqb negb] in H.
  step_mem H as msg Hmsg.
  pose proof (Hm msg) as Hm1.
  destruct (lodp_mac (mac_key keys) msg LODP_MAC_DIGEST_LEN) as [r1 tag].
  cbn [fst] in Hm1. subst r1.
  step_mem H as buf4 Hw4. injection H as ? ? ?. auto.
Qed.

(** C5.  For a packet of [n] body bytes after the tag, [n] at most
    [LODP_MSS - PKT_TAG_LEN], and a pair of keys under which [lodp_encrypt]
    and [lodp_mac] succeed, [encrypt_then_mac] returns 0, and
    [mac_then_decrypt] under the same keys returns 0 on its output, with the
    [n] body bytes that were there before any padding was appended in the
    plaintext view: on the buffer that [encrypt_then_mac] leaves, and on
    every buffer that holds the [buf->len] bytes of the datagram in its
    ciphertext view, whatever its plaintext view held. *)
Theorem envelope_roundtrip keys buf w (n : nat) body :
  crypto_ok crypto ->
  (forall iv m, fst (lodp_encrypt (bulk_key keys) iv m) = 0) ->
  (forall m, fst (lodp_mac (mac_key keys) m LODP_MAC_DIGEST_LEN) = 0) ->
  length (plaintext buf) = LODP_MSS ->
  length (ciphertext buf) = LODP_MSS ->
  len buf = PKT_TAG_LEN + n ->
  0 < len buf <= LODP_MSS ->
  rd PKT_TAG_LEN n (plaintext buf) = Some body ->
  (forall f, pre_encrypt_fn (callbacks (w_ep w)) = Some f ->
             f (len buf) LODP_MSS + len buf <= INT_MAX) ->
  exists buf' w' d,
    encrypt_then_mac keys buf w = Done (0, buf') w'
    /\ rd 0 (Z.to_nat (len buf')) (ciphertext buf') = Some d
    /\ (exists buf'',
          mac_then_decrypt keys buf' w' = Done (0, buf'') w'
          /\ rd PKT_TAG_LEN n (plaintext buf'') = Some body)
    /\ (forall rb w_rcv,
          length (plaintext rb) = LODP_MSS ->
          len rb = length d ->
          rd 0 (length d) (ciphertext rb) = Some d ->
          exists rb',
            mac_then_decrypt keys rb w_rcv = Done (0, rb') w_rcv
            /\ rd PKT_TAG_LEN n (plaintext rb') = Some body).
Proof.
  intros Hok He Hm Hpt Hct Hlen Hrange Hbody Hpad.
  destruct (envelope_own_buffer keys buf w n body Hok Hpt Hct Hlen Hrange Hbody Hpad)
    as (r & buf' & w' & Henc & Hown).
  assert (r = 0) by (eapply encrypt_then_mac_status; eauto). subst r.
  destruct (encrypt_then_mac_inv keys buf w buf' w' n body Hok Hlen Hbody Henc)
    as (k & iv & body1 & out & tag & Hnk & Hl' & Hmss & Htake & Hb1 & Hivl & Hen & Hma
        & Hd).
  specialize (Hmss (proj2 Hrange)).
  assert (Hdl : length (tag ++ iv ++ out) = (PKT_TAG_LEN + k)%nat)
    by (apply rd_Some in Hd; tauto).
  exists buf', w', (tag ++ iv ++ out).
  split; [exact Henc|]. split.
  { rewrite Hl'. replace (Z.to_nat (PKT_TAG_LEN + k)) with (PKT_TAG_LEN + k)%nat by lia.
    exact Hd. }
  split; [exact (Hown eq_refl)|].
  intros rb w_rcv Hrpt Hrl Hrd. rewrite Hdl in Hrl, Hrd.
  destruct (mac_then_decrypt_opens keys rb w_rcv k iv body1 out tag Hok Hen Hma Hivl Hb1)
    as (rb' & Hopen & _ & Hb); [lia | lia | exact Hrd | lia |].
  exists rb'. split; [exact Hopen|].
  rewrite <- Htake. eapply rd_prefix; [exact Hb|exact Hnk].
Qed.

(** The packet that a builder leaves in the plaintext view: the header, then
    the payload. *)
Lemma built_packet ty hlen data buf0 buf1 buf :
  put_hdr ty hlen buf0 = Some buf1 ->
  write_pt PKT_HDR_LEN data buf1 = Some buf ->
  len buf = len buf0
  /\ rd PKT_TAG_LEN 4 (plaintext buf) = Some ([byte_of_Z ty; x00] ++ htons hlen)
  /\ rd PKT_HDR_LEN (length data) (plaintext buf) = Some data.
Proof.
  unfold put_hdr. intros H1 H2.
  apply write_pt_spec in H1 as (Hl1 & _ & _ & Hh & _).
  apply write_pt_spec in H2 as (Hl2 & _ & _ & Hd & Hoth).
  split; [congruence|]. split; [|exact Hd].
  rewrite <- Hh. apply Hoth. left. cbn. unfold PKT_HDR_LEN. lia.
Qed.

(** A packet sealed by [encrypt_then_mac] and handed to [sendto_fn] opens
    under the same keys in the buffer of the receiver: the header and the
    payload are those that were built. *)
Lemma sealed_packet_opens keys buf w buf' w' ty hlen data d rb wr :
  crypto_ok crypto ->
  0 <= ty < 256 ->
  hlen = PKT_TLV_LEN + length data ->
  hlen < 65536 ->
  len buf = PKT_HDR_LEN + length data ->
  len buf <= LODP_MSS ->
  rd PKT_TAG_LEN 4 (plaintext buf) = Some ([byte_of_Z ty; x00] ++ htons hlen) ->
  rd PKT_HDR_LEN (length data) (plaintext buf) = Some data ->
  encrypt_then_mac keys buf w = Done (0, buf') w' ->
  rd 0 (Z.to_nat (len buf')) (ciphertext buf') = Some d ->
  length (plaintext rb) = LODP_MSS ->
  len rb = length d ->
  rd 0 (length d) (ciphertext rb) = Some d ->
  exists rb' hdr,
    mac_then_decrypt keys rb wr = Done (0, rb') wr
    /\ parse_hdr rb' = Some hdr
    /\ hdr_type hdr = ty /\ hdr_flags hdr = 0
    /\ hdr_length hdr = hlen
    /\ PKT_TLV_LEN <= hdr_length hdr <= len rb' - PKT_TAG_LEN
    /\ rd 0 (length data) (payload hdr) = Some data.
Proof.
  intros Hok Hty Hhlen Hh16 Hlen Hmss Hrh Hrdat Henc Hd Hpt Hlrb Hct.
  unfold PKT_TLV_LEN in *.
  assert (Hhdr : PKT_HDR_LEN = (PKT_TAG_LEN + 4)%nat) by reflexivity.
  set (hb := [byte_of_Z ty; x00] ++ htons hlen) in *.
  assert (Hhb : length hb = 4%nat) by reflexivity.
  assert (Hbody : rd PKT_TAG_LEN (4 + length data) (plaintext buf) = Some (hb ++ data)).
  { apply rd_join; [exact Hrh|]. rewrite <- Hhdr. exact Hrdat. }
  destruct (encrypt_then_mac_inv keys buf w buf' w' (4 + length data) (hb ++ data)
              Hok ltac:(lia) Hbody Henc)
    as (k & iv & body1 & out & tag & Hnk & Hl' & Hmss' & Htake & Hb1 & Hiv & He & Hm & Hr).
  replace (Z.to_nat (len buf')) with (PKT_TAG_LEN + k)%nat in Hd by lia.
  assert (d = tag ++ iv ++ out) by congruence. subst d. clear Hd.
  pose proof (rd_Some _ _ _ _ Hr) as (_ & _ & Hdl).
  rewrite Hdl in Hct, Hlrb.
  destruct (mac_then_decrypt_opens keys rb wr k iv body1 out tag Hok He Hm Hiv Hb1
              ltac:(lia) ltac:(lia) Hct ltac:(lia))
    as (rb' & Hdec & Hlrb' & Hrb').
  assert (Hph : rd PKT_TAG_LEN 4 (plaintext rb') = Some hb).
  { rewrite (rd_prefix _ _ 4 _ _ Hrb') by lia. f_equal.
    rewrite <- (take_app_length' hb data 4) by (symmetry; exact Hhb).
    rewrite <- Htake, take_take. f_equal; lia. }
  assert (Hpd : rd PKT_HDR_LEN (length data) (plaintext rb') = Some data).
  { rewrite Hhdr, (rd_sub _ _ _ _ 4 (length data) Hrb') by lia. f_equal.
    rewrite take_drop_commute, Htake.
    rewrite drop_app_length' by reflexivity. reflexivity. }
  exists rb', (mk_pkt ty 0 (hlen mod 65536) (drop PKT_HDR_LEN (plaintext rb'))).
  split; [exact Hdec|].
  split; [apply parse_hdr_built; assumption|].
  cbn [hdr_type hdr_flags hdr_length payload].
  rewrite Z.mod_small by lia.
  split_and!; try reflexivity; try lia.
  apply rd_drop. exact Hpd.
Qed.

(** The same at a receiver whose session holds the keys as its [rx_key]. *)
Lemma sealed_packet_arrives keys buf w buf' w' ty hlen data d sid s rb wr :
  crypto_ok crypto ->
  0 <= ty < 256 ->
  hlen = PKT_TLV_LEN + length data ->
  hlen < 65536 ->
  len buf = PKT_HDR_LEN + length data ->
  len buf <= LODP_MSS ->
  rd PKT_TAG_LEN 4 (plaintext buf) = Some ([byte_of_Z ty; x00] ++ htons hlen) ->
  rd PKT_HDR_LEN (length data) (plaintext buf) = Some data ->
  encrypt_then_mac keys buf w = Done (0, buf') w' ->
  rd 0 (Z.to_nat (len buf')) (ciphertext buf') = Some d ->
  w_sessions wr !! sid = Some (Some s) ->
  rx_key s = keys ->
  length (plaintext rb) = LODP_MSS ->
  len rb = length d ->
  rd 0 (length d) (ciphertext rb) = Some d ->
  exists rb' hdr,
    incoming_mac_then_decrypt (Some sid) rb wr = Done (inr (true, rb')) wr
    /\ parse_hdr rb' = Some hdr
    /\ hdr_type hdr = ty /\ hdr_flags hdr = 0
    /\ hdr_length hdr = hlen
    /\ PKT_TLV_LEN <= hdr_length hdr <= len rb' - PKT_TAG_LEN
    /\ rd 0 (length data) (payload hdr) = Some data.
Proof.
  intros Hok Hty Hhlen Hh16 Hlen Hmss Hrh Hrdat Henc Hd Hs Hkey Hpt Hlrb Hct.
  destruct (sealed_packet_opens keys buf w buf' w' ty hlen data d rb wr
              Hok Hty Hhlen Hh16 Hlen Hmss Hrh Hrdat Henc Hd Hpt Hlrb Hct)
    as (rb' & hdr & Hdec & H).
  exists rb', hdr. split; [|exact H].
  assert (Hget : get_session sid wr = Done s wr) by (apply get_session_Done; auto).
  unfold incoming_mac_then_decrypt.
  rewrite (bind_step _ _ _ _ _ Hget). rewrite Hkey.
  rewrite (bind_step _ _ _ _ _ Hdec). reflexivity.
Qed.

(** And at an endpoint that holds them as its intro keys, without a
    session. *)
Lemma sealed_packet_arrives_intro keys buf w buf' w' ty hlen data d rb wr :
  crypto_ok crypto ->
  0 <= ty < 256 ->
  hlen = PKT_TLV_LEN + length data ->
  hlen < 65536 ->
  len buf = PKT_HDR_LEN + length data ->
  len buf <= LODP_MSS ->
  rd PKT_TAG_LEN 4 (plaintext buf) = Some ([byte_of_Z ty; x00] ++ htons hlen) ->
  rd PKT_HDR_LEN (length data) (plaintext buf) = Some data ->
  encrypt_then_mac keys buf w = Done (0, buf') w' ->
  rd 0 (Z.to_nat (len buf')) (ciphertext buf') = Some d ->
  has_intro_keys (w_ep wr) = true ->
  intro_sym_keys (w_ep wr) = keys ->
  length (plaintext rb) = LODP_MSS ->
  len rb = length d ->
  rd 0 (length d) (ciphertext rb) = Some d ->
  exists rb' hdr,
    incoming_mac_then_decrypt None rb wr = Done (inr (false, rb')) wr
    /\ parse_hdr rb' = Some hdr
    /\ hdr_type hdr = ty /\ hdr_flags hdr = 0
    /\ hdr_length hdr = hlen
    /\ PKT_TLV_LEN <= hdr_length hdr <= len rb' - PKT_TAG_LEN
    /\ rd 0 (length data) (payload hdr) = Some data.
Proof.
  intros Hok Hty Hhlen Hh16 Hlen Hmss Hrh Hrdat Henc Hd Hik Hkey Hpt Hlrb Hct.
  destruct (sealed_packet_opens keys buf w buf' w' ty hlen data d rb wr
              Hok Hty Hhlen Hh16 Hlen Hmss Hrh Hrdat Henc Hd Hpt Hlrb Hct)
    as (rb' & hdr & Hdec & H).
  exists rb', hdr. split; [|exact H].
  unfold incoming_mac_then_decrypt.
  rewrite (bind_step get_ep _ wr (w_ep wr) wr eq_refl), Hik, Hkey. cbn [negb].
  rewrite (bind_step _ _ _ _ _ Hdec). reflexivity.
Qed.

(** The dispatcher on a packet that passes the checks of the header. *)
Lemma incoming_dispatch_sane session used buf addr w hdr :
  parse_hdr buf = Some hdr ->
  PKT_TLV_LEN <= hdr_length hdr <= len buf - PKT_TAG_LEN ->
  hdr_flags hdr = 0 ->
  incoming_dispatch session used buf addr w =
    match session with
    | Some session =>
        if negb used then
          if negb (PKT_HANDSHAKE =? hdr_type hdr) then ret LODP_ERR_BAD_PACKET w
          else
            (let* s := get_session session in
             if is_initiator s then ret LODP_ERR_NOT_RESPONDER
             else on_handshake_pkt (Some session) hdr addr) w
        else
          if hdr_type hdr =? PKT_DATA then on_data_pkt session hdr w
          else if hdr_type hdr =? PKT_INIT_ACK then on_init_ack_pkt session hdr w
          else if hdr_type hdr =? PKT_HANDSHAKE_ACK then on_handshake_ack_pkt session hdr w
          else if hdr_type hdr =? PKT_HEARTBEAT then on_heartbeat_pkt session hdr w
          else if hdr_type hdr =? PKT_HEARTBEAT_ACK then on_heartbeat_ack_pkt session hdr w
          else ret LODP_ERR_BAD_PACKET w
    | None =>
        (let* ep := get_ep in
         let* _ := assert (has_intro_keys ep) in
         if hdr_type hdr =? PKT_INIT then on_init_pkt hdr addr
         else if hdr_type hdr =? PKT_HANDSHAKE then on_handshake_pkt None hdr addr
         else ret LODP_ERR_BAD_PACKET) w
    end.
Proof.
  intros Hparse Hlen Hfl. unfold incoming_dispatch.
  rewrite Hparse. cbn [mem]. rewrite (bind_step _ _ _ _ _ eq_refl).
  destruct (Z.ltb_spec (hdr_length hdr) PKT_TLV_LEN); [lia|].
  destruct (Z.gtb_spec (hdr_length hdr) (len buf - PKT_TAG_LEN)); [lia|].
  rewrite Hfl. cbn [Z.eqb negb].
  destruct session as [sid|]; [|reflexivity].
  destruct used; cbn [negb]; [|destruct (negb _); reflexivity].
  repeat (destruct (hdr_type hdr =? _); [reflexivity|]). reflexivity.
Qed.

Lemma scrub_handshake_material_returns sid s w :
  w_sessions w !! sid = Some (Some s) ->
  (forall block, cookie s = Some block -> (SIZEOF_COOKIE_LEN <= length block)%nat) ->
  exists w', scrub_handshake_material sid w = Done tt w'.
Proof.
  intros Hs Hwf. destruct (cookie s) as [block|] eqn:Hck.
  - destruct (scrub_handshake_material_cookie sid s block w Hs Hck (Hwf _ eq_refl))
      as (w' & _ & H & _). eauto.
  - unfold scrub_handshake_material.
    assert (Hget : get_session sid w = Done s w) by (apply get_session_Done; auto).
    rewrite (bind_step _ _ _ _ _ Hget), Hck.
    eexists. reflexivity.
Qed.

(** [on_data_pkt] on a session that is ESTABLISHED. *)
Lemma on_data_pkt_delivers sid s pkt data w :
  w_sessions w !! sid = Some (Some s) ->
  hdr_type pkt = PKT_DATA ->
  state s = STATE_ESTABLISHED ->
  rd 0 (Z.to_nat ((hdr_length pkt - PKT_HDR_DATA_LEN) mod 65536)) (payload pkt)
    = Some data ->
  (forall block, cookie s = Some block -> (SIZEOF_COOKIE_LEN <= length block)%nat) ->
  exists w' s' t,
    on_data_pkt sid pkt w = Done (on_recv_fn (callbacks (w_ep w)) sid data) w'
    /\ w_ep w' = w_ep w
    /\ w_sessions w' = <[sid := Some s']> (w_sessions w)
    /\ s' = (if seen_peer_data s then s
             else if is_initiator s then set_seen_peer_data true s
                  else scrubbed (set_seen_peer_data true s))
    /\ w_trace w' = EvRecv sid data :: t
    /\ (t = w_trace w \/ exists block, t = EvFree block :: w_trace w).
Proof.
  intros Hs Hty Hst Hrd Hwf.
  assert (Hget : get_session sid w = Done s w) by (apply get_session_Done; auto).
  assert (Hlt : (sid < length (w_sessions w))%nat) by (eapply lookup_lt_Some; eauto).
  assert (Has : assert (PKT_DATA =? hdr_type pkt) w = Done tt w)
    by (apply assert_true; rewrite Hty; reflexivity).
  unfold on_data_pkt.
  rewrite (bind_step _ _ _ _ _ Hget), (bind_step _ _ _ _ _ Has).
  rewrite Hst, bool_decide_eq_true_2 by reflexivity. cbn [negb].
  lazymatch goal with
  | |- exists w' s' t, bind ?inner ?K w = _ /\ _ => set (INNER := inner)
  end.
  assert (HI : exists w1 t,
    INNER w = Done tt w1
    /\ w_ep w1 = w_ep w
    /\ w_sessions w1
         = <[sid := Some (if seen_peer_data s then s
                          else if is_initiator s then set_seen_peer_data true s
                               else scrubbed (set_seen_peer_data true s))]>
             (w_sessions w)
    /\ w_trace w1 = t
    /\ (t = w_trace w \/ exists block, t = EvFree block :: w_trace w)).
  { subst INNER. destruct (seen_peer_data s) eqn:Hseen; cbn [negb].
    - exists w, (w_trace w). split_and!; auto.
      symmetry. apply list_insert_id. exact Hs.
    - unfold bind at 1. cbn [put_session modify].
      set (w1 := set_sessions _ w).
      destruct (is_initiator s) eqn:Hini; cbn [negb].
      + exists w1, (w_trace w). split_and!; auto.
      + assert (Hs1 : w_sessions w1 !! sid = Some (Some (set_seen_peer_data true s))).
        { subst w1. cbn. apply list_lookup_insert_eq. exact Hlt. }
        destruct (scrub_handshake_material_returns sid _ w1 Hs1 Hwf) as (w2 & Hsc).
        pose proof (scrub_handshake_material_inv _ _ _ _ _ Hs1 Hsc) as (Hss & Hep & Htr).
        exists w2, (w_trace w2). split; [exact Hsc|]. split; [exact Hep|]. split.
        { rewrite Hss. subst w1. cbn. apply list_insert_insert_eq. }
        split; [reflexivity|].
        cbn [set_seen_peer_data cookie] in Htr.
        destruct (cookie s) as [block|].
        * destruct Htr as (block' & _ & ->). right. eauto.
        * left. exact Htr. }
  destruct HI as (w1 & t & HI & Hep & Hss & Htr & Ht).
  rewrite (bind_step _ _ _ _ _ HI).
  rewrite Hrd. cbn [mem]. rewrite (bind_step _ _ _ _ _ eq_refl).
  rewrite (bind_step get_ep _ w1 (w_ep w1) w1 eq_refl).
  unfold bind, emit, modify, ret. rewrite Hep.
  eexists _, _, t. split; [reflexivity|]. cbn.
  split_and!; auto; try congruence.
Qed.

(** X20.  DATA from end to end.  When [lodp_send_data_pkt] hands a datagram to
    [sendto_fn], it is addressed to the peer and the status of the callback
    is returned; and a receiver whose session is ESTABLISHED with the
    sender's [tx_key] as its [rx_key], given that datagram, calls
    [on_recv_fn] with exactly the payload and returns what the callback
    returns. *)
Theorem data_pkt_delivery sid_s s data ws r ws' d to sid_r s_r rb addr wr :
  crypto_ok crypto ->
  PKT_TLV_LEN + length data < 65536 ->
  (* the sender hands a datagram to sendto_fn *)
  w_sessions ws !! sid_s = Some (Some s) ->
  lodp_send_data_pkt sid_s data ws = Done r ws' ->
  w_trace ws' = EvSendto d to :: w_trace ws ->
  (* the receiver holds the sender's tx_key as its rx_key *)
  w_sessions wr !! sid_r = Some (Some s_r) ->
  rx_key s_r = tx_key s ->
  state s_r = STATE_ESTABLISHED ->
  (forall block, cookie s_r = Some block -> (SIZEOF_COOKIE_LEN <= length block)%nat) ->
  (* and the datagram in a buffer *)
  length (plaintext rb) = LODP_MSS ->
  len rb = length d ->
  rd 0 (length d) (ciphertext rb) = Some d ->
  exists wr' t,
    lodp_on_incoming_pkt (Some sid_r) rb addr wr
      = Done (on_recv_fn (callbacks (w_ep wr)) sid_r data) wr'
    /\ w_trace wr' = EvRecv sid_r data :: t
    /\ (t = w_trace wr \/ exists block, t = EvFree block :: w_trace wr)
    /\ to = peer_addr s
    /\ r = sendto_fn (callbacks (w_ep ws)) d to.
Proof.
  intros Hok H16 Hs Hsend Htr Hsr Hkey Hst Hwf Hpt Hlrb Hct.
  unfold lodp_send_data_pkt in Hsend.
  step Hsend. assert (a = s) by congruence. subst a. step Hsend.
  destruct (Z.gtb_spec (PKT_DATA_LEN + length data) LODP_MSS) as [|Hsz].
  { injection Hsend as ? ?; subst. exfalso.
    apply (f_equal (@length _)) in Htr. cbn in Htr. lia. }
  apply bind_Done in Hsend as (ob & w0 & Hal & Hsend).
  apply lodp_buf_alloc_spec in Hal as (Htr0 & Hep0 & _).
  destruct ob as [b|].
  2:{ injection Hsend as ? ?; subst. exfalso.
      rewrite Htr0 in Htr. apply (f_equal (@length _)) in Htr. cbn in Htr. lia. }
  step Hsend.
  step_mem Hsend as buf1 Hput. step_mem Hsend as buf Hwr.
  destruct (built_packet _ _ _ _ _ _ Hput Hwr) as (Hlen & Hrh & Hrdat).
  cbn [set_len len] in Hlen.
  apply bind_Done in Hsend as ([re buf'] & we & Henc & Hsend).
  pose proof (encrypt_then_mac_same_host _ _ _ _ _ Henc) as (Htre & Hepe & _).
  destruct (Z.eqb_spec re 0) as [->|Hre]; cbn [negb] in Hsend.
  2:{ apply bind_Done in Hsend as (? & wf & Hf & Hsend). injection Hf as ?; subst wf.
      injection Hsend as ? ?; subst. exfalso.
      rewrite Htre, Htr0 in Htr. apply (f_equal (@length _)) in Htr. cbn in Htr. lia. }
  apply bind_Done in Hsend as (r' & wsd & Hst' & Hsend).
  apply bind_Done in Hsend as (? & wf & Hf & Hsend). injection Hf as ?; subst wf.
  injection Hsend as ? ?; subst r' wsd.
  apply sendto_spec in Hst' as (d' & Hd' & Htrs & Hr & _).
  rewrite Htrs, Htre, Htr0 in Htr. injection Htr as ? ?; subst d' to.
  assert (Hhl : Z.of_nat PKT_HDR_DATA_LEN + Z.of_nat (length data)
                = Z.of_nat PKT_TLV_LEN + Z.of_nat (length data)).
  { unfold PKT_HDR_DATA_LEN, PKT_DATA_LEN, PKT_HDR_LEN, PKT_TLV_LEN. lia. }
  assert (Hty8 : 0 <= PKT_DATA < 256) by (unfold PKT_DATA; lia).
  assert (Hh16 : PKT_HDR_DATA_LEN + length data < 65536) by lia.
  assert (Hlen' : len buf = PKT_HDR_LEN + length data) by exact Hlen.
  assert (Hmss : len buf <= LODP_MSS) by (rewrite Hlen; exact Hsz).
  destruct (sealed_packet_arrives (tx_key s) buf w0 buf' we PKT_DATA
              (PKT_HDR_DATA_LEN + length data) data d sid_r s_r rb wr
              Hok Hty8 Hhl Hh16 Hlen' Hmss Hrh Hrdat Henc Hd' Hsr Hkey Hpt Hlrb Hct)
    as (rb' & hdr & Hdec & Hparse & Hty & Hfl & Hhlen & Hle & Hpay).
  pose proof (incoming_dispatch_sane (Some sid_r) true rb' addr wr hdr Hparse Hle Hfl)
    as Hdisp.
  destruct (on_data_pkt_delivers sid_r s_r hdr data wr Hsr Hty Hst) as
    (wr' & s' & t & Hdata & _ & _ & _ & Htrr & Ht); [|exact Hwf|].
  { rewrite Hhlen.
    replace ((PKT_HDR_DATA_LEN + length data - PKT_HDR_DATA_LEN) mod 65536)
      with (Z.of_nat (length data)) by (rewrite Z.mod_small; lia).
    rewrite Nat2Z.id. exact Hpay. }
  exists wr', t. split.
  { unfold lodp_on_incoming_pkt. rewrite (bind_step _ _ _ _ _ Hdec), Hdisp.
    cbn [negb]. rewrite Hty, Z.eqb_refl. exact Hdata. }
  split; [exact Htrr|]. split; [exact Ht|]. split; [reflexivity|].
  rewrite Hr, Hepe, Hep0. reflexivity.
Qed.

Lemma on_data_pkt_seen sid s pkt w r w' :
  w_sessions w !! sid = Some (Some s) ->
  state s = STATE_ESTABLISHED ->
  on_data_pkt sid pkt w = Done r w' ->
  exists s', w_sessions w' !! sid = Some (Some s') /\ seen_peer_data s' = true.
Proof.
  intros Hs Hst H. unfold on_data_pkt in H.
  assert (Hlt : (sid < length (w_sessions w))%nat) by (eapply lookup_lt_Some; eauto).
  step H. assert (a = s) by congruence. subst a. step H.
  rewrite Hst, bool_decide_eq_true_2 in H by reflexivity. cbn [negb] in H.
  apply bind_Done in H as (u & w1 & Hin & H).
  assert (H1 : exists s', w_sessions w1 !! sid = Some (Some s')
                          /\ seen_peer_data s' = true).
  { destruct (seen_peer_data s) eqn:Hseen; cbn [negb] in Hin.
    - injection Hin as ? ?; subst. eauto.
    - apply bind_Done in Hin as (? & w0 & Hp & Hin). injection Hp as ?; subst w0.
      set (w0 := set_sessions _ w) in Hin.
      assert (Hs0 : w_sessions w0 !! sid = Some (Some (set_seen_peer_data true s))).
      { subst w0. cbn. apply list_lookup_insert_eq. exact Hlt. }
      destruct (is_initiator s); cbn [negb] in Hin.
      + injection Hin as ? ?; subst w1. eauto.
      + apply (scrub_handshake_material_inv _ _ _ _ _ Hs0) in Hin as (Hss & _).
        exists (scrubbed (set_seen_peer_data true s)). split; [|reflexivity].
        rewrite Hss. apply list_lookup_insert_eq. subst w0. cbn.
        rewrite length_insert. exact Hlt. }
  clear Hin. step_mem H as data Hd.
  apply bind_Done in H as (ep & wa & Hep & H). injection Hep as ? ?; subst ep wa.
  apply bind_Done in H as (? & wa & He & H). injection He as ?; subst wa.
  injection H as ? ?; subst. exact H1.
Qed.

(** X15.  Once [on_data_pkt] has accepted a DATA packet on a session, a
    HANDSHAKE for that session gets no answer: when [on_handshake_pkt]
    returns, it has called no callback and sent nothing. *)
Theorem handshake_after_data_unanswered sid s pkt w r1 w1 hs addr r2 w2 :
  w_sessions w !! sid = Some (Some s) ->
  state s = STATE_ESTABLISHED ->
  on_data_pkt sid pkt w = Done r1 w1 ->
  on_handshake_pkt (Some sid) hs addr w1 = Done r2 w2 ->
  w_trace w2 = w_trace w1.
Proof.
  intros Hs Hst Hdata Hhs.
  destruct (on_data_pkt_seen _ _ _ _ _ _ Hs Hst Hdata) as (s' & Hs' & Hseen).
  apply on_handshake_pkt_retransmit in Hhs as [Htr|(s'' & d & Hs'' & Hseen' & _)];
    [exact Htr|].
  congruence.
Qed.

(** X13.  A HANDSHAKE whose cookie differs from the cookie computed for its
    address and intro keys is refused, with LODP_ERR_INVALID_COOKIE
    (LODP_ERR_BAD_PACKET when its length is wrong), before anything else
    happens: no buffer is taken, no session is created and nothing is
    sent. *)
Theorem handshake_cookie_mismatch_no_effect session hs_pkt addr w c1 w1 echoed r w' :
  generate_cookie (zeros COOKIE_LEN) 0 hs_pkt addr w = Done (0, c1) w1 ->
  rd (LODP_MAC_KEY_LEN + LODP_MAC_KEY_LEN + LODP_ECDH_PUBLIC_KEY_LEN) COOKIE_LEN
     (payload hs_pkt) = Some echoed ->
  c1 <> echoed ->
  on_handshake_pkt session hs_pkt addr w = Done r w' ->
  (r = LODP_ERR_INVALID_COOKIE \/ r = LODP_ERR_BAD_PACKET)
  /\ w_trace w' = w_trace w
  /\ w_sessions w' = w_sessions w
  /\ w_pool w' = w_pool w.
Proof.
  intros Hg He Hne. unfold on_handshake_pkt. intros H.
  apply bind_Done in H as (now & wa & Ht & H). injection Ht as ? ?; subst now wa.
  destruct (negb (_ =? hdr_length hs_pkt)); [injection H as ? ?; subst; auto|].
  rewrite (bind_step _ _ _ _ _ Hg) in H. cbn [negb Z.eqb] in H.
  pose proof (generate_cookie_inv _ _ _ _ _ _ _ _ Hg) as [(Htr1 & Hss1 & Hpool1 & _) Hc].
  assert (Hc1 : rd 0 COOKIE_LEN c1 = Some c1).
  { assert (length c1 = COOKIE_LEN) as Hl.
    { destruct Hc as [[_ ->]|(a & k & dg & d1 & _ & _ & _ & H1 & H2)].
      - apply repeat_length.
      - apply wr_Some in H1 as [_ H1]. unfold lodp_memwipe in H2.
        apply wr_Some in H2 as [_ H2]. rewrite H2, H1. apply repeat_length. }
    rewrite rd_defined by lia. rewrite drop_0, take_ge by lia. reflexivity. }
  rewrite Hc1, He in H. cbn [mem] in H.
  rewrite !(bind_step _ _ _ _ _ eq_refl) in H.
  apply bind_Done in H as (refused & w2 & Hchk & H).
  assert (Hcmp : negb (lodp_memcmp c1 echoed =? 0) = true).
  { destruct (Z.eqb_spec (lodp_memcmp c1 echoed) 0) as [E|E]; [|reflexivity].
    apply lodp_memcmp_0 in E. contradiction. }
  assert (Href : refused = Some LODP_ERR_INVALID_COOKIE /\ w2 = w1).
  { rewrite Hcmp in Hchk.
    rewrite (bind_step get_ep _ w1 (w_ep w1) w1 eq_refl) in Hchk.
    destruct (_ >? _); [injection Hchk as ? ?; subst; auto|].
    rewrite (bind_step _ _ _ _ _ (generate_cookie_again _ _ 1 _ _ _ _ _ _ Hg)) in Hchk.
    cbn [negb Z.eqb] in Hchk. rewrite Hc1 in Hchk. cbn [mem] in Hchk.
    rewrite (bind_step _ _ _ _ _ eq_refl) in Hchk. rewrite Hcmp in Hchk.
    injection Hchk as ? ?; subst; auto. }
  destruct Href as [-> ->]. injection H as ? ?; subst. auto.
Qed.

(** X12.  [on_init_pkt] is stateless: it creates no session and changes none,
    whatever it returns, and hands at most one datagram to [sendto_fn], for
    the address the INIT came from. *)
Theorem on_init_pkt_stateless init_pkt addr w r w' :
  on_init_pkt init_pkt addr w = Done r w' ->
  w_sessions w' = w_sessions w
  /\ w_now w' = w_now w
  /\ (w_trace w' = w_trace w
      \/ exists d, w_trace w' = EvSendto d addr :: w_trace w).
Proof.
  unfold on_init_pkt. intros H.
  destruct (negb (PKT_HDR_INIT_LEN =? hdr_length init_pkt)).
  { injection H as ? ?; subst. auto. }
  step_mem H as key Hkey.
  apply bind_Done in H as (ob & w0 & Hal & H).
  apply lodp_buf_alloc_spec in Hal as (Htr0 & _ & Hss0 & Hnow0).
  destruct ob as [b|].
  2:{ injection H as ? ?; subst. auto. }
  step H. step_mem H as buf0 Hhdr.
  apply bind_Done in H as ([rc region] & wc & Hgen & H).
  apply generate_cookie_inv in Hgen as [(Htrc & Hssc & _ & Hnowc) _].
  step_mem H as buf Hwr.
  apply send_tail_effects in H as (_ & Hss & Hnow & Htr).
  split; [congruence|]. split; [congruence|].
  destruct Htr as [Htr|(d & Htr)]; [left; congruence|].
  right. exists d. congruence.
Qed.

(** X10.  Padding.  When [encrypt_then_mac] returns, the length of the buffer
    is the old one if the host asked for no padding (no callback, or a result
    that is not positive), and otherwise the old length plus the padding
    asked for, clamped to LODP_MSS; the length never shrinks, and the
    function has taken the padding and LODP_BULK_IV_LEN bytes from the random
    source. *)
Theorem encrypt_then_mac_padding keys buf w r buf' w' :
  encrypt_then_mac keys buf w = Done (r, buf') w' ->
  let asked := match pre_encrypt_fn (callbacks (w_ep w)) with
               | Some f => f (len buf) LODP_MSS
               | None => 0
               end in
  len buf' = (if 0 <? asked then Z.min (asked + len buf) LODP_MSS else len buf)
  /\ len buf <= len buf'
  /\ Z.of_nat (w_tape_pos w')
       = w_tape_pos w + (len buf' - len buf) + LODP_BULK_IV_LEN.
Proof.
  intros H. cbv zeta. unfold encrypt_then_mac in H.
  step H. step H.
  apply bind_Done in H as (ep & wa & Hep & H). injection Hep as ? ?; subst ep wa.
  apply bind_Done in H as (buf1 & w1 & Hpad & H).
  assert (HP :
    len buf1 = (if 0 <? match pre_encrypt_fn (callbacks (w_ep w)) with
                        | Some f => f (len buf) LODP_MSS
                        | None => 0
                        end
                then Z.min (match pre_encrypt_fn (callbacks (w_ep w)) with
                            | Some f => f (len buf) LODP_MSS
                            | None => 0
                            end + len buf) LODP_MSS
                else len buf)
    /\ len buf <= len buf1
    /\ Z.of_nat (w_tape_pos w1) = w_tape_pos w + (len buf1 - len buf)).
  { destruct (pre_encrypt_fn _) as [f|].
    2:{ injection Hpad as ? ?; subst. cbn. lia. }
    destruct (Z.ltb_spec 0 (f (len buf) LODP_MSS)) as [Hpos|Hpos].
    2:{ injection Hpad as ? ?; subst. lia. }
    destruct (INT_MAX <? _); [discriminate|].
    set (p := if f (len buf) LODP_MSS + len buf >? LODP_MSS
              then LODP_MSS - len buf else f (len buf) LODP_MSS) in *.
    destruct (Z.ltb_spec p 0) as [|Hp]; [discriminate|].
    apply bind_Done in Hpad as (pad & wr & Hr & Hpad). injection Hr as ? ?; subst pad wr.
    step_mem Hpad as b1 Hw1. injection Hpad as ? ?; subst buf1 w1.
    apply write_pt_spec in Hw1 as (Hl1 & _).
    cbn [set_len len set_tape_pos w_tape_pos]. rewrite Hl1. subst p.
    destruct (Z.gtb_spec (f (len buf) LODP_MSS + len buf) LODP_MSS); lia. }
  clear Hpad. destruct HP as (HP1 & HP2 & HP3).
  apply bind_Done in H as (iv & w2 & Hr & H). injection Hr as ? ?; subst iv w2.
  step_mem H as buf2 Hw2. apply write_ct_spec in Hw2 as (Hl2 & _).
  destruct (_ <? _); [discriminate|].
  step_mem H as iv Hiv. step_mem H as body Hbody.
  destruct (lodp_encrypt _ _ _) as [r0 out].
  step_mem H as buf3 Hw3. apply write_ct_spec in Hw3 as (Hl3 & _).
  assert (Hfin : len buf3 = len buf1) by congruence.
  destruct (negb _).
  { injection H as ? ? ?; subst. cbn [set_tape_pos w_tape_pos].
    rewrite Hfin. split; [exact HP1|]. lia. }
  step_mem H as msg Hmsg. destruct (lodp_mac _ _ _) as [r1 tag].
  step_mem H as buf4 Hw4. apply write_ct_spec in Hw4 as (Hl4 & _).
  injection H as ? ? ?; subst. cbn [set_tape_pos w_tape_pos].
  rewrite Hl4, Hfin. split; [exact HP1|]. lia.
Qed.

(** X11.  Rotation of the cookie key.  A call of [generate_cookie] at a time
    later than [cookie_rotate_time + 30] makes the current key the previous
    one, draws a new key of the same size from the random source and sets the
    rotation time to now and the expiry of the previous key to now + 15; at
    [cookie_rotate_time + 30] or before, the endpoint is unchanged.  Either
    way no rotation is due after the call, and the intro keys and the
    callbacks are untouched. *)
Theorem generate_cookie_rotation dst prev pkt addr w x w' :
  generate_cookie dst prev pkt addr w = Done x w' ->
  (if w_now w >? cookie_rotate_time (w_ep w) + COOKIE_ROTATE_INTERVAL then
     prev_cookie_key (w_ep w') = cookie_key (w_ep w)
     /\ cookie_key (w_ep w')
          = map (w_tape w) (seq (w_tape_pos w) (length (cookie_key (w_ep w))))
     /\ cookie_rotate_time (w_ep w') = w_now w
     /\ cookie_expire_time (w_ep w') = w_now w + COOKIE_GRACE_WINDOW
   else w_ep w' = w_ep w)
  /\ w_now w' <= cookie_rotate_time (w_ep w') + COOKIE_ROTATE_INTERVAL
  /\ has_intro_keys (w_ep w') = has_intro_keys (w_ep w)
  /\ intro_sym_keys (w_ep w') = intro_sym_keys (w_ep w)
  /\ intro_ecdh_keypair (w_ep w') = intro_ecdh_keypair (w_ep w)
  /\ callbacks (w_ep w') = callbacks (w_ep w).
Proof.
  unfold generate_cookie. intros H.
  apply bind_Done in H as (now & wa & Hnow & H). injection Hnow as ? ?; subst now wa.
  apply bind_Done in H as (ep & wa & Hep & H). injection Hep as ? ?; subst ep wa.
  apply bind_Done in H as (u & w0 & Hrot & H).
  assert (Hw0 : w' = w0).
  { destruct (negb (hdr_type pkt =? PKT_INIT) && negb (hdr_type pkt =? PKT_HANDSHAKE)).
    { injection H as ? ?; subst. reflexivity. }
    step_mem H as a Ha. destruct a as [a|].
    2:{ injection H as ? ?; subst. reflexivity. }
    destruct (hdr_length pkt <? _).
    { injection H as ? ?; subst. reflexivity. }
    step_mem H as keys Hk.
    apply bind_Done in H as (ep' & wa & Hep & H). injection Hep as ? ?; subst ep' wa.
    destruct (lodp_mac _ _ _) as [r0 digest].
    step_mem H as d1 Hd1. step_mem H as d2 Hd2.
    injection H as ? ?; subst. reflexivity. }
  subst w0. clear H. unfold COOKIE_ROTATE_INTERVAL in *.
  destruct (Z.gtb_spec (w_now w) (cookie_rotate_time (w_ep w) + 30)) as [Hgt|Hle].
  - injection Hrot as ?; subst w'. cbn. split_and!; auto. lia.
  - injection Hrot as ?; subst w'. split_and!; auto.
Qed.

(** X22.  The echo.  The HEARTBEAT ACK that [on_heartbeat_pkt] hands to
    [sendto_fn] carries the payload of the HEARTBEAT: the peer, ESTABLISHED
    with the matching key and with [on_heartbeat_ack_fn] set, calls it with
    the [length - 4] payload bytes of the HEARTBEAT and returns 0. *)
Theorem heartbeat_ack_delivery sid_b s_b hb_pkt wb r wb' d to sid_a s_a rb addr wa :
  crypto_ok crypto ->
  PKT_TLV_LEN <= hdr_length hb_pkt < 65536 ->
  PKT_TAG_LEN + hdr_length hb_pkt <= LODP_MSS ->
  (* the peer answers a HEARTBEAT *)
  w_sessions wb !! sid_b = Some (Some s_b) ->
  on_heartbeat_pkt sid_b hb_pkt wb = Done r wb' ->
  w_trace wb' = EvSendto d to :: w_trace wb ->
  (* the sender of the HEARTBEAT receives the answer *)
  w_sessions wa !! sid_a = Some (Some s_a) ->
  rx_key s_a = tx_key s_b ->
  state s_a = STATE_ESTABLISHED ->
  has_on_heartbeat_ack_fn (callbacks (w_ep wa)) = true ->
  length (plaintext rb) = LODP_MSS ->
  len rb = length d ->
  rd 0 (length d) (ciphertext rb) = Some d ->
  exists data wa',
    rd 0 (Z.to_nat (hdr_length hb_pkt - PKT_TLV_LEN)) (payload hb_pkt) = Some data
    /\ lodp_on_incoming_pkt (Some sid_a) rb addr wa = Done 0 wa'
    /\ w_trace wa' = EvHeartbeatAck sid_a data :: w_trace wa
    /\ to = peer_addr s_b
    /\ r = sendto_fn (callbacks (w_ep wb)) d to.
Proof.
  intros Hok Hhl Hfit Hs Hhb Htr Hsa Hkey Hst Hcb Hpt Hlrb Hct.
  unfold PKT_TLV_LEN in Hhl.
  assert (H4 : PKT_HDR_HEARTBEAT_LEN = 4%nat /\ PKT_HDR_HEARTBEAT_ACK_LEN = 4%nat
               /\ PKT_HEARTBEAT_ACK_LEN = PKT_HDR_LEN /\ PKT_TLV_LEN = 4%nat
               /\ PKT_HDR_LEN = (PKT_TAG_LEN + 4)%nat).
  { unfold PKT_HDR_HEARTBEAT_LEN, PKT_HEARTBEAT_LEN, PKT_HDR_HEARTBEAT_ACK_LEN,
      PKT_HEARTBEAT_ACK_LEN, PKT_HDR_LEN, PKT_TLV_LEN. lia. }
  destruct H4 as (E1 & E2 & E3 & E4 & E5).
  unfold on_heartbeat_pkt in Hhb.
  step Hhb. assert (a = s_b) by congruence. subst a. step Hhb.
  destruct (negb _).
  { injection Hhb as ? ?; subst. exfalso.
    apply (f_equal (@length _)) in Htr. cbn in Htr. lia. }
  rewrite E1, E2, E3 in Hhb.
  replace ((hdr_length hb_pkt - 4%nat) mod 65536) with (hdr_length hb_pkt - 4) in Hhb
    by (rewrite Z.mod_small; lia).
  apply bind_Done in Hhb as (ob & w0 & Hal & Hhb).
  apply lodp_buf_alloc_spec in Hal as (Htr0 & Hep0 & _).
  destruct ob as [b|].
  2:{ injection Hhb as ? ?; subst. exfalso.
      rewrite Htr0 in Htr. apply (f_equal (@length _)) in Htr. cbn in Htr. lia. }
  step Hhb.
  step_mem Hhb as buf1 Hput. step_mem Hhb as data Hdata. step_mem Hhb as buf Hwr.
  destruct (built_packet _ _ _ _ _ _ Hput Hwr) as (Hlen & Hrh & Hrdat).
  cbn [set_len len] in Hlen.
  pose proof (rd_Some _ _ _ _ Hdata) as (_ & _ & Hdl).
  apply bind_Done in Hhb as ([re buf'] & we & Henc & Hhb).
  pose proof (encrypt_then_mac_same_host _ _ _ _ _ Henc) as (Htre & Hepe & _).
  destruct (Z.eqb_spec re 0) as [->|Hre]; cbn [negb] in Hhb.
  2:{ apply bind_Done in Hhb as (? & wf & Hf & Hhb). injection Hf as ?; subst wf.
      injection Hhb as ? ?; subst. exfalso.
      rewrite Htre, Htr0 in Htr. apply (f_equal (@length _)) in Htr. cbn in Htr. lia. }
  apply bind_Done in Hhb as (r' & wsd & Hst' & Hhb).
  apply bind_Done in Hhb as (? & wf & Hf & Hhb). injection Hf as ?; subst wf.
  injection Hhb as ? ?; subst r' wsd.
  apply sendto_spec in Hst' as (d' & Hd' & Htrs & Hr & _).
  rewrite Htrs, Htre, Htr0 in Htr. injection Htr as ? ?; subst d' to.
  assert (Hty8 : 0 <= PKT_HEARTBEAT_ACK < 256) by (unfold PKT_HEARTBEAT_ACK; lia).
  assert (Hhl' : 4%nat + (hdr_length hb_pkt - 4) = PKT_TLV_LEN + length data) by lia.
  assert (Hh16 : 4%nat + (hdr_length hb_pkt - 4) < 65536) by lia.
  assert (Hlen' : len buf = PKT_HDR_LEN + length data) by lia.
  assert (Hmss : len buf <= LODP_MSS) by lia.
  destruct (sealed_packet_arrives (tx_key s_b) buf w0 buf' we PKT_HEARTBEAT_ACK
              (4%nat + (hdr_length hb_pkt - 4)) data d sid_a s_a rb wa
              Hok Hty8 Hhl' Hh16 Hlen' Hmss Hrh Hrdat Henc Hd' Hsa Hkey Hpt Hlrb Hct)
    as (rb' & hdr & Hdec & Hparse & Hty & Hfl & Hhlen & Hle & Hpay).
  pose proof (incoming_dispatch_sane (Some sid_a) true rb' addr wa hdr Hparse Hle Hfl)
    as Hdisp.
  exists data. eexists. split.
  { rewrite E4. replace (Z.to_nat (hdr_length hb_pkt - 4%nat))
      with (Z.to_nat (hdr_length hb_pkt - 4)) by lia. exact Hdata. }
  assert (Hget : get_session sid_a wa = Done s_a wa) by (apply get_session_Done; auto).
  assert (Has : assert (PKT_HEARTBEAT_ACK =? hdr_type hdr) wa = Done tt wa)
    by (apply assert_true; rewrite Hty; reflexivity).
  split.
  { unfold lodp_on_incoming_pkt. rewrite (bind_step _ _ _ _ _ Hdec), Hdisp.
    cbn [negb]. rewrite Hty.
    change (PKT_HEARTBEAT_ACK =? PKT_DATA) with false.
    change (PKT_HEARTBEAT_ACK =? PKT_INIT_ACK) with false.
    change (PKT_HEARTBEAT_ACK =? PKT_HANDSHAKE_ACK) with false.
    change (PKT_HEARTBEAT_ACK =? PKT_HEARTBEAT) with false.
    rewrite Z.eqb_refl.
    unfold on_heartbeat_ack_pkt.
    rewrite (bind_step _ _ _ _ _ Hget), (bind_step _ _ _ _ _ Has).
    rewrite Hst, bool_decide_eq_true_2 by reflexivity. cbn [negb].
    rewrite (bind_step get_ep _ wa (w_ep wa) wa eq_refl), Hcb.
    rewrite Hhlen, E2.
    replace (Z.to_nat ((4%nat + (hdr_length hb_pkt - 4) - 4%nat) mod 65536))
      with (length data) by (rewrite Z.mod_small; lia).
    rewrite Hpay. reflexivity. }
  cbn. split; [reflexivity|]. split; [reflexivity|].
  rewrite Hr, Hepe, Hep0. reflexivity.
Qed.

(** X14.  When the cookie of a HANDSHAKE verifies and [lodp_session_init]
    returns NULL, [on_handshake_pkt] jumps to [out_free] with [ret] still 0:
    it returns 0, having created no session and sent nothing. *)
Theorem on_handshake_pkt_no_memory hs_pkt addr w c1 w1 key pub_key b rest :
  hdr_length hs_pkt = PKT_HDR_HANDSHAKE_LEN + COOKIE_LEN ->
  (* the cookie verifies *)
  generate_cookie (zeros COOKIE_LEN) 0 hs_pkt addr w = Done (0, c1) w1 ->
  rd (LODP_MAC_KEY_LEN + LODP_MAC_KEY_LEN + LODP_ECDH_PUBLIC_KEY_LEN) COOKIE_LEN
     (payload hs_pkt) = Some c1 ->
  peer_intro_keys hs_pkt = Some key ->
  rd (LODP_MAC_KEY_LEN + LODP_MAC_KEY_LEN) LODP_ECDH_PUBLIC_KEY_LEN (payload hs_pkt)
    = Some pub_key ->
  (* a buffer is there *)
  w_pool w1 = Some b :: rest ->
  (PKT_HANDSHAKE_ACK_LEN <= length (plaintext b))%nat ->
  (PKT_HANDSHAKE_ACK_LEN <= length (ciphertext b))%nat ->
  PKT_HANDSHAKE_ACK_LEN < LODP_MSS ->
  (* the allocation of the session fails *)
  (forall h, w_heap w1 <> true :: h) ->
  exists w',
    on_handshake_pkt None hs_pkt addr w = Done 0 w'
    /\ w_trace w' = w_trace w
    /\ w_sessions w' = w_sessions w.
Proof.
  intros Hlen Hg He Hkey Hpk Hpool Hbp Hbc Hfit Hheap.
  pose proof (generate_cookie_inv _ _ _ _ _ _ _ _ Hg) as [(Htr1 & Hss1 & _) Hc].
  assert (Hc1 : rd 0 COOKIE_LEN c1 = Some c1).
  { assert (length c1 = COOKIE_LEN) as Hl.
    { destruct Hc as [[_ ->]|(a & k & dg & d1 & _ & _ & _ & H1 & H2)].
      - apply repeat_length.
      - apply wr_Some in H1 as [_ H1]. unfold lodp_memwipe in H2.
        apply wr_Some in H2 as [_ H2]. rewrite H2, H1. apply repeat_length. }
    rewrite rd_defined by lia. rewrite drop_0, take_ge by lia. reflexivity. }
  unfold on_handshake_pkt.
  rewrite (bind_step time _ w (w_now w) w eq_refl).
  rewrite Hlen, Z.eqb_refl. cbn [negb].
  rewrite (bind_step _ _ _ _ _ Hg). cbn [negb Z.eqb].
  rewrite Hc1, He. cbn [mem]. rewrite !(bind_step _ _ _ _ _ eq_refl).
  rewrite (proj2 (lodp_memcmp_0 c1 c1) eq_refl). cbn [negb Z.eqb].
  rewrite (bind_step (ret None) _ w1 None w1 eq_refl).
  rewrite Hkey, Hpk. cbn [mem]. rewrite !(bind_step _ _ _ _ _ eq_refl).
  assert (Hal : lodp_buf_alloc w1 = Done (Some b) (set_pool rest w1)).
  { unfold lodp_buf_alloc. rewrite Hpool. reflexivity. }
  rewrite (bind_step _ _ _ _ _ Hal).
  rewrite (bind_step _ _ _ _ _
             (assert_true _ (set_pool rest w1) (proj2 (Z.ltb_lt _ _) Hfit))).
  assert (Hhdr : (PKT_TAG_LEN + 4 <= PKT_HANDSHAKE_ACK_LEN)%nat
                 /\ (PKT_HDR_LEN + LODP_ECDH_PUBLIC_KEY_LEN <= PKT_HANDSHAKE_ACK_LEN)%nat).
  { unfold PKT_HANDSHAKE_ACK_LEN, PKT_HDR_LEN. lia. }
  destruct Hhdr as [Hh1 Hh2].
  destruct (write_pt_defined PKT_TAG_LEN
              ([byte_of_Z PKT_HANDSHAKE_ACK; x00] ++ htons PKT_HDR_HANDSHAKE_ACK_LEN)
              (set_len PKT_HANDSHAKE_ACK_LEN b)) as [buf1 Hput].
  { cbn. lia. }
  { cbn. lia. }
  unfold put_hdr. rewrite Hput. cbn [mem]. rewrite (bind_step _ _ _ _ _ eq_refl).
  apply write_pt_spec in Hput as (_ & Hlp & _).
  cbn [set_len plaintext] in Hlp.
  rewrite rd_defined by lia. cbn [mem]. rewrite (bind_step _ _ _ _ _ eq_refl).
  assert (Hinit : forall pk, exists w2,
    lodp_session_init addr pk false (set_pool rest w1) = Done None w2
    /\ w_trace w2 = w_trace w1 /\ w_sessions w2 = w_sessions w1).
  { intros pk. unfold lodp_session_init, bind, heap_alloc. cbn [set_pool w_heap].
    destruct (w_heap w1) as [|[|] h] eqn:Hh.
    - eexists. split; [reflexivity|]. cbn. auto.
    - exfalso. eapply Hheap. reflexivity.
    - eexists. split; [reflexivity|]. cbn. auto. }
  destruct (Hinit (take LODP_ECDH_PUBLIC_KEY_LEN (drop PKT_HDR_LEN (plaintext buf1))))
    as (w2 & Hi & Htr2 & Hss2).
  rewrite (bind_step _ _ _ _ _ Hi).
  exists w2. split; [reflexivity|]. split; congruence.
Qed.

Lemma incoming_mac_then_decrypt_world session buf w x w' :
  incoming_mac_then_decrypt session buf w = Done x w' -> w' = w.
Proof.
  unfold incoming_mac_then_decrypt. intros H.
  assert (Hep : forall b w0,
    (let* ep := get_ep in
     if negb (has_intro_keys ep) then ret (inl LODP_ERR_NOT_RESPONDER)
     else
       let* '(r, b) := mac_then_decrypt (intro_sym_keys ep) b in
       if negb (r =? 0) then ret (inl r) else ret (inr (false, b))) w0
      = Done x w' -> w' = w0).
  { intros b w0 Hk. unfold bind at 1 in Hk. cbn [get_ep] in Hk.
    destruct (negb (has_intro_keys (w_ep w0))); [injection Hk as ? ?; subst; reflexivity|].
    apply bind_Done in Hk as ([r b'] & w1 & Hmd & Hk).
    apply mac_then_decrypt_world in Hmd. subst w1.
    destruct (negb _); injection Hk as ? ?; subst; reflexivity. }
  destruct session as [sid|]; [|eapply Hep; exact H].
  step H. apply bind_Done in H as ([r b'] & w1 & Hmd & H).
  apply mac_then_decrypt_world in Hmd. subst w1.
  destruct (r =? 0); [injection H as ? ?; subst; reflexivity|].
  destruct (negb _); [injection H as ? ?; subst; reflexivity|].
  eapply Hep; exact H.
Qed.

(** X5.  When the choice of the keys ends in a status (LODP_ERR_NOT_RESPONDER,
    LODP_ERR_INVALID_MAC or another failure of [mac_then_decrypt]),
    [lodp_on_incoming_pkt] returns it and the state is as before: no callback
    runs and nothing is sent. *)
Theorem incoming_rejected_by_envelope session buf addr w r w' :
  incoming_mac_then_decrypt session buf w = Done (inl r) w' ->
  lodp_on_incoming_pkt session buf addr w = Done r w.
Proof.
  intros H. pose proof (incoming_mac_then_decrypt_world _ _ _ _ _ H) as ->.
  unfold lodp_on_incoming_pkt. rewrite (bind_step _ _ _ _ _ H). reflexivity.
Qed.

(** A further field stored after the fields that follow the header. *)
Lemma write_pt_append (n : nat) prev src b b' :
  rd PKT_HDR_LEN n (plaintext b) = Some prev ->
  write_pt (PKT_HDR_LEN + n) src b = Some b' ->
  rd PKT_HDR_LEN (n + length src) (plaintext b') = Some (prev ++ src)
  /\ len b' = len b
  /\ rd PKT_TAG_LEN 4 (plaintext b') = rd PKT_TAG_LEN 4 (plaintext b).
Proof.
  intros Hp Hw. apply write_pt_spec in Hw as (Hl & _ & _ & Hs & Hoth).
  split; [|split; [exact Hl|]].
  - apply rd_join.
    + rewrite <- Hp. apply Hoth. left. lia.
    + exact Hs.
  - apply Hoth. left. unfold PKT_HDR_LEN. lia.
Qed.

(** [encrypt_then_mac] reads the whole packet from the plaintext view. *)
Lemma encrypt_then_mac_fits keys buf w x w' :
  encrypt_then_mac keys buf w = Done x w' ->
  PKT_TAG_LEN <= len buf ->
  (Z.to_nat (len buf) <= length (plaintext buf))%nat.
Proof.
  unfold encrypt_then_mac. intros H Htag.
  step H. step H.
  apply bind_Done in H as (ep & wa & Hep & H). injection Hep as ? ?; subst ep wa.
  apply bind_Done in H as (buf1 & w1 & Hpad & H).
  assert (HP : len buf <= len buf1 /\ length (plaintext buf1) = length (plaintext buf)).
  { destruct (pre_encrypt_fn _) as [f|].
    2:{ injection Hpad as ? ?; subst. split; [lia|reflexivity]. }
    destruct (0 <? _).
    2:{ injection Hpad as ? ?; subst. split; [lia|reflexivity]. }
    destruct (INT_MAX <? _); [discriminate|].
    set (p := if f (len buf) LODP_MSS + len buf >? LODP_MSS
              then LODP_MSS - len buf else f (len buf) LODP_MSS) in *.
    destruct (Z.ltb_spec p 0) as [|Hp]; [discriminate|].
    apply bind_Done in Hpad as (pad & wr & Hr & Hpad). injection Hr as ? ?; subst pad wr.
    step_mem Hpad as b1 Hw1. injection Hpad as ? ?; subst buf1 w1.
    apply write_pt_spec in Hw1 as (Hl1 & Hp1 & _).
    cbn [set_len len plaintext]. split; [lia|exact Hp1]. }
  clear Hpad. destruct HP as [HP1 HP2].
  apply bind_Done in H as (iv & w2 & Hr & H). injection Hr as ? ?; subst iv w2.
  step_mem H as buf2 Hw2. apply write_ct_spec in Hw2 as (Hl2 & Hp2 & _).
  destruct (_ <? _); [discriminate|].
  step_mem H as iv Hiv. step_mem H as body Hbody.
  apply rd_Some in Hbody as (Hb & _). lia.
Qed.

(** X23.  The INIT that [lodp_send_init_pkt] hands to [sendto_fn] reaches
    [on_init_pkt] at an endpoint whose intro keys are the session's [tx_key],
    with the right length and with the session's [rx_key] (LODP_MAC_KEY_LEN
    bytes of each key) as the peer's intro keys. *)
Theorem init_pkt_arrival sid s ws r ws' d to rb addr wr :
  crypto_ok crypto ->
  LODP_MAC_KEY_LEN = LODP_BULK_KEY_LEN ->
  PKT_HDR_INIT_LEN < 65536 ->
  PKT_INIT_LEN <= LODP_MSS ->
  (* the initiator hands an INIT to sendto_fn *)
  w_sessions ws !! sid = Some (Some s) ->
  lodp_send_init_pkt sid ws = Done r ws' ->
  w_trace ws' = EvSendto d to :: w_trace ws ->
  (* the responder's intro keys are the keys the initiator sends under *)
  has_intro_keys (w_ep wr) = true ->
  intro_sym_keys (w_ep wr) = tx_key s ->
  length (plaintext rb) = LODP_MSS ->
  len rb = length d ->
  rd 0 (length d) (ciphertext rb) = Some d ->
  exists hdr mk bk,
    rd 0 LODP_MAC_KEY_LEN (mac_key (rx_key s)) = Some mk
    /\ rd 0 LODP_MAC_KEY_LEN (bulk_key (rx_key s)) = Some bk
    /\ hdr_length hdr = PKT_HDR_INIT_LEN
    /\ peer_intro_keys hdr = Some (mk_symmetric_key mk bk)
    /\ lodp_on_incoming_pkt None rb addr wr = on_init_pkt hdr addr wr
    /\ to = peer_addr s.
Proof.
  intros Hok Hkk H16 Hfit Hs Hsend Htr Hik Hkey Hpt Hlrb Hct.
  unfold lodp_send_init_pkt in Hsend.
  step Hsend. assert (a = s) by congruence. subst a. step Hsend. step Hsend.
  apply bind_Done in Hsend as (ob & w0 & Hal & Hsend).
  apply lodp_buf_alloc_spec in Hal as (Htr0 & Hep0 & _).
  destruct ob as [b|].
  2:{ injection Hsend as ? ?; subst. exfalso.
      rewrite Htr0 in Htr. apply (f_equal (@length _)) in Htr. cbn in Htr. lia. }
  step Hsend.
  step_mem Hsend as buf1 Hput. step_mem Hsend as mk Hmk. step_mem Hsend as buf2 Hw2.
  step_mem Hsend as bk Hbk. step_mem Hsend as buf3 Hw3.
  destruct (built_packet _ _ _ _ _ _ Hput Hw2) as (Hlen2 & Hrh2 & Hrd2).
  cbn [set_len len] in Hlen2.
  pose proof (rd_Some _ _ _ _ Hmk) as (_ & _ & Hmkl).
  pose proof (rd_Some _ _ _ _ Hbk) as (_ & _ & Hbkl).
  rewrite Hmkl in Hrd2.
  destruct (write_pt_append _ _ _ _ _ Hrd2 Hw3) as (Hrd3 & Hlen3 & Hrh3).
  rewrite Hrh2 in Hrh3.
  apply bind_Done in Hsend as ([re buf'] & we & Henc & Hsend).
  pose proof (encrypt_then_mac_same_host _ _ _ _ _ Henc) as (Htre & Hepe & _).
  destruct (Z.eqb_spec re 0) as [->|Hre]; cbn [negb] in Hsend.
  2:{ apply bind_Done in Hsend as (? & wf & Hf & Hsend). injection Hf as ?; subst wf.
      injection Hsend as ? ?; subst. exfalso.
      rewrite Htre, Htr0 in Htr. apply (f_equal (@length _)) in Htr. cbn in Htr. lia. }
  apply bind_Done in Hsend as (r' & wsd & Hst' & Hsend).
  apply bind_Done in Hsend as (? & wf & Hf & Hsend). injection Hf as ?; subst wf.
  injection Hsend as ? ?; subst r' wsd.
  apply sendto_spec in Hst' as (d' & Hd' & Htrs & Hr & _).
  rewrite Htrs, Htre, Htr0 in Htr. injection Htr as ? ?; subst d' to.
  assert (Hdl : length (mk ++ bk) = (LODP_MAC_KEY_LEN + LODP_MAC_KEY_LEN)%nat)
    by (rewrite length_app; lia).
  assert (Hty8 : 0 <= PKT_INIT < 256) by (unfold PKT_INIT; lia).
  assert (Hhl : Z.of_nat PKT_HDR_INIT_LEN = PKT_TLV_LEN + length (mk ++ bk)).
  { rewrite Hdl. unfold PKT_HDR_INIT_LEN, PKT_INIT_LEN, PKT_HDR_LEN, PKT_TLV_LEN. lia. }
  assert (Hlen' : len buf3 = PKT_HDR_LEN + length (mk ++ bk)).
  { rewrite Hdl, Hlen3, Hlen2. unfold PKT_INIT_LEN. lia. }
  assert (Hmss : len buf3 <= LODP_MSS) by (rewrite Hlen3, Hlen2; exact Hfit).
  assert (Hrdat : rd PKT_HDR_LEN (length (mk ++ bk)) (plaintext buf3) = Some (mk ++ bk)).
  { rewrite Hdl. rewrite Hbkl in Hrd3. exact Hrd3. }
  destruct (sealed_packet_arrives_intro (tx_key s) buf3 w0 buf' we PKT_INIT
              PKT_HDR_INIT_LEN (mk ++ bk) d rb wr
              Hok Hty8 Hhl H16 Hlen' Hmss Hrh3 Hrdat Henc Hd' Hik Hkey Hpt Hlrb Hct)
    as (rb' & hdr & Hdec & Hparse & Hty & Hfl & Hhlen & Hle & Hpay).
  pose proof (incoming_dispatch_sane None false rb' addr wr hdr Hparse Hle Hfl) as Hdisp.
  rewrite length_app in Hpay. apply rd_split in Hpay as [Hp1 Hp2].
  rewrite Hmkl in Hp1. rewrite Hmkl, Hbkl in Hp2. cbn [Nat.add] in Hp2.
  exists hdr, mk, bk. split_and!; auto.
  - unfold peer_intro_keys. destruct (decide _); [|contradiction].
    rewrite Hp1, Hp2. reflexivity.
  - unfold lodp_on_incoming_pkt. rewrite (bind_step _ _ _ _ _ Hdec), Hdisp.
    rewrite (bind_step get_ep _ wr (w_ep wr) wr eq_refl).
    rewrite (bind_step _ _ _ _ _ (assert_true _ wr Hik)).
    rewrite Hty, Z.eqb_refl. reflexivity.
Qed.

(** [generate_cookie] for an INIT or a HANDSHAKE that holds the two keys and
    comes from an IPv4 or IPv6 address: the MAC, under the cookie key the
    endpoint has when the function returns, of the address and the keys;
    when no rotation is due the state is as before. *)
Lemma generate_cookie_computes dst prev pkt addr a w r dst' w' :
  hdr_type pkt = PKT_INIT \/ hdr_type pkt = PKT_HANDSHAKE ->
  addr_blob addr = Some (Some a) ->
  4 + LODP_MAC_KEY_LEN + LODP_BULK_KEY_LEN <= hdr_length pkt ->
  generate_cookie dst prev pkt addr w = Done (r, dst') w' ->
  exists keys digest d1,
    rd 0 (LODP_MAC_KEY_LEN + LODP_BULK_KEY_LEN) (payload pkt) = Some keys
    /\ lodp_mac (cookie_key (w_ep w')) (a ++ keys) COOKIE_LEN = (r, digest)
    /\ wr 0 digest dst = Some d1
    /\ lodp_memwipe SIZEOF_POINTER d1 = Some dst'
    /\ (w_now w <= cookie_rotate_time (w_ep w) + COOKIE_ROTATE_INTERVAL -> w' = w).
Proof.
  intros Hty Ha Hlen H. unfold generate_cookie in H.
  apply bind_Done in H as (now & ? & Hnow & H). injection Hnow as <- <-.
  apply bind_Done in H as (ep & ? & Hep & H). injection Hep as <- <-.
  apply bind_Done in H as (u & w0 & Hrot & H).
  assert (Hw0 : w_now w <= cookie_rotate_time (w_ep w) + COOKIE_ROTATE_INTERVAL -> w0 = w).
  { intros Hle. destruct (Z.gtb_spec (w_now w)
                            (cookie_rotate_time (w_ep w) + COOKIE_ROTATE_INTERVAL));
      [lia|]. injection Hrot as ?. auto. }
  clear Hrot.
  assert (Hb : negb (hdr_type pkt =? PKT_INIT) && negb (hdr_type pkt =? PKT_HANDSHAKE)
               = false).
  { destruct Hty as [-> | ->]; reflexivity. }
  rewrite Hb in H.
  rewrite Ha in H. cbn [mem] in H. rewrite (bind_step _ _ _ _ _ eq_refl) in H.
  destruct (Z.ltb_spec (hdr_length pkt) (4 + LODP_MAC_KEY_LEN + LODP_BULK_KEY_LEN));
    [lia|].
  step_mem H as keys Hk.
  apply bind_Done in H as (ep' & ? & Hep & H). injection Hep as <- <-.
  destruct (lodp_mac _ _ _) as [r0 digest] eqn:Hmac.
  step_mem H as d1 Hd1. step_mem H as d2 Hd2.
  injection H as ? ? ?; subst.
  exists keys, digest, d1. auto.
Qed.

(** X24.  The INIT ACK that [on_init_pkt] hands to [sendto_fn], for an
    INIT from an IPv4 or IPv6 address, goes to that address and reaches
    [on_init_ack_pkt] at an initiator whose [rx_key] holds the intro keys of
    the INIT.  Its payload is the cookie of this INIT: the MAC, under the
    cookie key that the responder's endpoint has after the call, of the
    address and the intro keys of the INIT, with its first SIZEOF_POINTER
    bytes zero; when no rotation is due the endpoint, and so the key, is the
    one before the call. *)
Theorem init_ack_pkt_arrival init_pkt addr a wr r wr' d to key sid s rb from wi :
  crypto_ok crypto ->
  (SIZEOF_POINTER <= COOKIE_LEN)%nat ->
  PKT_TLV_LEN + COOKIE_LEN < 65536 ->
  PKT_INIT_ACK_LEN + COOKIE_LEN <= LODP_MSS ->
  (* the responder answers an INIT that came from an IPv4 or IPv6 address *)
  hdr_type init_pkt = PKT_INIT ->
  addr_blob addr = Some (Some a) ->
  on_init_pkt init_pkt addr wr = Done r wr' ->
  w_trace wr' = EvSendto d to :: w_trace wr ->
  peer_intro_keys init_pkt = Some key ->
  (* the initiator's rx_key holds the intro keys it sent *)
  w_sessions wi !! sid = Some (Some s) ->
  rx_key s = key ->
  length (plaintext rb) = LODP_MSS ->
  len rb = length d ->
  rd 0 (length d) (ciphertext rb) = Some d ->
  exists hdr keys rc digest,
    (* the cookie of this INIT under the responder's cookie key *)
    rd 0 (LODP_MAC_KEY_LEN + LODP_BULK_KEY_LEN) (payload init_pkt) = Some keys
    /\ lodp_mac (cookie_key (w_ep wr')) (a ++ keys) COOKIE_LEN = (rc, digest)
    /\ (w_now wr <= cookie_rotate_time (w_ep wr) + COOKIE_ROTATE_INTERVAL ->
        w_ep wr' = w_ep wr)
    (* is what the initiator's handler is given *)
    /\ hdr_length hdr = PKT_HDR_INIT_ACK_LEN + COOKIE_LEN
    /\ rd 0 COOKIE_LEN (payload hdr)
         = Some (zeros SIZEOF_POINTER ++ drop SIZEOF_POINTER digest)
    /\ lodp_on_incoming_pkt (Some sid) rb from wi = on_init_ack_pkt sid hdr wi
    /\ to = addr.
Proof.
  intros Hok Hptr H16 Hfit Htyi Ha Hinit Htr Hkey Hs Hrx Hpt Hlrb Hct.
  assert (Hkl : LODP_MAC_KEY_LEN = LODP_BULK_KEY_LEN).
  { unfold peer_intro_keys in Hkey. destruct (decide _); [assumption|discriminate]. }
  unfold on_init_pkt in Hinit.
  destruct (Z.eqb_spec PKT_HDR_INIT_LEN (hdr_length init_pkt)) as [Hil|];
    cbn [negb] in Hinit.
  2:{ injection Hinit as ? ?; subst. exfalso.
      apply (f_equal (@length _)) in Htr. cbn in Htr. lia. }
  step_mem Hinit as key' Hkey'. assert (key' = key) by congruence. subst key'.
  apply bind_Done in Hinit as (ob & w0 & Hal & Hinit).
  apply lodp_buf_alloc_spec in Hal as (Htr0 & Hep0 & _ & Hnow0).
  destruct ob as [b|].
  2:{ injection Hinit as ? ?; subst. exfalso.
      rewrite Htr0 in Htr. apply (f_equal (@length _)) in Htr. cbn in Htr. lia. }
  step Hinit. step_mem Hinit as buf1 Hput.
  apply bind_Done in Hinit as ([rc region] & wc & Hgen & Hinit).
  pose proof (generate_cookie_inv _ _ _ _ _ _ _ _ Hgen) as [(Htrc & _) _].
  assert (Hlen4 : 4 + LODP_MAC_KEY_LEN + LODP_BULK_KEY_LEN <= hdr_length init_pkt).
  { rewrite <- Hil. unfold PKT_HDR_INIT_LEN, PKT_INIT_LEN, PKT_HDR_LEN. lia. }
  destruct (generate_cookie_computes _ _ _ _ a _ _ _ _ (or_introl Htyi) Ha Hlen4 Hgen)
    as (keys & digest & d1 & Hkeys & Hmac & Hd1 & Hd2 & Hsame).
  pose proof (mac_length _ Hok (cookie_key (w_ep wc)) (a ++ keys) COOKIE_LEN) as Hdgl.
  rewrite Hmac in Hdgl. cbn [snd] in Hdgl.
  pose proof (wiped_cookie _ _ _ _ Hdgl Hptr Hd1 Hd2) as Hreg.
  step_mem Hinit as buf Hwr.
  change PKT_INIT_ACK_LEN with PKT_HDR_LEN in Hwr.
  destruct (built_packet _ _ _ _ _ _ Hput Hwr) as (Hlen & Hrh & Hrd).
  cbn [set_len len] in Hlen.
  apply bind_Done in Hinit as ([re buf'] & we & Henc & Hinit).
  pose proof (encrypt_then_mac_same_host _ _ _ _ _ Henc) as (Htre & Hepe & _).
  destruct (Z.eqb_spec re 0) as [->|Hre]; cbn [negb] in Hinit.
  2:{ apply bind_Done in Hinit as (? & wf & Hf & Hinit). injection Hf as ?; subst wf.
      injection Hinit as ? ?; subst. exfalso.
      rewrite Htre, Htrc, Htr0 in Htr. apply (f_equal (@length _)) in Htr.
      cbn in Htr. lia. }
  apply bind_Done in Hinit as (r' & wsd & Hst' & Hinit).
  apply bind_Done in Hinit as (? & wf & Hf & Hinit). injection Hf as ?; subst wf.
  injection Hinit as ? ?; subst r' wsd.
  apply sendto_spec in Hst' as (d' & Hd' & Htrs & _ & Heps & _).
  rewrite Htrs, Htre, Htrc, Htr0 in Htr. injection Htr as ? ?; subst d' to.
  assert (E : PKT_INIT_ACK_LEN = PKT_HDR_LEN /\ PKT_HDR_LEN = (PKT_TAG_LEN + 4)%nat
              /\ PKT_HDR_INIT_ACK_LEN = 4%nat /\ PKT_TLV_LEN = 4%nat).
  { unfold PKT_HDR_INIT_ACK_LEN, PKT_INIT_ACK_LEN, PKT_HDR_LEN, PKT_TLV_LEN. lia. }
  destruct E as (E1 & E2 & E3 & E4).
  pose proof (encrypt_then_mac_fits _ _ _ _ _ Henc ltac:(lia)) as Hfits.
  set (data := take COOKIE_LEN region).
  assert (Hdata : data = zeros SIZEOF_POINTER ++ drop SIZEOF_POINTER digest).
  { apply rd_Some in Hreg as (_ & -> & _). rewrite drop_0. reflexivity. }
  assert (Hdl : length data = COOKIE_LEN).
  { apply rd_Some in Hreg as (_ & _ & Hl). rewrite Hdata. exact Hl. }
  assert (Hty8 : 0 <= PKT_INIT_ACK < 256) by (unfold PKT_INIT_ACK; lia).
  assert (Hhl : PKT_HDR_INIT_ACK_LEN + COOKIE_LEN = PKT_TLV_LEN + length data) by lia.
  assert (Hh16 : PKT_HDR_INIT_ACK_LEN + COOKIE_LEN < 65536) by lia.
  assert (Hlen' : len buf = PKT_HDR_LEN + length data) by lia.
  assert (Hmss : len buf <= LODP_MSS) by lia.
  assert (Hregl : (COOKIE_LEN <= length region)%nat).
  { apply rd_Some in Hreg as (Hb & _). lia. }
  assert (Hrdat : rd PKT_HDR_LEN (length data) (plaintext buf) = Some data).
  { rewrite Hdl. apply (rd_prefix _ _ COOKIE_LEN _ _ Hrd). exact Hregl. }
  destruct (sealed_packet_arrives key buf wc buf' we PKT_INIT_ACK
              (PKT_HDR_INIT_ACK_LEN + COOKIE_LEN) data d sid s rb wi
              Hok Hty8 Hhl Hh16 Hlen' Hmss Hrh Hrdat Henc Hd' Hs Hrx Hpt Hlrb Hct)
    as (rb' & hdr & Hdec & Hparse & Hty & Hfl & Hhlen & Hle & Hpay).
  pose proof (incoming_dispatch_sane (Some sid) true rb' from wi hdr Hparse Hle Hfl)
    as Hdisp.
  exists hdr, keys, rc, digest.
  split; [exact Hkeys|]. split.
  { rewrite Heps, Hepe. exact Hmac. }
  split.
  { intros Hnr. rewrite Heps, Hepe, <- Hep0. f_equal. apply Hsame.
    rewrite Hnow0, Hep0. exact Hnr. }
  split; [exact Hhlen|]. split.
  { rewrite Hdl, Hdata in Hpay. exact Hpay. }
  split; [|reflexivity].
  unfold lodp_on_incoming_pkt. rewrite (bind_step _ _ _ _ _ Hdec), Hdisp.
  cbn [negb]. rewrite Hty.
  change (PKT_INIT_ACK =? PKT_DATA) with false.
  rewrite Z.eqb_refl. reflexivity.
Qed.

(** X19.  [on_init_ack_pkt] on an initiator in INIT, when the allocation
    succeeds: the session keeps the [length - PKT_HDR_INIT_ACK_LEN] bytes
    that follow the header as its cookie, with that length, and is in
    HANDSHAKE when [lodp_handshake] is called, whose status is the one
    returned. *)
Theorem on_init_ack_pkt_saves_cookie sid s pkt rest w r w' :
  w_sessions w !! sid = Some (Some s) ->
  is_initiator s = true ->
  state s = STATE_INIT ->
  PKT_HDR_INIT_ACK_LEN < hdr_length pkt ->
  w_heap w = true :: rest ->
  on_init_ack_pkt sid pkt w = Done r w' ->
  exists block w1,
    rd 0 (Z.to_nat (hdr_length pkt - PKT_HDR_INIT_ACK_LEN)) (payload pkt) = Some block
    /\ w_sessions w1
         = <[sid := Some (set_state STATE_HANDSHAKE
                            (set_cookie (Some block)
                               (hdr_length pkt - PKT_HDR_INIT_ACK_LEN) s))]>
             (w_sessions w)
    /\ w_trace w1 = w_trace w
    /\ lodp_handshake sid w1 = Done r w'.
Proof.
  intros Hs Hi Hst Hlen Hheap H. unfold on_init_ack_pkt in H.
  step H. assert (a = s) by congruence. subst a. step H.
  rewrite Hi, Hst, bool_decide_eq_true_2 in H by reflexivity. cbn [negb orb] in H.
  destruct (Z.eqb_spec (hdr_length pkt - PKT_HDR_INIT_ACK_LEN) 0); [lia|].
  apply bind_Done in H as (ok & w0 & Hal & H).
  unfold heap_alloc in Hal. rewrite Hheap in Hal. injection Hal as ? ?; subst ok w0.
  cbn [negb] in H.
  destruct (Z.ltb_spec (hdr_length pkt - PKT_HDR_INIT_ACK_LEN) 0); [lia|].
  step_mem H as block Hblock.
  apply bind_Done in H as (? & w1 & Hp & H). injection Hp as ?; subst w1.
  eexists block, _. split; [exact Hblock|]. split; [|split; [|exact H]]; reflexivity.
Qed.

(** X25.  The HANDSHAKE that [lodp_send_handshake_pkt] hands to [sendto_fn]
    reaches [on_handshake_pkt] at an endpoint whose intro keys are the
    session's [tx_key]; it carries the session's [rx_key] as intro keys, its
    ephemeral public key, and the [cookie_len] bytes of the cookie the
    session holds. *)
Theorem handshake_pkt_arrival sid s ws r ws' d to rb addr wr :
  crypto_ok crypto ->
  LODP_MAC_KEY_LEN = LODP_BULK_KEY_LEN ->
  PKT_HDR_HANDSHAKE_LEN + cookie_len s < 65536 ->
  PKT_HANDSHAKE_LEN + cookie_len s <= LODP_MSS ->
  (* the initiator hands a HANDSHAKE to sendto_fn *)
  w_sessions ws !! sid = Some (Some s) ->
  lodp_send_handshake_pkt sid ws = Done r ws' ->
  w_trace ws' = EvSendto d to :: w_trace ws ->
  (* the responder's intro keys are the keys the initiator sends under *)
  has_intro_keys (w_ep wr) = true ->
  intro_sym_keys (w_ep wr) = tx_key s ->
  length (plaintext rb) = LODP_MSS ->
  len rb = length d ->
  rd 0 (length d) (ciphertext rb) = Some d ->
  exists hdr mk bk X block echoed,
    rd 0 LODP_MAC_KEY_LEN (mac_key (rx_key s)) = Some mk
    /\ rd 0 LODP_MAC_KEY_LEN (bulk_key (rx_key s)) = Some bk
    /\ rd 0 LODP_ECDH_PUBLIC_KEY_LEN (public_key (session_ecdh_keypair s)) = Some X
    /\ cookie s = Some block
    /\ rd 0 (Z.to_nat (cookie_len s)) block = Some echoed
    /\ hdr_length hdr = PKT_HDR_HANDSHAKE_LEN + cookie_len s
    /\ peer_intro_keys hdr = Some (mk_symmetric_key mk bk)
    /\ rd (LODP_MAC_KEY_LEN + LODP_MAC_KEY_LEN) LODP_ECDH_PUBLIC_KEY_LEN (payload hdr)
         = Some X
    /\ rd (LODP_MAC_KEY_LEN + LODP_MAC_KEY_LEN + LODP_ECDH_PUBLIC_KEY_LEN)
          (Z.to_nat (cookie_len s)) (payload hdr) = Some echoed
    /\ lodp_on_incoming_pkt None rb addr wr = on_handshake_pkt None hdr addr wr
    /\ to = peer_addr s.
Proof.
  intros Hok Hkk H16 Hfit Hs Hsend Htr Hik Hkey Hpt Hlrb Hct.
  unfold lodp_send_handshake_pkt in Hsend.
  step Hsend. assert (a = s) by congruence. subst a. step Hsend. step Hsend.
  apply bind_Done in Hsend as (ob & w0 & Hal & Hsend).
  apply lodp_buf_alloc_spec in Hal as (Htr0 & Hep0 & _).
  destruct ob as [b|].
  2:{ injection Hsend as ? ?; subst. exfalso.
      rewrite Htr0 in Htr. apply (f_equal (@length _)) in Htr. cbn in Htr. lia. }
  step Hsend.
  step_mem Hsend as buf1 Hput. step_mem Hsend as mk Hmk. step_mem Hsend as buf2 Hw2.
  step_mem Hsend as bk Hbk. step_mem Hsend as buf3 Hw3.
  step_mem Hsend as X HX. step_mem Hsend as buf4 Hw4.
  step_mem Hsend as block Hblock. step_mem Hsend as echoed Hech.
  step_mem Hsend as buf5 Hw5.
  destruct (Z.ltb_spec (cookie_len s) 0) as [|Hcl]; [discriminate|].
  destruct (built_packet _ _ _ _ _ _ Hput Hw2) as (Hlen2 & Hrh2 & Hrd2).
  cbn [set_len len] in Hlen2.
  pose proof (rd_Some _ _ _ _ Hmk) as (_ & _ & Hmkl).
  pose proof (rd_Some _ _ _ _ Hbk) as (_ & _ & Hbkl).
  pose proof (rd_Some _ _ _ _ HX) as (_ & _ & HXl).
  pose proof (rd_Some _ _ _ _ Hech) as (_ & _ & Hel).
  rewrite Hmkl in Hrd2.
  destruct (write_pt_append _ _ _ _ _ Hrd2 Hw3) as (Hrd3 & Hlen3 & Hrh3).
  rewrite Hbkl in Hrd3.
  replace (PKT_HDR_LEN + LODP_MAC_KEY_LEN + LODP_MAC_KEY_LEN)%nat
    with (PKT_HDR_LEN + (LODP_MAC_KEY_LEN + LODP_MAC_KEY_LEN))%nat in Hw4 by lia.
  destruct (write_pt_append _ _ _ _ _ Hrd3 Hw4) as (Hrd4 & Hlen4 & Hrh4).
  rewrite HXl in Hrd4.
  replace (PKT_HANDSHAKE_LEN : nat)
    with (PKT_HDR_LEN + (LODP_MAC_KEY_LEN + LODP_MAC_KEY_LEN + LODP_ECDH_PUBLIC_KEY_LEN))%nat
    in Hw5 by (unfold PKT_HANDSHAKE_LEN; lia).
  destruct (write_pt_append _ _ _ _ _ Hrd4 Hw5) as (Hrd5 & Hlen5 & Hrh5).
  rewrite Hrh4, Hrh3, Hrh2 in Hrh5.
  apply bind_Done in Hsend as ([re buf'] & we & Henc & Hsend).
  pose proof (encrypt_then_mac_same_host _ _ _ _ _ Henc) as (Htre & Hepe & _).
  destruct (Z.eqb_spec re 0) as [->|Hre]; cbn [negb] in Hsend.
  2:{ apply bind_Done in Hsend as (? & wf & Hf & Hsend). injection Hf as ?; subst wf.
      injection Hsend as ? ?; subst. exfalso.
      rewrite Htre, Htr0 in Htr. apply (f_equal (@length _)) in Htr. cbn in Htr. lia. }
  apply bind_Done in Hsend as (r' & wsd & Hst' & Hsend).
  apply bind_Done in Hsend as (? & wf & Hf & Hsend). injection Hf as ?; subst wf.
  injection Hsend as ? ?; subst wsd.
  apply sendto_spec in Hst' as (d' & Hd' & Htrs & Hr & _).
  rewrite Htrs, Htre, Htr0 in Htr. injection Htr as ? ?; subst d' to.
  set (data := ((mk ++ bk) ++ X) ++ echoed) in *.
  assert (Hdl : length data
                = (LODP_MAC_KEY_LEN + LODP_MAC_KEY_LEN + LODP_ECDH_PUBLIC_KEY_LEN
                   + Z.to_nat (cookie_len s))%nat)
    by (subst data; rewrite !length_app; lia).
  assert (Hty8 : 0 <= PKT_HANDSHAKE < 256) by (unfold PKT_HANDSHAKE; lia).
  assert (Hhl : PKT_HDR_HANDSHAKE_LEN + cookie_len s = PKT_TLV_LEN + length data).
  { rewrite Hdl. unfold PKT_HDR_HANDSHAKE_LEN, PKT_HANDSHAKE_LEN, PKT_HDR_LEN, PKT_TLV_LEN.
    lia. }
  assert (Hlen' : len buf5 = PKT_HDR_LEN + length data).
  { rewrite Hdl, Hlen5, Hlen4, Hlen3, Hlen2. unfold PKT_HANDSHAKE_LEN. lia. }
  assert (Hmss : len buf5 <= LODP_MSS) by (rewrite Hlen5, Hlen4, Hlen3, Hlen2; exact Hfit).
  assert (Hrdat : rd PKT_HDR_LEN (length data) (plaintext buf5) = Some data).
  { rewrite Hdl, <- Hel. exact Hrd5. }
  destruct (sealed_packet_arrives_intro (tx_key s) buf5 w0 buf' we PKT_HANDSHAKE
              (PKT_HDR_HANDSHAKE_LEN + cookie_len s) data d rb wr
              Hok Hty8 Hhl H16 Hlen' Hmss Hrh5 Hrdat Henc Hd' Hik Hkey Hpt Hlrb Hct)
    as (rb' & hdr & Hdec & Hparse & Hty & Hfl & Hhlen & Hle & Hpay).
  pose proof (incoming_dispatch_sane None false rb' addr wr hdr Hparse Hle Hfl) as Hdisp.
  subst data. rewrite length_app in Hpay. apply rd_split in Hpay as [Hp123 Hp4].
  rewrite length_app in Hp123. apply rd_split in Hp123 as [Hp12 Hp3].
  rewrite length_app in Hp12. apply rd_split in Hp12 as [Hp1 Hp2].
  rewrite !length_app in Hp4. rewrite length_app in Hp3.
  rewrite Hmkl, Hbkl, HXl, Hel in Hp4. rewrite Hmkl, Hbkl, HXl in Hp3.
  rewrite Hmkl, Hbkl in Hp2. rewrite Hmkl in Hp1.
  cbn [Nat.add] in Hp2, Hp3, Hp4.
  exists hdr, mk, bk, X, block, echoed. split_and!; auto.
  - unfold peer_intro_keys. destruct (decide _); [|contradiction].
    rewrite Hp1, Hp2. reflexivity.
  - unfold lodp_on_incoming_pkt. rewrite (bind_step _ _ _ _ _ Hdec), Hdisp.
    rewrite (bind_step get_ep _ wr (w_ep wr) wr eq_refl).
    rewrite (bind_step _ _ _ _ _ (assert_true _ wr Hik)).
    rewrite Hty. change (PKT_HANDSHAKE =? PKT_INIT) with false.
    rewrite Z.eqb_refl. reflexivity.
Qed.

(** X21.  A HEARTBEAT that [lodp_send_heartbeat_pkt] hands to [sendto_fn]
    reaches [on_heartbeat_pkt] at a receiver whose session has the sender's
    [tx_key] as its [rx_key], as a packet of length PKT_HDR_HEARTBEAT_LEN
    plus the payload, that carries the payload. *)
Theorem heartbeat_pkt_arrival sid_s s data ws r ws' d to sid_r s_r rb addr wr :
  crypto_ok crypto ->
  PKT_TLV_LEN + length data < 65536 ->
  w_sessions ws !! sid_s = Some (Some s) ->
  lodp_send_heartbeat_pkt sid_s data ws = Done r ws' ->
  w_trace ws' = EvSendto d to :: w_trace ws ->
  w_sessions wr !! sid_r = Some (Some s_r) ->
  rx_key s_r = tx_key s ->
  length (plaintext rb) = LODP_MSS ->
  len rb = length d ->
  rd 0 (length d) (ciphertext rb) = Some d ->
  exists hdr,
    hdr_type hdr = PKT_HEARTBEAT
    /\ hdr_length hdr = PKT_HDR_HEARTBEAT_LEN + length data
    /\ rd 0 (length data) (payload hdr) = Some data
    /\ lodp_on_incoming_pkt (Some sid_r) rb addr wr = on_heartbeat_pkt sid_r hdr wr
    /\ to = peer_addr s.
Proof.
  intros Hok H16 Hs Hsend Htr Hsr Hkey Hpt Hlrb Hct.
  unfold lodp_send_heartbeat_pkt in Hsend.
  step Hsend. assert (a = s) by congruence. subst a. step Hsend.
  destruct (Z.gtb_spec (PKT_HEARTBEAT_LEN + length data) LODP_MSS) as [|Hsz].
  { injection Hsend as ? ?; subst. no_datagram Htr. }
  apply bind_Done in Hsend as (ob & w0 & Hal & Hsend).
  apply lodp_buf_alloc_spec in Hal as (Htr0 & Hep0 & _).
  destruct ob as [b|].
  2:{ injection Hsend as ? ?; subst. rewrite Htr0 in Htr. no_datagram Htr. }
  step Hsend.
  step_mem Hsend as buf1 Hput. step_mem Hsend as buf Hwr.
  destruct (built_packet _ _ _ _ _ _ Hput Hwr) as (Hlen & Hrh & Hrdat).
  cbn [set_len len] in Hlen.
  apply bind_Done in Hsend as ([re buf'] & we & Henc & Hsend).
  pose proof (encrypt_then_mac_same_host _ _ _ _ _ Henc) as (Htre & Hepe & _).
  destruct (Z.eqb_spec re 0) as [->|Hre]; cbn [negb] in Hsend.
  2:{ apply bind_Done in Hsend as (? & wf & Hf & Hsend). injection Hf as ?; subst wf.
      injection Hsend as ? ?; subst. rewrite Htre, Htr0 in Htr. no_datagram Htr. }
  apply bind_Done in Hsend as (r' & wsd & Hst' & Hsend).
  apply bind_Done in Hsend as (? & wf & Hf & Hsend). injection Hf as ?; subst wf.
  injection Hsend as ? ?; subst r' wsd.
  apply sendto_spec in Hst' as (d' & Hd' & Htrs & Hr & _).
  rewrite Htrs, Htre, Htr0 in Htr. injection Htr as ? ?; subst d' to.
  assert (E : PKT_HDR_HEARTBEAT_LEN = 4%nat /\ PKT_HEARTBEAT_LEN = PKT_HDR_LEN
              /\ PKT_TLV_LEN = 4%nat).
  { unfold PKT_HDR_HEARTBEAT_LEN, PKT_HEARTBEAT_LEN, PKT_HDR_LEN, PKT_TLV_LEN. lia. }
  destruct E as (E1 & E2 & E3).
  assert (Hty8 : 0 <= PKT_HEARTBEAT < 256) by (unfold PKT_HEARTBEAT; lia).
  assert (Hhl : PKT_HDR_HEARTBEAT_LEN + length data = PKT_TLV_LEN + length data) by lia.
  assert (Hh16 : PKT_HDR_HEARTBEAT_LEN + length data < 65536) by lia.
  assert (Hlen' : len buf = PKT_HDR_LEN + length data) by lia.
  assert (Hmss : len buf <= LODP_MSS) by lia.
  destruct (sealed_packet_arrives (tx_key s) buf w0 buf' we PKT_HEARTBEAT
              (PKT_HDR_HEARTBEAT_LEN + length data) data d sid_r s_r rb wr
              Hok Hty8 Hhl Hh16 Hlen' Hmss Hrh Hrdat Henc Hd' Hsr Hkey Hpt Hlrb Hct)
    as (rb' & hdr & Hdec & Hparse & Hty & Hfl & Hhlen & Hle & Hpay).
  pose proof (incoming_dispatch_sane (Some sid_r) true rb' addr wr hdr Hparse Hle Hfl)
    as Hdisp.
  exists hdr. split_and!; auto.
  unfold lodp_on_incoming_pkt. rewrite (bind_step _ _ _ _ _ Hdec), Hdisp.
  cbn [negb]. rewrite Hty.
  change (PKT_HEARTBEAT =? PKT_DATA) with false.
  change (PKT_HEARTBEAT =? PKT_INIT_ACK) with false.
  change (PKT_HEARTBEAT =? PKT_HANDSHAKE_ACK) with false.
  rewrite Z.eqb_refl. reflexivity.
Qed.

Lemma lodp_session_init_trace addr pk ini w x w' :
  lodp_session_init addr pk ini w = Done x w' -> w_trace w' = w_trace w.
Proof.
  unfold lodp_session_init. intros H.
  apply bind_Done in H as (ok & w0 & Hal & H).
  assert (w_trace w0 = w_trace w) as Ht.
  { unfold heap_alloc in Hal. destruct (w_heap w); injection Hal as ? ?; subst; reflexivity. }
  destruct ok; [|injection H as ? ?; subst; exact Ht].
  apply bind_Done in H as (seed & w1 & Hr & H). injection Hr as ? ?; subst seed w1.
  apply bind_Done in H as (wg & w2 & Hg & H). injection Hg as ? ?; subst wg w2.
  apply bind_Done in H as (? & w3 & Hm & H). injection Hm as ?; subst w3.
  injection H as ? ?; subst. exact Ht.
Qed.

(** The tail of [on_handshake_pkt] from the label [do_xmit] on, when it
    hands the HANDSHAKE ACK to [sendto_fn]. *)
Lemma do_xmit_inv key buf0 buf1 addr sid w r w' t :
  put_hdr PKT_HANDSHAKE_ACK PKT_HDR_HANDSHAKE_ACK_LEN buf0 = Some buf1 ->
  (let* s := get_session sid in
   let* Y := mem (rd 0 LODP_ECDH_PUBLIC_KEY_LEN (public_key (session_ecdh_keypair s))) in
   let* buf := mem (write_pt PKT_HDR_LEN Y buf1) in
   let* digest := mem (rd 0 LODP_MAC_DIGEST_LEN (session_secret_verifier s)) in
   let* buf := mem (write_pt (PKT_HDR_LEN + LODP_ECDH_PUBLIC_KEY_LEN) digest buf) in
   let* '(r, buf) := encrypt_then_mac key buf in
   if negb (r =? 0) then ret r
   else
     let* r := sendto buf addr in
     let* _ := emit (EvAccept sid addr) in
     let* _ := lodp_buf_free (Some buf) in
     ret r) w = Done r w' ->
  w_trace w' = t ->
  length t = S (S (length (w_trace w))) ->
  exists s Y digest buf buf' we d,
    w_sessions w !! sid = Some (Some s)
    /\ rd 0 LODP_ECDH_PUBLIC_KEY_LEN (public_key (session_ecdh_keypair s)) = Some Y
    /\ rd 0 LODP_MAC_DIGEST_LEN (session_secret_verifier s) = Some digest
    /\ len buf = len buf0
    /\ rd PKT_TAG_LEN 4 (plaintext buf)
         = Some ([byte_of_Z PKT_HANDSHAKE_ACK; x00] ++ htons PKT_HDR_HANDSHAKE_ACK_LEN)
    /\ rd PKT_HDR_LEN (LODP_ECDH_PUBLIC_KEY_LEN + LODP_MAC_DIGEST_LEN) (plaintext buf)
         = Some (Y ++ digest)
    /\ encrypt_then_mac key buf w = Done (0, buf') we
    /\ rd 0 (Z.to_nat (len buf')) (ciphertext buf') = Some d
    /\ t = EvAccept sid addr :: EvSendto d addr :: w_trace w.
Proof.
  intros Hput H Htr Hlt.
  step H. rename a into s. rename Hm into Hs.
  step_mem H as Y HY. step_mem H as buf2 Hw2.
  step_mem H as digest Hdg. step_mem H as buf3 Hw3.
  destruct (built_packet _ _ _ _ _ _ Hput Hw2) as (Hlen2 & Hrh2 & Hrd2).
  pose proof (rd_Some _ _ _ _ HY) as (_ & _ & HYl).
  pose proof (rd_Some _ _ _ _ Hdg) as (_ & _ & Hdl).
  rewrite HYl in Hrd2.
  destruct (write_pt_append _ _ _ _ _ Hrd2 Hw3) as (Hrd3 & Hlen3 & Hrh3).
  rewrite Hdl in Hrd3. rewrite Hrh2 in Hrh3.
  apply bind_Done in H as ([re buf'] & we & Henc & H).
  pose proof (encrypt_then_mac_same_host _ _ _ _ _ Henc) as (Htre & _).
  destruct (Z.eqb_spec re 0) as [->|Hre]; cbn [negb] in H.
  2:{ injection H as ? ?; subst. exfalso. rewrite Htre in Hlt. lia. }
  apply bind_Done in H as (r' & wsd & Hst' & H).
  apply sendto_spec in Hst' as (d & Hd & Htrs & _).
  apply bind_Done in H as (? & wf & He & H). injection He as ?; subst wf.
  apply bind_Done in H as (? & wf & Hf & H). injection Hf as ?; subst wf.
  injection H as ? ?; subst r' w'. cbn in Htr.
  exists s, Y, digest, buf3, buf', we, d.
  split_and!; auto; congruence.
Qed.

(** X26.  The HANDSHAKE ACK that [on_handshake_pkt] hands to [sendto_fn], for a
    new session or again for one that has seen no DATA, goes to the address
    of the HANDSHAKE and reaches [on_handshake_ack_pkt] at an initiator whose
    [rx_key] holds the intro keys of the HANDSHAKE; it carries the public key
    and the verifier of the responder's session. *)
Theorem handshake_ack_pkt_arrival session hs_pkt addr wr r wr' sid_r d to key
    sid s rb from wi :
  crypto_ok crypto ->
  PKT_HDR_HANDSHAKE_ACK_LEN < 65536 ->
  PKT_HANDSHAKE_ACK_LEN <= LODP_MSS ->
  (* the responder answers a HANDSHAKE *)
  on_handshake_pkt session hs_pkt addr wr = Done r wr' ->
  w_trace wr' = EvAccept sid_r addr :: EvSendto d to :: w_trace wr ->
  peer_intro_keys hs_pkt = Some key ->
  (* the initiator's rx_key holds the intro keys it sent *)
  w_sessions wi !! sid = Some (Some s) ->
  rx_key s = key ->
  length (plaintext rb) = LODP_MSS ->
  len rb = length d ->
  rd 0 (length d) (ciphertext rb) = Some d ->
  exists hdr wx s_r Y digest,
    w_sessions wx !! sid_r = Some (Some s_r)
    /\ w_sessions wr' = w_sessions wx
    /\ rd 0 LODP_ECDH_PUBLIC_KEY_LEN (public_key (session_ecdh_keypair s_r)) = Some Y
    /\ rd 0 LODP_MAC_DIGEST_LEN (session_secret_verifier s_r) = Some digest
    /\ hdr_length hdr = PKT_HDR_HANDSHAKE_ACK_LEN
    /\ rd 0 LODP_ECDH_PUBLIC_KEY_LEN (payload hdr) = Some Y
    /\ rd LODP_ECDH_PUBLIC_KEY_LEN LODP_MAC_DIGEST_LEN (payload hdr) = Some digest
    /\ lodp_on_incoming_pkt (Some sid) rb from wi = on_handshake_ack_pkt sid hdr wi
    /\ to = addr.
Proof.
  intros Hok H16 Hfit H Htr Hkey Hs Hrx Hpt Hlrb Hct.
  unfold on_handshake_pkt in H.
  apply bind_Done in H as (now & wa & Ht & H). injection Ht as ? ?; subst now wa.
  destruct (negb (_ =? hdr_length hs_pkt)); [injection H as ? ?; subst; no_datagram Htr|].
  apply bind_Done in H as ([r1 c1] & w1 & Hg1 & H).
  apply generate_cookie_same_host in Hg1 as [Htr1 _].
  destruct (negb (r1 =? 0)).
  { injection H as ? ?; subst. rewrite Htr1 in Htr. no_datagram Htr. }
  step_mem H as c Hc. step_mem H as echoed Hech.
  apply bind_Done in H as (refused & w2 & Hchk & H).
  assert (Htr2 : w_trace w2 = w_trace w1).
  { destruct (negb (lodp_memcmp c echoed =? 0)); [|injection Hchk as ? ?; subst; auto].
    apply bind_Done in Hchk as (ep & wa & Hep & Hchk). injection Hep as ? ?; subst ep wa.
    destruct (_ >? _); [injection Hchk as ? ?; subst; auto|].
    apply bind_Done in Hchk as ([r2 c2] & w3 & Hg2 & Hchk).
    apply generate_cookie_same_host in Hg2 as [Hg2 _].
    destruct (negb (r2 =? 0)); [injection Hchk as ? ?; subst; auto|].
    step_mem Hchk as c' Hc'.
    destruct (negb _); injection Hchk as ? ?; subst; auto. }
  clear Hchk.
  destruct refused as [r'|].
  { injection H as ? ?; subst. rewrite Htr2, Htr1 in Htr. no_datagram Htr. }
  step_mem H as key' Hkey'. assert (key' = key) by congruence. subst key'.
  step_mem H as pub_key Hpk.
  apply bind_Done in H as (ob & w3 & Hal & H).
  apply lodp_buf_alloc_spec in Hal as (Htr3 & _).
  destruct ob as [b|].
  2:{ injection H as ? ?; subst. rewrite Htr3, Htr2, Htr1 in Htr. no_datagram Htr. }
  step H. step_mem H as buf1 Hput.
  assert (Hx : exists sx wx,
    w_trace wx = w_trace wr
    /\ (let* s := get_session sx in
        let* Y := mem (rd 0 LODP_ECDH_PUBLIC_KEY_LEN
                         (public_key (session_ecdh_keypair s))) in
        let* buf := mem (write_pt PKT_HDR_LEN Y buf1) in
        let* digest := mem (rd 0 LODP_MAC_DIGEST_LEN (session_secret_verifier s)) in
        let* buf := mem (write_pt (PKT_HDR_LEN + LODP_ECDH_PUBLIC_KEY_LEN) digest buf) in
        let* '(r, buf) := encrypt_then_mac key buf in
        if negb (r =? 0) then ret r
        else
          let* r := sendto buf addr in
          let* _ := emit (EvAccept sx addr) in
          let* _ := lodp_buf_free (Some buf) in
          ret r) wx = Done r wr').
  { destruct session as [sx|].
    - step H. step H. step H.
      destruct (negb (seen_peer_data _)).
      + exists sx, w3. split; [congruence|exact H].
      + apply bind_Done in H as (? & wf & Hf & H). injection Hf as ?; subst wf.
        injection H as ? ?; subst. rewrite Htr3, Htr2, Htr1 in Htr. no_datagram Htr.
    - step_mem H as ack_pk Hack.
      apply bind_Done in H as (osid & w4 & Hinit & H).
      apply lodp_session_init_trace in Hinit.
      destruct osid as [sx|].
      2:{ apply bind_Done in H as (? & wf & Hf & H). injection Hf as ?; subst wf.
          injection H as ? ?; subst. rewrite Hinit, Htr3, Htr2, Htr1 in Htr.
          no_datagram Htr. }
      apply bind_Done in H as (rn & w5 & Hntor & H).
      apply ntor_handshake_effect in Hntor as (_ & sn & sn' & _ & _ & Hw5).
      assert (Htr5 : w_trace w5 = w_trace w4) by (subst w5; reflexivity).
      destruct (negb (rn =? 0)).
      + apply bind_Done in H as (? & w6 & Hd & H). injection Hd as ?; subst w6.
        apply bind_Done in H as (? & wf & Hf & H). injection Hf as ?; subst wf.
        injection H as ? ?; subst r wr'. cbn in Htr.
        rewrite Htr5, Hinit, Htr3, Htr2, Htr1 in Htr. no_datagram Htr.
      + exists sx, w5. split; [congruence|exact H]. }
  destruct Hx as (sx & wx & Htrx & Hxmit).
  destruct (do_xmit_inv key _ buf1 addr sx wx r wr' _ Hput Hxmit eq_refl)
    as (s_r & Y & digest & buf & buf' & we & d' & Hsr & HY & Hdg & Hlen & Hrh & Hrd
        & Henc & Hd' & Htr').
  { rewrite Htr, Htrx. reflexivity. }
  rewrite Htr, Htrx in Htr'. injection Htr' as ? ? ?; subst sid_r d' to.
  cbn [set_len len] in Hlen.
  pose proof (rd_Some _ _ _ _ HY) as (_ & _ & HYl).
  pose proof (rd_Some _ _ _ _ Hdg) as (_ & _ & Hdl).
  assert (Hdatl : length (Y ++ digest)
                  = (LODP_ECDH_PUBLIC_KEY_LEN + LODP_MAC_DIGEST_LEN)%nat)
    by (rewrite length_app; lia).
  assert (Hty8 : 0 <= PKT_HANDSHAKE_ACK < 256) by (unfold PKT_HANDSHAKE_ACK; lia).
  assert (Hhl : Z.of_nat PKT_HDR_HANDSHAKE_ACK_LEN = PKT_TLV_LEN + length (Y ++ digest)).
  { rewrite Hdatl.
    unfold PKT_HDR_HANDSHAKE_ACK_LEN, PKT_HANDSHAKE_ACK_LEN, PKT_HDR_LEN, PKT_TLV_LEN. lia. }
  assert (Hlen' : len buf = PKT_HDR_LEN + length (Y ++ digest)).
  { rewrite Hdatl, Hlen. unfold PKT_HANDSHAKE_ACK_LEN. lia. }
  assert (Hmss : len buf <= LODP_MSS) by (rewrite Hlen; exact Hfit).
  assert (Hrdat : rd PKT_HDR_LEN (length (Y ++ digest)) (plaintext buf)
                  = Some (Y ++ digest)) by (rewrite Hdatl; exact Hrd).
  destruct (sealed_packet_arrives key buf wx buf' we PKT_HANDSHAKE_ACK
              PKT_HDR_HANDSHAKE_ACK_LEN (Y ++ digest) d sid s rb wi
              Hok Hty8 Hhl H16 Hlen' Hmss Hrh Hrdat Henc Hd' Hs Hrx Hpt Hlrb Hct)
    as (rb' & hdr & Hdec & Hparse & Hty & Hfl & Hhlen & Hle & Hpay).
  pose proof (incoming_dispatch_sane (Some sid) true rb' from wi hdr Hparse Hle Hfl)
    as Hdisp.
  rewrite length_app in Hpay. apply rd_split in Hpay as [Hp1 Hp2].
  rewrite HYl in Hp1. rewrite HYl, Hdl in Hp2. cbn [Nat.add] in Hp2.
  assert (Hssx : w_sessions wr' = w_sessions wx).
  { clear - Hxmit.
    step Hxmit. step_mem Hxmit as Y HY. step_mem Hxmit as b2 Hw2.
    step_mem Hxmit as dg Hdg. step_mem Hxmit as b3 Hw3.
    apply bind_Done in Hxmit as ([re b'] & we & Henc & Hxmit).
    apply encrypt_then_mac_same_host in Henc as (_ & _ & Hss & _).
    destruct (negb _); [injection Hxmit as ? ?; subst; exact Hss|].
    apply bind_Done in Hxmit as (r' & wsd & Hst' & Hxmit).
    apply sendto_spec in Hst' as (d & _ & _ & _ & _ & Hss' & _).
    apply bind_Done in Hxmit as (? & wf & He & Hxmit). injection He as ?; subst wf.
    apply bind_Done in Hxmit as (? & wf & Hf & Hxmit). injection Hf as ?; subst wf.
    injection Hxmit as ? ?; subst. cbn. congruence. }
  exists hdr, wx, s_r, Y, digest. split_and!; auto.
  unfold lodp_on_incoming_pkt. rewrite (bind_step _ _ _ _ _ Hdec), Hdisp.
  cbn [negb]. rewrite Hty.
  change (PKT_HANDSHAKE_ACK =? PKT_DATA) with false.
  change (PKT_HANDSHAKE_ACK =? PKT_INIT_ACK) with false.
  rewrite Z.eqb_refl. reflexivity.
Qed.

(** What a responder has computed when [ntor_handshake] returns 0. *)
Lemma ntor_handshake_responder_inv sid X w w' s :
  LODP_ERR_BAD_HANDSHAKE <> 0 ->
  w_sessions w !! sid = Some (Some s) ->
  is_initiator s = false ->
  ntor_handshake sid X w = Done 0 w' ->
  exists s1 s2 Bb Xb Yb secret verify copied secret' vfy auth verifier' ka kb,
    rd 0 LODP_ECDH_SECRET_LEN (lodp_ecdh (private_key (session_ecdh_keypair s)) X)
      = Some s1
    /\ rd 0 LODP_ECDH_SECRET_LEN
         (lodp_ecdh (private_key (intro_ecdh_keypair (w_ep w))) X) = Some s2
    /\ rd 0 LODP_ECDH_PUBLIC_KEY_LEN (public_key (intro_ecdh_keypair (w_ep w))) = Some Bb
    /\ rd 0 LODP_ECDH_PUBLIC_KEY_LEN X = Some Xb
    /\ rd 0 LODP_ECDH_PUBLIC_KEY_LEN (public_key (session_ecdh_keypair s)) = Some Yb
    /\ lodp_mac ss_key (s1 ++ s2 ++ Bb ++ Xb ++ Yb ++ PROTOID) LODP_ECDH_SECRET_LEN
         = (0, secret)
    /\ lodp_mac verify_key (s1 ++ s2 ++ Bb ++ Xb ++ Yb ++ PROTOID) LODP_MAC_DIGEST_LEN
         = (0, verify)
    /\ rd 0 LODP_ECDH_SECRET_LEN secret = Some copied
    /\ wr 0 copied (session_secret s) = Some secret'
    /\ LODP_MAC_DIGEST_LEN = LODP_ECDH_SECRET_LEN
    /\ rd 0 LODP_MAC_DIGEST_LEN verify = Some vfy
    /\ lodp_mac auth_key (vfy ++ Bb ++ Xb ++ Yb ++ PROTOID ++ RESPONDER)
         (length (session_secret_verifier s)) = (0, auth)
    /\ wr 0 auth (session_secret_verifier s) = Some verifier'
    /\ lodp_derive_sessionkeys secret = (0, (ka, kb))
    /\ w_sessions w' !! sid
         = Some (Some (set_keys kb ka
                         (set_handshake_material (session_ecdh_keypair s)
                            secret' verifier' s))).
Proof.
  intros Hbh Hs Hini H. unfold ntor_handshake in H.
  assert (Hlt : (sid < length (w_sessions w))%nat) by (eapply lookup_lt_Some; eauto).
  step H. assert (a = s) by congruence. subst a. clear Hm.
  apply bind_Done in H as (ep & w0 & Hep & H). injection Hep as <- <-.
  rewrite Hini in H.
  apply bind_Done in H as ([s1 s2] & w1 & Hsec & H).
  destruct (negb _); [discriminate|].
  step_mem Hsec as s1' H1. step_mem Hsec as s2' H2.
  injection Hsec as ? ? ?; subst s1' s2' w1.
  step_mem H as Bb HB. step_mem H as Xb HX. step_mem H as Yb HY.
  destruct (lodp_mac ss_key _ LODP_ECDH_SECRET_LEN) as [r secret] eqn:Hmac1.
  destruct (Z.eqb_spec r 0) as [->|]; cbn [negb] in H; [|injection H; congruence].
  destruct (lodp_mac verify_key _ LODP_MAC_DIGEST_LEN) as [r verify] eqn:Hmac2.
  destruct (Z.eqb_spec r 0) as [->|]; cbn [negb] in H; [|injection H; congruence].
  step_mem H as copied Hc. step_mem H as secret' Hs'.
  step_mem H as vfy Hv.
  destruct (decide (LODP_MAC_DIGEST_LEN = LODP_ECDH_SECRET_LEN)) as [Hds|];
    [|discriminate].
  destruct (lodp_mac auth_key _ _) as [r auth] eqn:Hmac3.
  step_mem H as verifier' Hvf.
  apply bind_Done in H as (u & w2 & Hput1 & H). injection Hput1 as ?; subst w2.
  destruct (Z.eqb_spec r 0) as [->|]; cbn [negb] in H; [|injection H; congruence].
  destruct (lodp_derive_sessionkeys secret) as [r [ka kb]] eqn:Hder.
  apply bind_Done in H as (u' & w3 & Hput2 & H). injection Hput2 as ?; subst w3.
  destruct (Z.eqb_spec r 0) as [->|]; [|injection H; congruence].
  injection H as <-.
  exists s1, s2, Bb, Xb, Yb, secret, verify, copied, secret', vfy, auth, verifier', ka, kb.
  split_and!; auto.
  cbn. rewrite list_lookup_insert_eq by (rewrite length_insert; exact Hlt).
  cbn. rewrite Hini. reflexivity.
Qed.

(** [ntor_handshake] of an initiator when every primitive succeeds. *)
Lemma ntor_handshake_initiator_runs sid Y w s s1 s2 Bb Xb Yb secret verify copied
    secret' vfy auth verifier' ka kb :
  w_sessions w !! sid = Some (Some s) ->
  is_initiator s = true ->
  lodp_ecdh_validate_pubkey Y = 0 ->
  lodp_ecdh_validate_pubkey (remote_public_key s) = 0 ->
  rd 0 LODP_ECDH_SECRET_LEN (lodp_ecdh (private_key (session_ecdh_keypair s)) Y)
    = Some s1 ->
  rd 0 LODP_ECDH_SECRET_LEN
     (lodp_ecdh (private_key (session_ecdh_keypair s)) (remote_public_key s)) = Some s2 ->
  rd 0 LODP_ECDH_PUBLIC_KEY_LEN (remote_public_key s) = Some Bb ->
  rd 0 LODP_ECDH_PUBLIC_KEY_LEN (public_key (session_ecdh_keypair s)) = Some Xb ->
  rd 0 LODP_ECDH_PUBLIC_KEY_LEN Y = Some Yb ->
  lodp_mac ss_key (s1 ++ s2 ++ Bb ++ Xb ++ Yb ++ PROTOID) LODP_ECDH_SECRET_LEN
    = (0, secret) ->
  lodp_mac verify_key (s1 ++ s2 ++ Bb ++ Xb ++ Yb ++ PROTOID) LODP_MAC_DIGEST_LEN
    = (0, verify) ->
  rd 0 LODP_ECDH_SECRET_LEN secret = Some copied ->
  wr 0 copied (session_secret s) = Some secret' ->
  LODP_MAC_DIGEST_LEN = LODP_ECDH_SECRET_LEN ->
  rd 0 LODP_MAC_DIGEST_LEN verify = Some vfy ->
  lodp_mac auth_key (vfy ++ Bb ++ Xb ++ Yb ++ PROTOID ++ RESPONDER)
    (length (session_secret_verifier s)) = (0, auth) ->
  wr 0 auth (session_secret_verifier s) = Some verifier' ->
  lodp_derive_sessionkeys secret = (0, (ka, kb)) ->
  ntor_handshake sid Y w
    = Done 0 (set_sessions
                (<[sid := Some (set_keys ka kb
                                  (set_handshake_material (session_ecdh_keypair s)
                                     secret' verifier' s))]> (w_sessions w)) w).
Proof.
  intros Hs Hini HvY HvB H1 H2 HB HX HY Hmac1 Hmac2 Hc Hs' Hds Hv Hmac3 Hvf Hder.
  assert (Hget : get_session sid w = Done s w) by (apply get_session_Done; auto).
  assert (Hsec :
    (let* secret_1 :=
       mem (rd 0 LODP_ECDH_SECRET_LEN
              (lodp_ecdh (private_key (session_ecdh_keypair s)) Y)) in
     let* secret_2 :=
       mem (rd 0 LODP_ECDH_SECRET_LEN
              (lodp_ecdh (private_key (session_ecdh_keypair s))
                 (remote_public_key s))) in
     ret (secret_1, secret_2)) w = Done (s1, s2) w).
  { rewrite H1, H2. reflexivity. }
  unfold ntor_handshake.
  rewrite (bind_step _ _ _ _ _ Hget).
  rewrite (bind_step get_ep _ w (w_ep w) w eq_refl).
  rewrite Hini, HvY, HvB. cbn [Z.eqb negb].
  rewrite (bind_step _ _ _ _ _ Hsec).
  run_mem HB. run_mem HX. run_mem HY.
  rewrite Hmac1. cbn [Z.eqb negb]. rewrite Hmac2. cbn [Z.eqb negb].
  run_mem Hc. run_mem Hs'.
  destruct (decide (LODP_MAC_DIGEST_LEN = LODP_ECDH_SECRET_LEN)); [|contradiction].
  run_mem Hv.
  rewrite Hmac3. run_mem Hvf.
  unfold bind at 1. cbn [put_session modify]. cbn [Z.eqb negb].
  rewrite Hder. unfold bind, put_session, modify, ret. cbn [Z.eqb].
  unfold set_sessions. cbn. rewrite list_insert_insert_eq, Hini. reflexivity.
Qed.

(** X27.  The handshake completes.  When the responder's [ntor_handshake]
    has returned 0 for the initiator's public key, and the initiator holds
    the responder's intro public key and the Diffie-Hellman results agree,
    [on_handshake_ack_pkt] on a HANDSHAKE ACK that carries the responder's
    session public key and its verifier returns 0: the verifier check
    passes, the session is ESTABLISHED with the responder's keys mirrored,
    and [on_connect_fn] has been called with status 0. *)
Theorem handshake_ack_completes (w_ini w_res w_res' : world) (si sr : nat)
    (ini res res' : lodp_session) (pkt : lodp_pkt) (V : bytes) :
  crypto_ok crypto ->
  LODP_ERR_BAD_HANDSHAKE <> 0 ->
  (* the two sessions *)
  w_sessions w_ini !! si = Some (Some ini) ->
  is_initiator ini = true ->
  state ini = STATE_HANDSHAKE ->
  w_sessions w_res !! sr = Some (Some res) ->
  is_initiator res = false ->
  length (session_secret ini) = length (session_secret res) ->
  length (session_secret_verifier ini) = length (session_secret_verifier res) ->
  (forall block, cookie ini = Some block -> (SIZEOF_COOKIE_LEN <= length block)%nat) ->
  (* what the two sides hold of each other *)
  remote_public_key ini = public_key (intro_ecdh_keypair (w_ep w_res)) ->
  lodp_ecdh (private_key (session_ecdh_keypair ini))
      (public_key (session_ecdh_keypair res))
    = lodp_ecdh (private_key (session_ecdh_keypair res))
        (public_key (session_ecdh_keypair ini)) ->
  lodp_ecdh (private_key (session_ecdh_keypair ini)) (remote_public_key ini)
    = lodp_ecdh (private_key (intro_ecdh_keypair (w_ep w_res)))
        (public_key (session_ecdh_keypair ini)) ->
  lodp_ecdh_validate_pubkey (public_key (session_ecdh_keypair res)) = 0 ->
  lodp_ecdh_validate_pubkey (remote_public_key ini) = 0 ->
  (* the responder has run its side of the handshake *)
  ntor_handshake sr (public_key (session_ecdh_keypair ini)) w_res = Done 0 w_res' ->
  w_sessions w_res' !! sr = Some (Some res') ->
  (* the HANDSHAKE ACK carries its public key and its verifier *)
  hdr_type pkt = PKT_HANDSHAKE_ACK ->
  hdr_length pkt = PKT_HDR_HANDSHAKE_ACK_LEN ->
  rd 0 LODP_ECDH_PUBLIC_KEY_LEN (payload pkt)
    = Some (public_key (session_ecdh_keypair res)) ->
  rd 0 LODP_MAC_DIGEST_LEN (session_secret_verifier res') = Some V ->
  rd LODP_ECDH_PUBLIC_KEY_LEN LODP_MAC_DIGEST_LEN (payload pkt) = Some V ->
  exists w_ini' ini' t,
    on_handshake_ack_pkt si pkt w_ini = Done 0 w_ini'
    /\ w_sessions w_ini' !! si = Some (Some ini')
    /\ state ini' = STATE_ESTABLISHED
    /\ tx_key ini' = rx_key res'
    /\ rx_key ini' = tx_key res'
    /\ w_trace w_ini' = EvConnect si 0 :: t.
Proof.
  intros Hok Hbh Hsi Hini Hst Hsr Hres Hls Hlv Hwf HB Hdh1 Hdh2 HvY HvB Hnr Hres'
    Hty Hlen HpY HV HpV.
  destruct (ntor_handshake_responder_inv _ _ _ _ _ Hbh Hsr Hres Hnr)
    as (s1 & s2 & Bb & Xb & Yb & secret & verify & copied & secret_r & vfy & auth
        & verifier_r & ka & kb & H1 & H2 & HBb & HXb & HYb & Hmac1 & Hmac2 & Hc & Hsr'
        & Hds & Hv & Hmac3 & Hvr & Hder & Hlk).
  assert (res' = set_keys kb ka
                   (set_handshake_material (session_ecdh_keypair res) secret_r
                      verifier_r res)) by congruence.
  subst res'. cbn [set_keys session_secret_verifier set_handshake_material] in HV.
  (* the verifier is the MAC itself *)
  pose proof (mac_length _ Hok auth_key (vfy ++ Bb ++ Xb ++ Yb ++ PROTOID ++ RESPONDER)
                (length (session_secret_verifier res))) as Hal.
  rewrite Hmac3 in Hal. cbn [snd] in Hal.
  rewrite (wr_whole _ _ Hal) in Hvr. injection Hvr as ?; subst verifier_r.
  (* the initiator's side *)
  pose proof (wr_Some _ _ _ _ Hsr') as [Hcl _].
  destruct (wr_defined 0 copied (session_secret ini)) as [secret_i Hsi']; [lia|].
  rewrite <- Hlv in Hmac3.
  assert (Hvi : wr 0 auth (session_secret_verifier ini) = Some auth)
    by (apply wr_whole; lia).
  rewrite <- Hdh1 in H1. rewrite <- Hdh2 in H2. rewrite <- HB in HBb.
  pose proof (ntor_handshake_initiator_runs si _ w_ini ini s1 s2 Bb Xb Yb secret verify
                copied secret_i vfy auth auth ka kb Hsi Hini HvY HvB H1 H2 HBb HXb HYb
                Hmac1 Hmac2 Hc Hsi' Hds Hv Hmac3 Hvi Hder) as Hni.
  set (ini1 := set_keys ka kb
                 (set_handshake_material (session_ecdh_keypair ini) secret_i auth ini))
    in *.
  set (w1 := set_sessions (<[si := Some ini1]> (w_sessions w_ini)) w_ini) in *.
  assert (Hlt : (si < length (w_sessions w_ini))%nat) by (eapply lookup_lt_Some; eauto).
  assert (Hs1 : w_sessions w1 !! si = Some (Some ini1)).
  { subst w1. cbn. apply list_lookup_insert_eq. exact Hlt. }
  assert (Hget : get_session si w_ini = Done ini w_ini) by (apply get_session_Done; auto).
  assert (Hget1 : get_session si w1 = Done ini1 w1) by (apply get_session_Done; auto).
  assert (Has : assert (PKT_HANDSHAKE_ACK =? hdr_type pkt) w_ini = Done tt w_ini)
    by (apply assert_true; rewrite Hty; reflexivity).
  set (w2 := set_sessions (<[si := Some (set_state STATE_ESTABLISHED ini1)]>
                             (w_sessions w1)) w1).
  assert (Hs2 : w_sessions w2 !! si = Some (Some (set_state STATE_ESTABLISHED ini1))).
  { subst w2. cbn. apply list_lookup_insert_eq. rewrite length_insert. exact Hlt. }
  destruct (scrub_handshake_material_returns si _ w2 Hs2 Hwf) as (w3 & Hscrub).
  pose proof (scrub_handshake_material_inv _ _ _ _ _ Hs2 Hscrub) as (Hss3 & _ & _).
  exists (set_trace (EvConnect si 0 :: w_trace w3) w3),
    (scrubbed (set_state STATE_ESTABLISHED ini1)), (w_trace w3).
  split.
  { unfold on_handshake_ack_pkt.
    rewrite (bind_step _ _ _ _ _ Hget), (bind_step _ _ _ _ _ Has).
    rewrite Hini, Hst, bool_decide_eq_true_2 by reflexivity. cbn [negb orb].
    rewrite Hlen, Z.eqb_refl. cbn [negb].
    rewrite HpY. cbn [mem]. rewrite (bind_step _ _ _ _ _ eq_refl).
    rewrite (bind_step _ _ _ _ _ Hni).
    rewrite (bind_step _ _ _ _ _ Hget1). cbn [Z.eqb negb].
    rewrite HpV. cbn [mem].
    assert (Hinner :
      (let* digest := ret V in
       let* verifier := mem (rd 0 LODP_MAC_DIGEST_LEN (session_secret_verifier ini1)) in
       if negb (lodp_memcmp digest verifier =? 0) then
         let* _ := put_session si (set_state STATE_ERROR ini1) in
         ret LODP_ERR_BAD_HANDSHAKE
       else
         let* _ := put_session si (set_state STATE_ESTABLISHED ini1) in
         ret 0) w1 = Done 0 w2).
    { rewrite (bind_step (ret V) _ w1 V w1 eq_refl).
      subst ini1. cbn [set_keys session_secret_verifier set_handshake_material].
      rewrite HV. cbn [mem]. rewrite (bind_step _ _ _ _ _ eq_refl).
      rewrite (proj2 (lodp_memcmp_0 V V) eq_refl). cbn [Z.eqb negb]. reflexivity. }
    rewrite (bind_step _ _ _ _ _ Hinner).
    rewrite (bind_step _ _ _ _ _ Hscrub). reflexivity. }
  split.
  { cbn. rewrite Hss3. apply list_lookup_insert_eq.
    subst w2 w1. cbn. rewrite !length_insert. exact Hlt. }
  split; [reflexivity|]. split; [reflexivity|]. split; reflexivity.
Qed.

End Coverage.

(** ** The general statements at the run *)

Import Scenario.

Lemma mac_then_decrypt_invalid_mac_witness :
  @mac_then_decrypt P C r_intro_sym tampered w_r
    = Done (@LODP_ERR_INVALID_MAC P, tampered) w_r.
Proof.
  refine (proj1 (@mac_then_decrypt_invalid_mac P C r_intro_sym tampered w_r _ _ _ _ _ _ _ _ _)).
  - vm_compute. reflexivity.
  - vm_compute. discriminate.
  - vm_compute. reflexivity.
  - vm_compute. reflexivity.
  - vm_compute. reflexivity.
  - vm_compute. discriminate.
Defined.

Lemma incoming_header_checks_witness :
  exists w', @lodp_on_incoming_pkt P C None bad_flags addr_i w_r
             = Done (@LODP_ERR_BAD_PACKET P) w'.
Proof.
  eexists.
  refine (proj2 (@incoming_header_checks P C None bad_flags addr_i w_r _ _ _ _ _ _ _ _ _ _)).
  - vm_compute. reflexivity.
  - vm_compute. reflexivity.
  - right. right. vm_compute. discriminate.
Defined.

Lemma envelope_roundtrip_witness :
  exists buf' w' d rb',
    @encrypt_then_mac P C r_intro_sym data_plain w_pad = Done (0, buf') w'
    /\ rd 0 (Z.to_nat (len buf')) (ciphertext buf') = Some d
    /\ @mac_then_decrypt P C r_intro_sym (recv_buf d) w_r = Done (0, rb') w_r
    /\ rd (@PKT_TAG_LEN P) 20 (plaintext rb') = Some data_body.
Proof.
  eassert (He : @encrypt_then_mac P C r_intro_sym data_plain w_pad = Done (0, _) _)
    by (vm_compute; reflexivity).
  eassert (Hd : rd 0 (Z.to_nat (len _)) (ciphertext _) = Some _).
  { match type of He with
    | _ = Done (0, ?b) _ => instantiate (2 := b); instantiate (2 := b)
    end.
    vm_compute. reflexivity. }
  destruct (@envelope_roundtrip P C r_intro_sym data_plain w_pad 20 data_body)
    as (buf' & w' & d & H1 & H2 & _ & H3).
  - exact run_crypto_ok.
  - intros iv m. reflexivity.
  - intros m. reflexivity.
  - vm_compute. reflexivity.
  - vm_compute. reflexivity.
  - vm_compute. reflexivity.
  - split; vm_compute; [reflexivity|discriminate].
  - vm_compute. reflexivity.
  - intros f [= <-]. vm_compute. discriminate.
  - rewrite He in H1. injection H1 as <- <-.
    rewrite Hd in H2. injection H2 as <-.
    match type of Hd with
    | _ = Some ?d => destruct (H3 (recv_buf d) w_r) as (rb' & H4 & H5)
    end.
    + vm_compute. reflexivity.
    + vm_compute. reflexivity.
    + vm_compute. reflexivity.
    + eexists _, _, _, rb'. split; [exact He|]. split; [exact Hd|].
      split; [exact H4|exact H5].
Defined.

Lemma ntor_key_agreement_witness :
  exists ini' res' secret_input secret key_a key_b,
    w_sessions (after (@ntor_handshake P C 0 Y_r i2)) !! 0%nat = Some (Some ini')
    /\ w_sessions (after (@ntor_handshake P C 0 X_i r1s)) !! 0%nat = Some (Some res')
    /\ @lodp_mac C (@ss_key P) secret_input (@LODP_ECDH_SECRET_LEN P) = (0, secret)
    /\ @lodp_derive_sessionkeys C secret = (0, (key_a, key_b))
    /\ (tx_key ini' = key_a /\ rx_key ini' = key_b)
    /\ (rx_key res' = key_a /\ tx_key res' = key_b)
    /\ tx_key ini' = rx_key res'
    /\ rx_key ini' = tx_key res'.
Proof.
  apply (@ntor_key_agreement P C i2 _ r1s _ 0%nat 0%nat (session_of i2 0) (session_of r1s 0) X_i Y_r).
  - vm_compute. discriminate.
  - vm_compute. reflexivity.
  - vm_compute. reflexivity.
  - vm_compute. reflexivity.
  - vm_compute. reflexivity.
  - reflexivity.
  - reflexivity.
  - vm_compute. reflexivity.
  - vm_compute. reflexivity.
  - vm_compute. reflexivity.
  - vm_compute. reflexivity.
  - vm_compute. reflexivity.
Defined.

Lemma incoming_key_selection_witness :
  (exists buf2 w2,
     @incoming_mac_then_decrypt P C (Some 0%nat) (sent i2) r2
       = Done (inr (false, buf2)) w2)
  /\ (exists w1, @lodp_on_incoming_pkt P C (Some 0%nat) tampered addr_r i1
                 = Done (@LODP_ERR_NOT_RESPONDER P) w1).
Proof.
  assert (Hne : @LODP_ERR_INVALID_MAC P <> 0) by (vm_compute; discriminate).
  split.
  - pose proof (@incoming_key_selection P C (Some 0%nat) (sent i2) addr_i r2 Hne) as H.
    cbv zeta in H. destruct H as [H _].
    edestruct (H 0%nat) as (_ & _ & H3);
      [reflexivity | vm_compute; reflexivity | vm_compute; reflexivity |].
    edestruct H3 as [_ H4]; [vm_compute; reflexivity|].
    edestruct H4 as [_ H5]; [vm_compute; reflexivity | vm_compute; reflexivity |].
    eexists _, _. apply H5. reflexivity.
  - pose proof (@incoming_key_selection P C (Some 0%nat) tampered addr_r i1 Hne) as H.
    cbv zeta in H. destruct H as [H _].
    edestruct (H 0%nat) as (_ & _ & H3);
      [reflexivity | vm_compute; reflexivity | vm_compute; reflexivity |].
    edestruct H3 as [H4 _]; [vm_compute; reflexivity|].
    eexists. apply H4. vm_compute. reflexivity.
Defined.

Lemma generate_cookie_wipes_pointer_prefix_witness :
  exists dst' w' digest,
    @generate_cookie P C (zeros 32) 0 init_pkt_i addr_i w_r = Done (0, dst') w'
    /\ run_mac (cookie_key (w_ep w')) blob_i 32 = (0, digest)
    /\ rd 0 32 dst' = Some (zeros 8 ++ drop 8 digest).
Proof.
  assert (H1 : (@SIZEOF_POINTER P <= @COOKIE_LEN P)%nat) by (vm_compute; lia).
  assert (H2 : @LODP_ERR_BAD_PACKET P <> 0) by (vm_compute; discriminate).
  assert (H3 : @LODP_ERR_AFNOTSUPPORT P <> 0) by (vm_compute; discriminate).
  destruct (@generate_cookie_wipes_pointer_prefix P C run_crypto_ok H1 H2 H3) as [HA _].
  eassert (Hg : @generate_cookie P C (zeros 32) 0 init_pkt_i addr_i w_r = Done (0, _) _)
    by (vm_compute; reflexivity).
  destruct (HA _ _ _ _ _ _ _ Hg) as (a & keys & digest & Ha & Hk & Hmac & Hrd).
  vm_compute in Ha. injection Ha as <-.
  vm_compute in Hk. injection Hk as <-.
  eexists _, _, digest. split; [exact Hg|]. split; [exact Hmac|exact Hrd].
Defined.

(** ** The further properties at the run *)

Import Cases.

Lemma put_hdr_parse_hdr_witness :
  exists b',
    @put_hdr P PKT_HEARTBEAT 12 fresh_buf = Some b'
    /\ @parse_hdr P b'
       = Some (mk_pkt PKT_HEARTBEAT 0 (12 mod 65536)
                 (drop (@PKT_HDR_LEN P) (plaintext fresh_buf))).
Proof.
  eassert (H : @put_hdr P PKT_HEARTBEAT 12 fresh_buf = Some _)
    by (vm_compute; reflexivity).
  eexists. split; [exact H|].
  eapply proj1. eapply (@put_hdr_parse_hdr P PKT_HEARTBEAT 12 fresh_buf).
  - unfold PKT_HEARTBEAT. lia.
  - exact H.
Defined.

Lemma incoming_type_out_of_context_witness :
  @lodp_on_incoming_pkt P C None stray_data addr_i w_r
    = Done (@LODP_ERR_BAD_PACKET P) w_r.
Proof.
  eapply (@incoming_type_out_of_context P C None stray_data addr_i w_r).
  - vm_compute. reflexivity.
  - vm_compute. reflexivity.
  - vm_compute. split; discriminate.
Defined.

Lemma incoming_rekey_rejected_witness :
  @lodp_on_incoming_pkt P C (Some 0%nat) rekey_in addr_r est_i
    = Done (@LODP_ERR_BAD_PACKET P) est_i.
Proof.
  eapply proj1.
  eapply (@incoming_rekey_rejected P C (Some 0%nat) rekey_in addr_r est_i).
  - vm_compute. reflexivity.
  - vm_compute. reflexivity.
  - left. vm_compute. reflexivity.
Defined.

Lemma incoming_handshake_for_initiator_witness :
  @lodp_on_incoming_pkt P C (Some 0%nat) (sent i2) addr_i w_dual
    = Done (@LODP_ERR_NOT_RESPONDER P) w_dual.
Proof.
  eapply (@incoming_handshake_for_initiator P C 0%nat).
  - vm_compute. reflexivity.
  - vm_compute. reflexivity.
  - vm_compute. split; discriminate.
  - vm_compute. reflexivity.
  - vm_compute. reflexivity.
  - vm_compute. reflexivity.
  - vm_compute. reflexivity.
Defined.

Lemma send_payload_too_large_witness :
  @lodp_send_data_pkt P C 0 big_payload est_i = Done (@LODP_ERR_MSGSIZE P) est_i
  /\ @lodp_send_heartbeat_pkt P C 0 big_payload est_i
     = Done (@LODP_ERR_MSGSIZE P) est_i.
Proof.
  eapply (@send_payload_too_large P C 0%nat).
  - vm_compute. reflexivity.
  - vm_compute. reflexivity.
  - vm_compute. reflexivity.
Defined.

Lemma send_payload_filling_mss_asserts_witness :
  exists w', @lodp_send_data_pkt P_debug C 0 full_payload est_i = Aborted w'.
Proof.
  edestruct (@send_payload_filling_mss_asserts P_debug C 0%nat)
    with (data := full_payload) (w := est_i) as [H _];
    [ reflexivity | vm_compute; reflexivity | vm_compute; reflexivity
    | vm_compute; reflexivity | vm_compute; reflexivity | ].
  eexists. exact H.
Defined.

Lemma builders_send_at_most_once_witness :
  sends_at_most_once (peer_addr (session_of est_i 0)) est_i est_i_sent.
Proof.
  eapply (@builders_send_at_most_once P C 0%nat (session_of est_i 0) hello est_i 0
            est_i_sent).
  - vm_compute. reflexivity.
  - left. vm_compute. reflexivity.
Defined.

Lemma incoming_session_packet_out_of_state_witness :
  @lodp_on_incoming_pkt P C (Some 0%nat) early_data addr_r i2
    = Done (@LODP_ERR_BAD_PACKET P) i2.
Proof.
  eapply (@incoming_session_packet_out_of_state P C 0%nat).
  - vm_compute. reflexivity.
  - vm_compute. reflexivity.
  - vm_compute. reflexivity.
  - left. split; [left; vm_compute; reflexivity | vm_compute; discriminate].
Defined.

Lemma on_init_ack_pkt_edge_witness :
  @on_init_ack_pkt P C 0 empty_init_ack i1 = Done (@LODP_ERR_BAD_PACKET P) i1
  /\ exists w',
       @on_init_ack_pkt P C 0 init_ack_32 (set_heap [] i1)
         = Done (@LODP_ERR_NOBUFS P) w'
       /\ w_trace w' = EvConnect 0 (@LODP_ERR_NOBUFS P) :: w_trace (set_heap [] i1).
Proof.
  split.
  - edestruct (@on_init_ack_pkt_edge P C 0%nat) with (pkt := empty_init_ack) (w := i1)
      as [H _];
      [ vm_compute; reflexivity | vm_compute; reflexivity | vm_compute; reflexivity
      | reflexivity | ].
    apply H. vm_compute. reflexivity.
  - edestruct (@on_init_ack_pkt_edge P C 0%nat) with (pkt := init_ack_32)
      (w := set_heap [] i1) as [_ H];
      [ vm_compute; reflexivity | vm_compute; reflexivity | vm_compute; reflexivity
      | reflexivity | ].
    edestruct H as (w' & H1 & _ & H2);
      [ vm_compute; reflexivity | intros rest; vm_compute; discriminate | ].
    exists w'. split; [exact H1|exact H2].
Defined.

Lemma on_handshake_ack_pkt_outcome_witness :
  exists s',
    w_sessions (after (@on_handshake_ack_pkt P C 0 hs_ack_pkt i2))
      = <[0%nat := Some s']> (w_sessions i2)
    /\ cookie s' = None
    /\ session_secret s' = zeros (length (session_secret (session_of i2 0))).
Proof.
  edestruct (@on_handshake_ack_pkt_outcome P C 0%nat (session_of i2 0) hs_ack_pkt i2 0
               (after (@on_handshake_ack_pkt P C 0 hs_ack_pkt i2)))
    as (s' & H1 & _ & H3 & _ & H5 & _);
    [ vm_compute; reflexivity | vm_compute; reflexivity | vm_compute; reflexivity
    | vm_compute; reflexivity | vm_compute; reflexivity | ].
  exists s'. split; [exact H1|]. split; [exact H3|exact H5].
Defined.

Lemma handshake_after_data_unanswered_witness :
  w_trace (after (@on_handshake_pkt P C (Some 0%nat) hs_pkt_i addr_i r2_data))
    = w_trace r2_data.
Proof.
  eapply (@handshake_after_data_unanswered P C 0%nat) with (pkt := data_pkt_8) (w := r2)
    (hs := hs_pkt_i) (addr := addr_i).
  - vm_compute. reflexivity.
  - vm_compute. reflexivity.
  - vm_compute. reflexivity.
  - vm_compute. reflexivity.
Defined.

Lemma handshake_cookie_mismatch_no_effect_witness :
  (@LODP_ERR_INVALID_COOKIE P = @LODP_ERR_INVALID_COOKIE P
   \/ @LODP_ERR_INVALID_COOKIE P = @LODP_ERR_BAD_PACKET P)
  /\ w_trace (after (@on_handshake_pkt P C None hs_pkt_i addr_i r1_late))
       = w_trace r1_late
  /\ w_sessions (after (@on_handshake_pkt P C None hs_pkt_i addr_i r1_late))
       = w_sessions r1_late
  /\ w_pool (after (@on_handshake_pkt P C None hs_pkt_i addr_i r1_late))
       = w_pool r1_late.
Proof.
  eapply (@handshake_cookie_mismatch_no_effect P C None hs_pkt_i addr_i r1_late).
  - vm_compute. reflexivity.
  - vm_compute. reflexivity.
  - vm_compute. discriminate.
  - vm_compute. reflexivity.
Defined.

Lemma on_init_pkt_stateless_witness :
  w_sessions (after (@on_init_pkt P C init_pkt_i addr_i w_r)) = w_sessions w_r.
Proof.
  eapply proj1.
  eapply (@on_init_pkt_stateless P C init_pkt_i addr_i w_r 0).
  vm_compute. reflexivity.
Defined.

Lemma encrypt_then_mac_padding_witness :
  exists r buf' w',
    @encrypt_then_mac P C r_intro_sym data_plain w_pad = Done (r, buf') w'
    /\ len buf' = Z.min (16 + len data_plain) (Z.of_nat (@LODP_MSS P))
    /\ len data_plain <= len buf'.
Proof.
  eassert (H : @encrypt_then_mac P C r_intro_sym data_plain w_pad = Done (_, _) _)
    by (vm_compute; reflexivity).
  eexists _, _, _. split; [exact H|].
  pose proof (@encrypt_then_mac_padding P C _ _ _ _ _ _ H) as (H1 & H2 & _).
  split; [exact H1|exact H2].
Defined.

Lemma generate_cookie_rotation_witness :
  w_now (after (@generate_cookie P C (zeros 32) 0 init_pkt_i addr_i (set_now 31 r1)))
    <= cookie_rotate_time
         (w_ep (after (@generate_cookie P C (zeros 32) 0 init_pkt_i addr_i
                         (set_now 31 r1))))
       + COOKIE_ROTATE_INTERVAL.
Proof.
  eapply proj1, proj2.
  eapply (@generate_cookie_rotation P C (zeros 32) 0 init_pkt_i addr_i (set_now 31 r1)).
  vm_compute. reflexivity.
Defined.

Lemma data_pkt_delivery_witness :
  exists wr' t,
    @lodp_on_incoming_pkt P C (Some 0%nat) (sent est_i_sent) addr_i est_r
      = Done (on_recv_fn (callbacks (w_ep est_r)) 0%nat hello) wr'
    /\ w_trace wr' = EvRecv 0 hello :: t.
Proof.
  edestruct (@data_pkt_delivery P C 0%nat) with (data := hello) (ws := est_i)
    (ws' := est_i_sent) (sid_r := 0%nat) (rb := sent est_i_sent) (addr := addr_i)
    (wr := est_r)
    as (wr' & t & H1 & H2 & _);
    [ exact run_crypto_ok | vm_compute; reflexivity | vm_compute; reflexivity
    | vm_compute; reflexivity | vm_compute; reflexivity | vm_compute; reflexivity
    | vm_compute; reflexivity | vm_compute; reflexivity
    | intros block; vm_compute; discriminate
    | vm_compute; reflexivity | vm_compute; reflexivity | vm_compute; reflexivity | ].
  exists wr', t. split; [exact H1|exact H2].
Defined.

Lemma heartbeat_ack_delivery_witness :
  exists data wa',
    @lodp_on_incoming_pkt P C (Some 0%nat) (sent est_r_hb) addr_r est_i = Done 0 wa'
    /\ w_trace wa' = EvHeartbeatAck 0 data :: w_trace est_i.
Proof.
  edestruct (@heartbeat_ack_delivery P C 0%nat) with (hb_pkt := hb_pkt) (wb := est_r)
    (wb' := est_r_hb) (sid_a := 0%nat) (rb := sent est_r_hb) (addr := addr_r)
    (wa := est_i)
    as (data & wa' & _ & H1 & H2 & _);
    [ exact run_crypto_ok | vm_compute; split; [discriminate|reflexivity]
    | vm_compute; discriminate | vm_compute; reflexivity
    | vm_compute; reflexivity | vm_compute; reflexivity | vm_compute; reflexivity
    | vm_compute; reflexivity | vm_compute; reflexivity | vm_compute; reflexivity
    | vm_compute; reflexivity | vm_compute; reflexivity | vm_compute; reflexivity | ].
  exists data, wa'. split; [exact H1|exact H2].
Defined.

Lemma on_handshake_pkt_no_memory_witness :
  exists w',
    @on_handshake_pkt P C None hs_pkt_i addr_i (set_heap [] r1) = Done 0 w'
    /\ w_trace w' = w_trace (set_heap [] r1)
    /\ w_sessions w' = w_sessions (set_heap [] r1).
Proof.
  eapply (@on_handshake_pkt_no_memory P C hs_pkt_i addr_i (set_heap [] r1)).
  - vm_compute. reflexivity.
  - vm_compute. reflexivity.
  - vm_compute. reflexivity.
  - vm_compute. reflexivity.
  - vm_compute. reflexivity.
  - vm_compute. reflexivity.
  - apply Nat.leb_le. vm_compute. reflexivity.
  - apply Nat.leb_le. vm_compute. reflexivity.
  - vm_compute. reflexivity.
  - intros h. vm_compute. discriminate.
Defined.

Lemma incoming_rejected_by_envelope_witness :
  @lodp_on_incoming_pkt P C None tampered addr_i w_r
    = Done (@LODP_ERR_INVALID_MAC P) w_r.
Proof.
  eapply (@incoming_rejected_by_envelope P C None tampered addr_i w_r).
  vm_compute. reflexivity.
Defined.

Lemma init_pkt_arrival_witness :
  exists hdr mk bk,
    @peer_intro_keys P hdr = Some (mk_symmetric_key mk bk)
    /\ @lodp_on_incoming_pkt P C None (sent i1) addr_i w_r
       = @on_init_pkt P C hdr addr_i w_r.
Proof.
  edestruct (@init_pkt_arrival P C 0%nat) with (ws := w_i 0) (ws' := i1)
    (rb := sent i1) (addr := addr_i) (wr := w_r)
    as (hdr & mk & bk & _ & _ & _ & H1 & H2 & _);
    [ exact run_crypto_ok | reflexivity | vm_compute; reflexivity
    | vm_compute; discriminate | vm_compute; reflexivity | vm_compute; reflexivity
    | vm_compute; reflexivity | vm_compute; reflexivity | vm_compute; reflexivity
    | vm_compute; reflexivity | vm_compute; reflexivity | vm_compute; reflexivity | ].
  exists hdr, mk, bk. split; [exact H1|exact H2].
Defined.

Lemma init_ack_pkt_arrival_witness :
  exists hdr keys rc digest,
    rd 0 (@LODP_MAC_KEY_LEN P + @LODP_BULK_KEY_LEN P) (payload init_pkt_i) = Some keys
    /\ @lodp_mac C (cookie_key (w_ep r1_ack))
         ([x0a; x00; x00; x01; x10; x00] ++ keys) (@COOKIE_LEN P) = (rc, digest)
    /\ w_ep r1_ack = w_ep w_r
    /\ hdr_length hdr = Z.of_nat (@PKT_HDR_INIT_ACK_LEN P) + Z.of_nat (@COOKIE_LEN P)
    /\ rd 0 (@COOKIE_LEN P) (payload hdr)
         = Some (zeros (@SIZEOF_POINTER P) ++ drop (@SIZEOF_POINTER P) digest)
    /\ @lodp_on_incoming_pkt P C (Some 0%nat) (sent r1_ack) addr_r i1
       = @on_init_ack_pkt P C 0 hdr i1.
Proof.
  edestruct (@init_ack_pkt_arrival P C init_pkt_i addr_i [x0a; x00; x00; x01; x10; x00]
               w_r)
    with (wr' := r1_ack) (sid := 0%nat) (rb := sent r1_ack) (from := addr_r) (wi := i1)
    as (hdr & keys & rc & digest & H1 & H2 & H3 & H4 & H5 & H6 & _);
    [ exact run_crypto_ok | apply Nat.leb_le; vm_compute; reflexivity
    | vm_compute; reflexivity | vm_compute; discriminate
    | vm_compute; reflexivity | vm_compute; reflexivity
    | vm_compute; reflexivity | vm_compute; reflexivity | vm_compute; reflexivity
    | vm_compute; reflexivity | vm_compute; reflexivity | vm_compute; reflexivity
    | vm_compute; reflexivity | vm_compute; reflexivity | ].
  exists hdr, keys, rc, digest.
  split; [exact H1|]. split; [exact H2|]. split.
  { apply H3. vm_compute. discriminate. }
  split; [exact H4|]. split; [exact H5|exact H6].
Defined.

Lemma on_init_ack_pkt_saves_cookie_witness :
  exists block w1,
    rd 0 32 (payload init_ack_32) = Some block
    /\ @lodp_handshake P C 0 w1
       = Done 0 (after (@on_init_ack_pkt P C 0 init_ack_32 i1)).
Proof.
  edestruct (@on_init_ack_pkt_saves_cookie P C 0%nat) with (pkt := init_ack_32) (w := i1)
    (r := 0) (w' := after (@on_init_ack_pkt P C 0 init_ack_32 i1))
    as (block & w1 & H1 & _ & _ & H2);
    [ vm_compute; reflexivity | vm_compute; reflexivity | vm_compute; reflexivity
    | vm_compute; reflexivity | vm_compute; reflexivity | vm_compute; reflexivity | ].
  exists block, w1. split; [exact H1|exact H2].
Defined.

Lemma handshake_pkt_arrival_witness :
  exists hdr block echoed,
    cookie (session_of i2 0) = Some block
    /\ rd (32 + 32 + 32) (Z.to_nat (cookie_len (session_of i2 0))) (payload hdr)
       = Some echoed
    /\ @lodp_on_incoming_pkt P C None (sent i2_again) addr_i r1
       = @on_handshake_pkt P C None hdr addr_i r1.
Proof.
  edestruct (@handshake_pkt_arrival P C 0%nat (session_of i2 0)) with (ws := i2)
    (ws' := i2_again) (rb := sent i2_again) (addr := addr_i) (wr := r1)
    as (hdr & mk & bk & X & block & echoed & _ & _ & _ & H1 & _ & _ & _ & _ & H2 & H3 & _);
    [ exact run_crypto_ok | reflexivity | vm_compute; reflexivity
    | vm_compute; discriminate | vm_compute; reflexivity | vm_compute; reflexivity
    | vm_compute; reflexivity | vm_compute; reflexivity | vm_compute; reflexivity
    | vm_compute; reflexivity | vm_compute; reflexivity | vm_compute; reflexivity | ].
  exists hdr, block, echoed. split; [exact H1|]. split; [exact H2|exact H3].
Defined.

Lemma heartbeat_pkt_arrival_witness :
  exists hdr,
    rd 0 (length hello) (payload hdr) = Some hello
    /\ @lodp_on_incoming_pkt P C (Some 0%nat) (sent est_i_hb) addr_i est_r
       = @on_heartbeat_pkt P C 0 hdr est_r.
Proof.
  edestruct (@heartbeat_pkt_arrival P C 0%nat) with (data := hello) (ws := est_i)
    (ws' := est_i_hb) (sid_r := 0%nat) (rb := sent est_i_hb) (addr := addr_i)
    (wr := est_r)
    as (hdr & _ & _ & H1 & H2 & _);
    [ exact run_crypto_ok | vm_compute; reflexivity | vm_compute; reflexivity
    | vm_compute; reflexivity | vm_compute; reflexivity | vm_compute; reflexivity
    | vm_compute; reflexivity | vm_compute; reflexivity | vm_compute; reflexivity
    | vm_compute; reflexivity | ].
  exists hdr. split; [exact H1|exact H2].
Defined.

Lemma handshake_ack_pkt_arrival_witness :
  exists hdr,
    hdr_length hdr = Z.of_nat (@PKT_HDR_HANDSHAKE_ACK_LEN P)
    /\ @lodp_on_incoming_pkt P C (Some 0%nat) (sent r1_hs) addr_r i2
       = @on_handshake_ack_pkt P C 0 hdr i2.
Proof.
  edestruct (@handshake_ack_pkt_arrival P C None hs_pkt_i addr_i r1) with (wr' := r1_hs)
    (sid := 0%nat) (rb := sent r1_hs) (from := addr_r) (wi := i2)
    as (hdr & wx & s_r & Y & digest & _ & _ & _ & _ & H1 & _ & _ & H2 & _);
    [ exact run_crypto_ok | vm_compute; reflexivity | vm_compute; discriminate
    | vm_compute; reflexivity | vm_compute; reflexivity | vm_compute; reflexivity
    | vm_compute; reflexivity | vm_compute; reflexivity | vm_compute; reflexivity
    | vm_compute; reflexivity | vm_compute; reflexivity | ].
  exists hdr. split; [exact H1|exact H2].
Defined.

Lemma handshake_ack_completes_witness :
  exists w' ini' res' t,
    @on_handshake_ack_pkt P C 0 hs_ack_pkt i2 = Done 0 w'
    /\ w_sessions w' !! 0%nat = Some (Some ini')
    /\ w_sessions r1k !! 0%nat = Some (Some res')
    /\ state ini' = STATE_ESTABLISHED
    /\ tx_key ini' = rx_key res'
    /\ rx_key ini' = tx_key res'
    /\ w_trace w' = EvConnect 0 0 :: t.
Proof.
  eassert (Hi : w_sessions i2 !! 0%nat = Some (Some _)) by (vm_compute; reflexivity).
  eassert (Hr : w_sessions r1s !! 0%nat = Some (Some _)) by (vm_compute; reflexivity).
  eassert (Hk : w_sessions r1k !! 0%nat = Some (Some _)) by (vm_compute; reflexivity).
  eassert (Hp : hs_ack_pkt = _) by (vm_compute; reflexivity).
  match type of Hp with
  | _ = ?p =>
      edestruct (@handshake_ack_completes P C i2 r1s r1k 0%nat 0%nat) with (pkt := p)
        as (w' & ini' & t & H1 & H2 & H3 & H4 & H5 & H6);
      [ exact run_crypto_ok | vm_compute; discriminate
      | exact Hi | vm_compute; reflexivity | vm_compute; reflexivity
      | exact Hr | vm_compute; reflexivity | vm_compute; reflexivity
      | vm_compute; reflexivity
      | intros block Hb; vm_compute in Hb; injection Hb as <-; apply Nat.leb_le;
        vm_compute; reflexivity
      | vm_compute; reflexivity | vm_compute; reflexivity | vm_compute; reflexivity
      | vm_compute; reflexivity | vm_compute; reflexivity
      | vm_compute; reflexivity | exact Hk
      | vm_compute; reflexivity | vm_compute; reflexivity | vm_compute; reflexivity
      | vm_compute; reflexivity | vm_compute; reflexivity | ]
  end.
  eexists w', ini', _, t. rewrite Hp.
  split; [exact H1|]. split; [exact H2|]. split; [exact Hk|].
  split; [exact H3|]. split; [exact H4|]. split; [exact H5|exact H6].
Defined.
